(** * Event correlation engine of the agent (eventhandler.go)

    A shallow embedding of the event handlers, the tool-chain resolver and
    the private-address classifier of [eventhandler.go], together with the
    properties of the specification that are about them.

    Go strings are [string]; the maps of [EventHandler] are [gmap string _];
    a [net.IP] is a list of bytes (each a [Z] in [0, 255]) whose empty list
    is Go's [nil]; calls to collaborators (collector, log, annotations) are
    recorded as a list of effects returned by each handler. *)

From Stdlib Require Import ZArith String Ascii List Lia DecimalString.
From stdpp Require Import base option list gmap strings.

Local Open Scope string_scope.
Local Open Scope Z_scope.
Local Open Scope list_scope.

(** ** Go strings *)

Module GoString.

Definition bytes (s : string) : list ascii := list_ascii_of_string s.
Definition str (l : list ascii) : string := string_of_list_ascii l.

Definition len (s : string) : nat := length (bytes s).

Definition eqb_bytes (a b : list ascii) : bool := bool_decide (a = b).

(** [strings.HasPrefix]: [len(s) >= len(prefix) && s[:len(prefix)] == prefix]. *)
Definition HasPrefix (s prefix : string) : bool :=
  (len prefix <=? len s)%nat && eqb_bytes (take (len prefix) (bytes s)) (bytes prefix).

(** [strings.HasSuffix]: [len(s) >= len(suffix) && s[len(s)-len(suffix):] == suffix]. *)
Definition HasSuffix (s suffix : string) : bool :=
  (len suffix <=? len s)%nat
  && eqb_bytes (drop (len s - len suffix) (bytes s)) (bytes suffix).

(** [strings.Contains]: some position of [s] starts an occurrence of [substr]. *)
Fixpoint contains_at (sub l : list ascii) : bool :=
  eqb_bytes (take (length sub) l) sub
  || match l with
     | [] => false
     | _ :: l' => contains_at sub l'
     end.

Definition Contains (s substr : string) : bool :=
  contains_at (bytes substr) (bytes s).

(** [fmt.Sprintf("%d", n)] on an integer: its decimal numeral. *)
Definition fmt_d (n : Z) : string := NilZero.string_of_int (Z.to_int n).

End GoString.
Import GoString.

(** ** The [path] and [path/filepath] functions the handlers call *)

Module GoPath.

Definition slash : ascii := "/"%char.
Definition dot : ascii := "."%char.

Definition is_slash (c : ascii) : bool := bool_decide (c = slash).
Definition is_dot (c : ascii) : bool := bool_decide (c = dot).

(** [path.Ext]: scan from the end; stop at a slash; at the first dot return
    the suffix that starts there. [acc] is the part already scanned. *)
Fixpoint ext_scan (rpath acc : list ascii) : list ascii :=
  match rpath with
  | [] => []
  | c :: r =>
      if is_slash c then []
      else if is_dot c then c :: acc
      else ext_scan r (c :: acc)
  end.

Definition Ext (path : string) : string := str (ext_scan (rev (bytes path)) []).

(** [path.Clean]. The output buffer is kept reversed ([rout]); [out.w] is
    its length. *)
Fixpoint backtrack (rout : list ascii) (dotdot : nat) : list ascii :=
  match rout with
  | [] => []
  | c :: r =>
      if (dotdot <? length r)%nat && negb (is_slash c)
      then backtrack r dotdot
      else r
  end.

Fixpoint span_element (rest : list ascii) : list ascii * list ascii :=
  match rest with
  | [] => ([], [])
  | c :: rest' =>
      if is_slash c then ([], rest)
      else let '(el, tl) := span_element rest' in (c :: el, tl)
  end.

Fixpoint clean_loop (fuel : nat) (rooted : bool) (rest rout : list ascii)
    (dotdot : nat) : list ascii :=
  match fuel with
  | O => rout
  | S fuel' =>
      match rest with
      | [] => rout
      | c0 :: rest1 =>
          if is_slash c0 then
            (* empty path element *)
            clean_loop fuel' rooted rest1 rout dotdot
          else if is_dot c0 && match rest1 with
                               | [] => true
                               | c1 :: _ => is_slash c1
                               end then
            (* . element *)
            clean_loop fuel' rooted rest1 rout dotdot
          else if is_dot c0 && match rest1 with
                               | c1 :: [] => is_dot c1
                               | c1 :: c2 :: _ => is_dot c1 && is_slash c2
                               | [] => false
                               end then
            (* .. element: remove to last slash *)
            let rest2 := tl rest1 in
            if (dotdot <? length rout)%nat then
              clean_loop fuel' rooted rest2 (backtrack rout dotdot) dotdot
            else if negb rooted then
              let rout1 := if (0 <? length rout)%nat then slash :: rout else rout in
              let rout2 := dot :: dot :: rout1 in
              clean_loop fuel' rooted rest2 rout2 (length rout2)
            else
              clean_loop fuel' rooted rest2 rout dotdot
          else
            (* real path element: add slash if needed, copy element *)
            let rout1 :=
              if (rooted && negb (length rout =? 1)%nat)
                 || (negb rooted && negb (length rout =? 0)%nat)
              then slash :: rout else rout in
            let '(el, rest2) := span_element rest in
            clean_loop fuel' rooted rest2 (rev el ++ rout1) dotdot
      end
  end.

Definition Clean (path : string) : string :=
  match bytes path with
  | [] => "."
  | c0 :: rest1 =>
      let rooted := is_slash c0 in
      let out :=
        if rooted
        then clean_loop (length rest1) true rest1 [slash] 1
        else clean_loop (S (length rest1)) false (c0 :: rest1) [] 0 in
      match out with
      | [] => "."
      | _ => str (rev out)
      end
  end.

(** [path.Join]: leading empty elements are skipped, the rest is joined
    with slashes and cleaned. *)
Fixpoint join_buf (buf : list ascii) (elem : list string) : list ascii :=
  match elem with
  | [] => buf
  | e :: elem' =>
      match buf, bytes e with
      | [], [] => join_buf buf elem'
      | [], _ => join_buf (bytes e) elem'
      | _, _ => join_buf (buf ++ slash :: bytes e) elem'
      end
  end.

Definition Join (elem : list string) : string :=
  if (fold_right (fun e n => (len e + n)%nat) 0%nat elem =? 0)%nat then ""
  else Clean (str (join_buf [] elem)).

(** [filepath.Base] on a Unix system. *)
Fixpoint strip_slashes (rpath : list ascii) : list ascii :=
  match rpath with
  | c :: r => if is_slash c then strip_slashes r else rpath
  | [] => []
  end.

Fixpoint last_element (rpath acc : list ascii) : list ascii :=
  match rpath with
  | [] => acc
  | c :: r => if is_slash c then acc else last_element r (c :: acc)
  end.

Definition Base (path : string) : string :=
  match bytes path with
  | [] => "."
  | _ =>
      match last_element (strip_slashes (rev (bytes path))) [] with
      | [] => "/"
      | el => str el
      end
  end.

End GoPath.

(** ** File-name predicates of [eventhandler.go] *)

Definition isSyscallExcluded (syscall : string) : bool :=
  if bool_decide (syscall = "chmod") || bool_decide (syscall = "unlink")
     || bool_decide (syscall = "unlinkat")
  then true
  else false.

Definition sourceCodeExtensions : list string :=
  [".c"; "cpp"; "cs"; ".go"; ".java"; ".js"; ".php"; "py"; ".rb"; ".rs";
   ".scala"; ".sc"; ".sh"; ".ts"].

Fixpoint ext_in (ext : string) (extensions : list string) : bool :=
  match extensions with
  | [] => false
  | extension :: rest =>
      if bool_decide (ext = extension) then true else ext_in ext rest
  end.

Definition isSourceCodeFile (fileName : string) : bool :=
  let ext := GoPath.Ext fileName in
  ext_in ext sourceCodeExtensions.

(** ** The [net] functions the classifier calls

    [ParseIP], [ParseCIDR], [IPNet.Contains] and the address predicates
    follow Go's [net] package, whose parser is that of [net/netip]. *)

Module GoNet.

Definition IP := list Z.

Record IPNet := { IPNet_IP : IP; IPNet_Mask : list Z }.

Definition IPv4len : nat := 4.
Definition IPv6len : nat := 16.
Definition big : Z := 0xFFFFFF.

Definition code (c : ascii) : Z := Z.of_nat (nat_of_ascii c).

Definition v4InV6Prefix : list Z := [0; 0; 0; 0; 0; 0; 0; 0; 0; 0; 0xff; 0xff].

Definition IPv4 (a b c d : Z) : IP := v4InV6Prefix ++ [a; b; c; d].

Definition IPv6loopback : IP := [0; 0; 0; 0; 0; 0; 0; 0; 0; 0; 0; 0; 0; 0; 0; 1].

Definition byte (n : Z) : Z := Z.land n 0xff.

(** [dtoi]: decimal to integer; returns number, characters consumed, success. *)
Fixpoint dtoi_loop (s : list ascii) (n : Z) (i : nat) : Z * nat * bool :=
  match s with
  | c :: s' =>
      if (code "0" <=? code c) && (code c <=? code "9") then
        let n' := n * 10 + (code c - code "0") in
        if big <=? n' then (big, i, false) else dtoi_loop s' n' (S i)
      else if (i =? 0)%nat then (0, 0%nat, false) else (n, i, true)
  | [] => if (i =? 0)%nat then (0, 0%nat, false) else (n, i, true)
  end.

Definition dtoi (s : list ascii) : Z * nat * bool := dtoi_loop s 0 0.

(** The value of a hexadecimal digit. *)
Definition hex_digit (c : ascii) : option Z :=
  if (code "0" <=? code c) && (code c <=? code "9") then Some (code c - code "0")
  else if (code "a" <=? code c) && (code c <=? code "f") then Some (code c - code "a" + 10)
  else if (code "A" <=? code c) && (code c <=? code "F") then Some (code c - code "A" + 10)
  else None.

(** [net.ParseIP] is [netip.ParseAddr] followed by the refusal of a zone.
    An address as [ParseAddr] returns it: its sixteen bytes ([As16]),
    whether it is an IPv4 address, and its zone. *)
Record Addr := { Addr_As16 : list Z; Addr_Is4 : bool; Addr_Zone : list ascii }.

(** [parseIPv4Fields]: [i] is the index of the next character, [prev] the
    character before it, [val] and [digLen] the value and the number of
    digits of the octet being read, [pos] the number of octets stored in
    [fields]. [None] is the error return. *)
Fixpoint parseIPv4Fields_loop (s : list ascii) (i : nat) (prev : option ascii)
    (val : Z) (pos digLen : nat) (fields : list Z) : option (list Z) :=
  match s with
  | [] =>
      if (pos <? 3)%nat then None                   (* address too short *)
      else Some (fields ++ [val])
  | c :: s' =>
      if (code "0" <=? code c) && (code c <=? code "9") then
        if (digLen =? 1)%nat && (val =? 0) then None (* octet with leading zero *)
        else
          let val := val * 10 + (code c - code "0") in
          if 255 <? val then None
          else parseIPv4Fields_loop s' (S i) (Some c) val pos (S digLen) fields
      else if bool_decide (c = "."%char) then
        if (i =? 0)%nat || bool_decide (s' = [])
           || bool_decide (prev = Some "."%char)
        then None                                   (* field without a digit *)
        else if (pos =? 3)%nat then None            (* address too long *)
        else parseIPv4Fields_loop s' (S i) (Some c) 0 (S pos) 0 (fields ++ [val])
      else None                                     (* unexpected character *)
  end.

Definition parseIPv4Fields (s : list ascii) : option (list Z) :=
  parseIPv4Fields_loop s 0 None 0 0 0 [].

Definition parseIPv4 (s : list ascii) : option Addr :=
  fields ← parseIPv4Fields s;
  Some {| Addr_As16 := v4InV6Prefix ++ fields; Addr_Is4 := true; Addr_Zone := [] |}.

(** The digits of one group of [parseIPv6]: the value read and the number
    of digits; [None] on a fifth digit or a value above 0xFFFF. [off] is
    the index of the next character. *)
Fixpoint hexField (s : list ascii) (acc : Z) (off : nat) : option (Z * nat) :=
  match s with
  | c :: s' =>
      match hex_digit c with
      | Some d =>
          let acc := Z.shiftl acc 4 + d in
          if (3 <? off)%nat then None
          else if 0xFFFF <? acc then None
          else hexField s' acc (S off)
      | None => Some (acc, off)
      end
  | [] => Some (acc, off)
  end.

(** [parseIPv6]. The loop state is the bytes written so far ([ip[0:i]]),
    the rest of the string and the position of the ellipsis. *)
Inductive v6step :=
| V6Nil
| V6Break (ip : list Z) (s : list ascii) (ellipsis : option nat)
| V6Next (ip : list Z) (s : list ascii) (ellipsis : option nat).

Definition parseIPv6_body (ip : list Z) (s : list ascii) (ellipsis : option nat) : v6step :=
  let i := length ip in
  match hexField s 0 0 with
  | None => V6Nil
  | Some (acc, off) =>
      if (off =? 0)%nat then V6Nil                  (* no digit *)
      else if (off <? length s)%nat && bool_decide (s !! off = Some "."%char) then
        if bool_decide (ellipsis = None) && negb (i =? 12)%nat then V6Nil
        else if (16 <? i + 4)%nat then V6Nil
        else
          match parseIPv4Fields s with
          | None => V6Nil
          | Some fields => V6Break (ip ++ fields) [] ellipsis
          end
      else
        let ip := ip ++ [byte (Z.shiftr acc 8); byte acc] in
        let i := length ip in
        match drop off s with
        | [] => V6Break ip [] ellipsis
        | c0 :: s1 =>
            if negb (bool_decide (c0 = ":"%char)) then V6Nil
            else if bool_decide (s1 = []) then V6Nil
            else
              match s1 with
              | c1 :: s2 =>
                  if bool_decide (c1 = ":"%char) then
                    match ellipsis with
                    | Some _ => V6Nil
                    | None =>
                        match s2 with
                        | [] => V6Break ip [] (Some i)
                        | _ => V6Next ip s2 (Some i)
                        end
                    end
                  else V6Next ip s1 ellipsis
              | [] => V6Nil
              end
        end
  end.

Fixpoint parseIPv6_loop (fuel : nat) (ip : list Z) (s : list ascii)
    (ellipsis : option nat) : v6step :=
  match fuel with
  | O => V6Break ip s ellipsis
  | S fuel' =>
      if (length ip <? IPv6len)%nat then
        match parseIPv6_body ip s ellipsis with
        | V6Next ip' s' e' => parseIPv6_loop fuel' ip' s' e'
        | r => r
        end
      else V6Break ip s ellipsis
  end.

Definition parseIPv6_finish (r : v6step) : option (list Z) :=
  match r with
  | V6Nil | V6Next _ _ _ => None
  | V6Break ip s ellipsis =>
      match s with
      | _ :: _ => None                              (* trailing garbage *)
      | [] =>
          let i := length ip in
          if (i <? IPv6len)%nat then
            match ellipsis with
            | None => None                          (* address too short *)
            | Some e => Some (take e ip ++ replicate (IPv6len - i) 0 ++ drop e ip)
            end
          else
            match ellipsis with
            | Some _ => None                        (* the :: must stand for a group *)
            | None => Some ip
            end
      end
  end.

Fixpoint index_byte (s : list ascii) (c : ascii) : option nat :=
  match s with
  | [] => None
  | x :: s' => if bool_decide (x = c) then Some 0%nat else S <$> index_byte s' c
  end.

Definition parseIPv6 (input : list ascii) : option Addr :=
  let '(s, zone, zoneGiven) :=
    match index_byte input "%"%char with
    | Some i => (take i input, drop (S i) input, true)
    | None => (input, [], false)
    end in
  if zoneGiven && bool_decide (zone = []) then None (* empty zone *)
  else
    ip ← match s with
         | ":"%char :: ":"%char :: s2 =>
             match s2 with
             | [] => Some (replicate IPv6len 0)
             | _ => parseIPv6_finish (parseIPv6_loop 9 [] s2 (Some 0%nat))
             end
         | _ => parseIPv6_finish (parseIPv6_loop 9 [] s None)
         end;
    Some {| Addr_As16 := ip; Addr_Is4 := false; Addr_Zone := zone |}.

(** [netip.ParseAddr]: the first dot, colon or percent sign decides. *)
Fixpoint ParseAddr_scan (rest whole : list ascii) : option Addr :=
  match rest with
  | [] => None
  | c :: rest' =>
      if bool_decide (c = "."%char) then parseIPv4 whole
      else if bool_decide (c = ":"%char) then parseIPv6 whole
      else if bool_decide (c = "%"%char) then None
      else ParseAddr_scan rest' whole
  end.

Definition ParseAddr (s : list ascii) : option Addr := ParseAddr_scan s s.

(** [net.ParseIP]: the sixteen bytes, or nil. *)
Definition ParseIP (s : string) : IP :=
  match ParseAddr (bytes s) with
  | Some a => if bool_decide (Addr_Zone a = []) then Addr_As16 a else []
  | None => []
  end.

Definition isZeros (p : list Z) : bool := forallb (Z.eqb 0) p.

Definition To4 (ip : IP) : IP :=
  if (length ip =? IPv4len)%nat then ip
  else if (length ip =? IPv6len)%nat && isZeros (take 10 ip)
          && bool_decide (ip !! 10%nat = Some 0xff) && bool_decide (ip !! 11%nat = Some 0xff)
  then drop 12 ip
  else [].

Definition bytesEqual (a b : list Z) : bool := bool_decide (a = b).

Definition Equal (ip x : IP) : bool :=
  if (length ip =? length x)%nat then bytesEqual ip x
  else if (length ip =? IPv4len)%nat && (length x =? IPv6len)%nat then
    bytesEqual (take 12 x) v4InV6Prefix && bytesEqual ip (drop 12 x)
  else if (length ip =? IPv6len)%nat && (length x =? IPv4len)%nat then
    bytesEqual (take 12 ip) v4InV6Prefix && bytesEqual (drop 12 ip) x
  else false.

Definition at_ (ip : IP) (i : nat) : Z := default 0 (ip !! i).

Definition IsLoopback (ip : IP) : bool :=
  match To4 ip with
  | [] => Equal ip IPv6loopback
  | ip4 => at_ ip4 0 =? 127
  end.

Definition IsLinkLocalUnicast (ip : IP) : bool :=
  match To4 ip with
  | [] => (length ip =? IPv6len)%nat && (at_ ip 0 =? 0xfe)
          && (Z.land (at_ ip 1) 0xc0 =? 0x80)
  | ip4 => (at_ ip4 0 =? 169) && (at_ ip4 1 =? 254)
  end.

Definition IsLinkLocalMulticast (ip : IP) : bool :=
  match To4 ip with
  | [] => (length ip =? IPv6len)%nat && (at_ ip 0 =? 0xff)
          && (Z.land (at_ ip 1) 0x0f =? 0x02)
  | ip4 => (at_ ip4 0 =? 224) && (at_ ip4 1 =? 0) && (at_ ip4 2 =? 0)
  end.

(** [CIDRMask ones bits], for [0 <= ones <= bits], [bits] 32 or 128. *)
Fixpoint CIDRMask_loop (l : nat) (n : Z) : list Z :=
  match l with
  | O => []
  | S l' =>
      if 8 <=? n then 0xff :: CIDRMask_loop l' (n - 8)
      else Z.lxor 0xff (Z.shiftr 0xff n) :: CIDRMask_loop l' 0
  end.

Definition CIDRMask (ones : Z) (bits : nat) : list Z :=
  if negb (bits =? 8 * IPv4len)%nat && negb (bits =? 8 * IPv6len)%nat then []
  else if (ones <? 0) || (Z.of_nat bits <? ones) then []
  else CIDRMask_loop (bits / 8) ones.

Definition allFF (b : list Z) : bool := forallb (Z.eqb 0xff) b.

Definition Mask (ip : IP) (mask : list Z) : IP :=
  let mask :=
    if (length mask =? IPv6len)%nat && (length ip =? IPv4len)%nat && allFF (take 12 mask)
    then drop 12 mask else mask in
  let ip :=
    if (length mask =? IPv4len)%nat && (length ip =? IPv6len)%nat
       && bytesEqual (take 12 ip) v4InV6Prefix
    then drop 12 ip else ip in
  if negb (length ip =? length mask)%nat then []
  else zip_with Z.land ip mask.

(** [ParseCIDR]: [None] is the error return (a nil [*IPNet]). *)
Definition ParseCIDR (s : string) : option IPNet :=
  match index_byte (bytes s) "/"%char with
  | None => None
  | Some i =>
      let addr := take i (bytes s) in
      let mask := drop (S i) (bytes s) in
      match ParseAddr addr with
      | None => None
      | Some ipAddr =>
          if negb (bool_decide (Addr_Zone ipAddr = [])) then None
          else
            let bitLen := if Addr_Is4 ipAddr then 32%nat else 128%nat in
            let '(n, j, ok) := dtoi mask in
            if negb ok || negb (j =? length mask)%nat
               || (n <? 0) || (Z.of_nat bitLen <? n)
            then None
            else
              let m := CIDRMask n bitLen in
              Some {| IPNet_IP := Mask (Addr_As16 ipAddr) m; IPNet_Mask := m |}
      end
  end.

Definition networkNumberAndMask (n : IPNet) : IP * list Z :=
  let ip := match To4 (IPNet_IP n) with [] => IPNet_IP n | ip4 => ip4 end in
  if negb (length ip =? IPv4len)%nat && negb (length ip =? IPv6len)%nat then ([], [])
  else
    let m := IPNet_Mask n in
    if (length m =? IPv4len)%nat then
      if negb (length ip =? IPv4len)%nat then ([], []) else (ip, m)
    else if (length m =? IPv6len)%nat then
      if (length ip =? IPv4len)%nat then (ip, drop 12 m) else (ip, m)
    else ([], []).

Definition Contains (n : IPNet) (ip : IP) : bool :=
  let '(nn, m) := networkNumberAndMask n in
  let ip := match To4 ip with [] => ip | x => x end in
  if negb (length ip =? length nn)%nat then false
  else bool_decide (zip_with Z.land nn m = zip_with Z.land ip m).

End GoNet.

(** ** Data model *)

#[local] Set Warnings "-register-all".

(** [Tool]: name, checksum and the parent tool ([None] is the nil pointer). *)
Inductive Tool :=
| mkTool (Name SHA256 : string) (Parent : option Tool).

Definition Tool_Name (t : Tool) : string := let 'mkTool n _ _ := t in n.
Definition Tool_SHA256 (t : Tool) : string := let 'mkTool _ c _ := t in c.
Definition Tool_Parent (t : Tool) : option Tool := let 'mkTool _ _ p := t in p.

(** The zero value [Tool{}]. *)
Definition Tool_zero : Tool := mkTool "" "" None.

Record Event := {
  EventType : string;
  IPAddress : string;
  Port : string;
  FileName : string;
  Path : string;
  Syscall : string;
  Exe : string;
  Pid : string;
  PPid : string;
  ProcessArguments : list string;
  Timestamp : Z;
}.

Definition set_FileName (name : string) (e : Event) : Event :=
  {| EventType := EventType e; IPAddress := IPAddress e; Port := Port e;
     FileName := name; Path := Path e; Syscall := Syscall e; Exe := Exe e;
     Pid := Pid e; PPid := PPid e; ProcessArguments := ProcessArguments e;
     Timestamp := Timestamp e |}.

Record Process := {
  Process_PID : string;
  Process_PPid : string;
  Process_Exe : string;
  Process_Arguments : list string;
}.

(** [EventHandler]. The three mutexes are not modelled: a handler runs to
    completion on the state it is given. [SourceCodeMap] holds pointers to
    the events in the code ([[]*Event]); here it holds every event as it was
    when it was recorded. The two differ in one case only: the same event
    object is delivered once more and line 40 renames it again, which
    happens when its joined name does not start with a slash. The object
    already recorded then carries the new [FileName] in the code and the old
    one here. The handlers read back nothing but the [Pid] of a recorded
    event (line 76), and no handler assigns [Pid], so they act alike on
    both; what is said below of a recorded event is said of the event as
    recorded. *)
Record EventHandler := {
  CorrelationId : string;
  Repo : string;
  ProcessConnectionMap : gmap string bool;
  ProcessFileMap : gmap string bool;
  ProcessMap : gmap string Process;
  SourceCodeMap : gmap string (list Event);
}.

Definition set_ProcessConnectionMap (m : gmap string bool) (h : EventHandler) :=
  {| CorrelationId := CorrelationId h; Repo := Repo h; ProcessConnectionMap := m;
     ProcessFileMap := ProcessFileMap h; ProcessMap := ProcessMap h;
     SourceCodeMap := SourceCodeMap h |}.

Definition set_ProcessFileMap (m : gmap string bool) (h : EventHandler) :=
  {| CorrelationId := CorrelationId h; Repo := Repo h;
     ProcessConnectionMap := ProcessConnectionMap h; ProcessFileMap := m;
     ProcessMap := ProcessMap h; SourceCodeMap := SourceCodeMap h |}.

Definition set_ProcessMap (m : gmap string Process) (h : EventHandler) :=
  {| CorrelationId := CorrelationId h; Repo := Repo h;
     ProcessConnectionMap := ProcessConnectionMap h;
     ProcessFileMap := ProcessFileMap h; ProcessMap := m;
     SourceCodeMap := SourceCodeMap h |}.

Definition set_SourceCodeMap (m : gmap string (list Event)) (h : EventHandler) :=
  {| CorrelationId := CorrelationId h; Repo := Repo h;
     ProcessConnectionMap := ProcessConnectionMap h;
     ProcessFileMap := ProcessFileMap h; ProcessMap := ProcessMap h;
     SourceCodeMap := m |}.

(** ** The world outside [eventhandler.go] *)

(** Outcome of [os.Open] followed by [io.Copy] on a path. *)
Inductive ReadResult :=
| OpenError (msg : string)
| CopyError (msg : string)
| Content (data : list Z).

(** A container as [ContainerList] reports it. *)
Record Container := {
  Container_ID : string;
  Container_Image : string;
}.

(** What the handlers read from their surroundings: the constants and
    functions declared in other files of the package, the file system, the
    operating system's process table ([getParentProcessId], [getProcessExe];
    a lookup of an absent pid is the error return), the container runtime
    and the DNS proxy. Of the container runtime: whether
    [client.NewClientWithOpts] gives a client ([false]: the error return,
    with a nil client), the containers [ContainerList] returns (none on its
    error return), and the pid [json.State.Pid] that [ContainerInspect]
    gives for a container id ([None]: there is no state to read, as on
    the error return, which leaves the embedded pointer nil). *)
Record Env := {
  AzureIPAddress : string;
  MetadataIPAddress : string;
  netMonitorTag : string;
  fileMonitorTag : string;
  processMonitorTag : string;
  openAndCopy : string -> ReadResult;
  sha256Sum : list Z -> list Z;
  ReadFile : string -> string;
  getParentProcessId : gmap string Z;
  getProcessExe : gmap string string;
  NewClientWithOpts : bool;
  ContainerList : list Container;
  ContainerInspect : string -> option Z;
  GetReverseIPLookup : string -> string;
}.

(** Calls to the collector, the log and the annotation sink, in call order. *)
Inductive Effect :=
| WriteLog (msg : string)
| writeDone
| sendFileEvent (correlationId repo fileType : string) (timestamp : Z) (tool : Tool)
| sendNetConnection (correlationId repo ipAddress port domainName status : string)
    (timestamp : Z) (tool : Tool)
| WriteAnnotation (msg : string).

Definition is_sendFileEvent (f : Effect) : bool :=
  match f with sendFileEvent _ _ _ _ _ => true | _ => false end.

Definition is_sendNetConnection (f : Effect) : bool :=
  match f with sendNetConnection _ _ _ _ _ _ _ _ => true | _ => false end.

Definition is_WriteAnnotation (f : Effect) : bool :=
  match f with WriteAnnotation _ => true | _ => false end.

Definition count (p : Effect -> bool) (fx : list Effect) : nat :=
  length (filter (fun f => p f = true) fx).

(** ** [GetContainerByPid]

    The errors of the three calls to the container runtime are dropped
    (lines 173-181) and their results used all the same: [ContainerList] on
    a nil client and [json.State.Pid] on a failed inspect dereference a nil
    pointer. [None] is that panic. *)

Fixpoint container_of (env : Env) (pid content : string) (containers : list Container)
    : option string :=
  match containers with
  | [] => Some ""
  | container :: rest =>
      match ContainerInspect env (Container_ID container) with
      | None => None
      | Some statePid =>
          if bool_decide (pid = fmt_d statePid) then
            Some (Container_Image container)
          else if GoString.Contains content (Container_ID container) then
            Some (Container_Image container)
          else container_of env pid content rest
      end
  end.

Definition GetContainerByPid (env : Env) (pid : string) : option string :=
  let cgroupPath := "/proc/" +:+ pid +:+ "/cgroup" in
  let content := ReadFile env cgroupPath in
  if negb (NewClientWithOpts env) then None
  else container_of env pid content (ContainerList env).

(** ** [getProgramChecksum] *)

Definition hex_char (d : Z) : ascii :=
  if d <? 10 then ascii_of_nat (48 + Z.to_nat d) else ascii_of_nat (87 + Z.to_nat d).

(** [fmt.Sprintf("%x", b)] on a byte slice. *)
Definition fmt_x (b : list Z) : string :=
  str (concat (map (fun x => [hex_char (Z.shiftr x 4); hex_char (Z.land x 0xf)]) b)).

(** Returns the checksum string and the error ([None] is a nil error). *)
Definition getProgramChecksum (env : Env) (path : string) : string * option string :=
  match openAndCopy env path with
  | OpenError err => (err, Some err)
  | CopyError err => (err, Some err)
  | Content data => (fmt_x (sha256Sum env data), None)
  end.

(** ** [GetToolChain]

    The recursion of the source has no measure, so the model takes the number
    of nested calls it may make; [None] means that this number was not
    enough. A call that is [None] for every [fuel] never returns. *)
Fixpoint GetToolChain (fuel : nat) (env : Env) (eventHandler : EventHandler)
    (ppid exe : string) : option Tool :=
  match fuel with
  | O => None
  | S fuel' =>
      let checksum := fst (getProgramChecksum env exe) in
      let name := GoPath.Base exe in
      match ProcessMap eventHandler !! ppid with
      | Some parentProcess =>
          parent ← GetToolChain fuel' env eventHandler
                     (Process_PPid parentProcess) (Process_Exe parentProcess);
          Some (mkTool name checksum (Some parent))
      | None =>
          match getParentProcessId env !! ppid with
          | None => Some (mkTool name checksum None)
          | Some parentProcessId =>
              match getProcessExe env !! ppid with
              | None => Some (mkTool name checksum None)
              | Some path =>
                  parent ← GetToolChain fuel' env eventHandler
                             (fmt_d parentProcessId) path;
                  Some (mkTool name checksum (Some parent))
              end
          end
      end
  end.

(** ** [isPrivateIPAddress] *)

(** Modelled from the spec: the constants [AllZeros] and [*AddressRange] are
    declared in another file of the package; the specification names the
    all-zeros address and the six reserved ranges 10.0.0.0/8, 172.16.0.0/12,
    192.168.0.0/16, 127.0.0.0/8, fe80::/10 and fc00::/7. *)
Definition AllZeros : string := "0.0.0.0".
Definition classAPrivateAddressRange : string := "10.0.0.0/8".
Definition classBPrivateAddressRange : string := "172.16.0.0/12".
Definition classCPrivateAddressRange : string := "192.168.0.0/16".
Definition loopBackAddressRange : string := "127.0.0.0/8".
Definition ipv6LinkLocalAddressRange : string := "fe80::/10".
Definition ipv6LocalAddressRange : string := "fc00::/7".

(** The package-level subnet variables: each is the result of [ParseCIDR] on
    its range, whenever it is first needed. *)
Definition classAPrivateSubnet := GoNet.ParseCIDR classAPrivateAddressRange.
Definition classBPrivateSubnet := GoNet.ParseCIDR classBPrivateAddressRange.
Definition classCPrivateSubnet := GoNet.ParseCIDR classCPrivateAddressRange.
Definition loopBackSubnet := GoNet.ParseCIDR loopBackAddressRange.
Definition ipv6LinkLocalSubnet := GoNet.ParseCIDR ipv6LinkLocalAddressRange.
Definition ipv6LocalSubnet := GoNet.ParseCIDR ipv6LocalAddressRange.

(** [subnet.Contains(ip)] through the pointer: a nil subnet panics ([None]). *)
Definition subnetContains (subnet : option GoNet.IPNet) (ip : GoNet.IP) : option bool :=
  n ← subnet; Some (GoNet.Contains n ip).

(** [None] is a panic; [Some b] is the value returned. *)
Definition isPrivateIPAddress (ipAddress : string) : option bool :=
  if bool_decide (ipAddress = AllZeros) then Some true
  else
    let ip := GoNet.ParseIP ipAddress in
    a ← subnetContains classAPrivateSubnet ip;
    if a : bool then Some true else
    b ← subnetContains classBPrivateSubnet ip;
    if b : bool then Some true else
    c ← subnetContains classCPrivateSubnet ip;
    if c : bool then Some true else
    l ← subnetContains loopBackSubnet ip;
    if l : bool then Some true else
    ll ← subnetContains ipv6LinkLocalSubnet ip;
    if ll : bool then Some true else
    ul ← subnetContains ipv6LocalSubnet ip;
    if ul : bool then Some true else
    if GoNet.IsLoopback ip || GoNet.IsLinkLocalUnicast ip || GoNet.IsLinkLocalMulticast ip
    then Some true
    else Some false.

(** ** The handlers

    A handler returns the new state of the [EventHandler], the event as the
    handler leaves it (the event is passed by pointer) and the effects of
    the call; [None] when the call does not return: the resolver recurses
    without end, or the container lookup panics. A caller that delivers the
    same event object once more delivers the event as the handler left it. *)

Definition Outcome : Type := EventHandler * Event * list Effect.

(** Lines 39-41: the file name is made absolute in place. *)
Definition normalizeFileName (event : Event) : Event :=
  if negb (HasPrefix (FileName event) "/")
  then set_FileName (GoPath.Join [Path event; FileName event]) event
  else event.

(** Lines 43-48: the completion marker. *)
Definition postEventSignal (event : Event) : list Effect :=
  if GoString.Contains (FileName event) "post_event.json"
  then [WriteLog "post_event called"; writeDone]
  else [].

(** Lines 54-59: the file type of a path, [""] when it has none. *)
Definition fileTypeOf (fileName : string) : string :=
  if GoString.Contains fileName "/node_modules/" && HasSuffix fileName ".js"
  then "Dependencies"
  else if GoString.Contains fileName ".git/objects"
  then "Source Code"
  else "".

(** Lines 50-66: first-write classification. *)
Definition classifyFirstWrite (fuel : nat) (env : Env) (eventHandler : EventHandler)
    (event : Event) : option (EventHandler * list Effect) :=
  match ProcessFileMap eventHandler !! Pid event with
  | Some _ => Some (eventHandler, [])
  | None =>
      let fileType := fileTypeOf (FileName event) in
      if negb (bool_decide (fileType = "")) then
        tool ← GetToolChain fuel env eventHandler (PPid event) (Exe event);
        Some (set_ProcessFileMap (<[Pid event := true]> (ProcessFileMap eventHandler))
                eventHandler,
              [sendFileEvent (CorrelationId eventHandler) (Repo eventHandler) fileType
                 (Timestamp event) tool])
      else Some (eventHandler, [])
  end.

(** Lines 75-79: the loop over the recorded writes of the file. *)
Definition isFromDifferentProcess (writes : list Event) (event : Event) : bool :=
  fold_left
    (fun flag writeEvent =>
       if negb (bool_decide (Pid writeEvent = Pid event)) then true else flag)
    writes false.

Definition overwriteMessage (event : Event) : string :=
  "Source code overwritten " +:+ FileName event +:+ " syscall: " +:+ Syscall event
    +:+ " by " +:+ Exe event.

(** Lines 68-86: source-tamper tracking. *)
Definition trackSourceWrite (eventHandler : EventHandler) (event : Event)
    : EventHandler * list Effect :=
  if isSourceCodeFile (FileName event) && negb (isSyscallExcluded (Syscall event)) then
    match SourceCodeMap eventHandler !! FileName event with
    | None =>
        (set_SourceCodeMap (<[FileName event := [event]]> (SourceCodeMap eventHandler))
           eventHandler, [])
    | Some writes =>
        if isFromDifferentProcess writes event then
          (set_SourceCodeMap
             (<[FileName event := writes ++ [event]]> (SourceCodeMap eventHandler))
             eventHandler,
           [WriteAnnotation (overwriteMessage event)])
        else (eventHandler, [])
    end
  else (eventHandler, []).

Definition handleFileEvent (fuel : nat) (env : Env) (eventHandler : EventHandler)
    (event : Event) : option Outcome :=
  let event := normalizeFileName event in
  let fx1 := postEventSignal event in
  '(eventHandler, fx2) ← classifyFirstWrite fuel env eventHandler event;
  let '(eventHandler, fx3) := trackSourceWrite eventHandler event in
  Some (eventHandler, event, fx1 ++ fx2 ++ fx3).

(** The calls [handleFileEvent] makes, whether it returns or not: the
    completion signal of lines 43-48 comes before the resolver call of
    line 62, so it is made also when the resolver does not return. *)
Definition handleFileEvent_calls (fuel : nat) (env : Env) (eventHandler : EventHandler)
    (event : Event) : list Effect :=
  let event := normalizeFileName event in
  let fx1 := postEventSignal event in
  match classifyFirstWrite fuel env eventHandler event with
  | None => fx1
  | Some (eventHandler, fx2) => fx1 ++ fx2 ++ snd (trackSourceWrite eventHandler event)
  end.

Definition handleProcessEvent (eventHandler : EventHandler) (event : Event) : Outcome :=
  match ProcessMap eventHandler !! Pid event with
  | Some _ => (eventHandler, event, [])
  | None =>
      (set_ProcessMap
         (<[Pid event := {| Process_PID := Pid event; Process_PPid := PPid event;
                            Process_Exe := Exe event;
                            Process_Arguments := ProcessArguments event |}]>
            (ProcessMap eventHandler))
         eventHandler,
       event, [])
  end.

(** Line 132: [fmt.Sprintf("%s%s%s", pid, ip, port)]. *)
Definition cacheKey (event : Event) : string :=
  Pid event +:+ IPAddress event +:+ Port event.

(** Lines 137-146: the tool a connection is attributed to. *)
Definition connectionTool (fuel : nat) (env : Env) (eventHandler : EventHandler)
    (event : Event) : option Tool :=
  image ← GetContainerByPid env (Pid event);
  if bool_decide (image = "") then
    if negb (bool_decide (Exe event = "")) then
      GetToolChain fuel env eventHandler (PPid event) (Exe event)
    else Some Tool_zero
  else Some (mkTool image image None).

Definition handleNetworkEvent (fuel : nat) (env : Env) (eventHandler : EventHandler)
    (event : Event) : option Outcome :=
  private ← isPrivateIPAddress (IPAddress event);
  if negb private
     && negb (bool_decide (IPAddress event = "::1"))
     && negb (bool_decide (IPAddress event = AzureIPAddress env))
     && negb (bool_decide (IPAddress event = MetadataIPAddress env))
  then
    match ProcessConnectionMap eventHandler !! cacheKey event with
    | Some _ => Some (eventHandler, event, [])
    | None =>
        tool ← connectionTool fuel env eventHandler event;
        let reverseLookUp := GetReverseIPLookup env (IPAddress event) in
        Some (set_ProcessConnectionMap
                (<[cacheKey event := true]> (ProcessConnectionMap eventHandler))
                eventHandler,
              event,
              [sendNetConnection (CorrelationId eventHandler) (Repo eventHandler)
                 (IPAddress event) (Port event) reverseLookUp "" (Timestamp event) tool])
    end
  else Some (eventHandler, event, []).

(** The [switch] on the event type: the first matching case runs. *)
Definition HandleEvent (fuel : nat) (env : Env) (eventHandler : EventHandler)
    (event : Event) : option Outcome :=
  if bool_decide (EventType event = netMonitorTag env) then
    handleNetworkEvent fuel env eventHandler event
  else if bool_decide (EventType event = fileMonitorTag env) then
    handleFileEvent fuel env eventHandler event
  else if bool_decide (EventType event = processMonitorTag env) then
    Some (handleProcessEvent eventHandler event)
  else Some (eventHandler, event, []).

(** A sequence of deliveries to one handler: the final state and the effects
    of each delivery, in order. *)
Fixpoint deliver (handler : EventHandler -> Event -> option Outcome)
    (eventHandler : EventHandler) (events : list Event)
    : option (EventHandler * list (Event * list Effect)) :=
  match events with
  | [] => Some (eventHandler, [])
  | event :: rest =>
      '(eventHandler', _, fx) ← handler eventHandler event;
      '(final, trace) ← deliver handler eventHandler' rest;
      Some (final, (event, fx) :: trace)
  end.

(** All effects of a trace, in call order. *)
Definition effects (trace : list (Event * list Effect)) : list Effect :=
  concat (map snd trace).

(** ** The ancestry the resolver follows *)

(** [reportedParent env h pid parent]: the process table of [h] or the
    operating system reports [parent] as the parent of [pid]. *)
Definition reportedParent (env : Env) (eventHandler : EventHandler)
    (pid parent : string) : Prop :=
  (exists p, ProcessMap eventHandler !! pid = Some p /\ Process_PPid p = parent)
  \/ (exists n, getParentProcessId env !! pid = Some n /\ fmt_d n = parent).

(** No pid is its own reported parent, and there is no longer cycle. *)
Definition acyclic (env : Env) (eventHandler : EventHandler) : Prop :=
  forall pid, ~ tc (reportedParent env eventHandler) pid pid.

(** The pids for which either source reports a parent. *)
Definition knownPids (env : Env) (eventHandler : EventHandler) : gset string :=
  dom (ProcessMap eventHandler) ∪ dom (getParentProcessId env).

(** A depth of recursion that is enough for [GetToolChain] when the
    ancestry has no cycle. *)
Definition depthBound (env : Env) (eventHandler : EventHandler) : nat :=
  S (size (knownPids env eventHandler)).

(** The link of the process table alone, and the link of the OS alone. *)
Definition tableParent (eventHandler : EventHandler) (pid parent : string) : Prop :=
  exists p, ProcessMap eventHandler !! pid = Some p /\ Process_PPid p = parent.

Definition osParent (env : Env) (pid parent : string) : Prop :=
  exists n, getParentProcessId env !! pid = Some n /\ fmt_d n = parent.

(** The link [GetToolChain] follows from a pid: the table entry when there is
    one (line 221), else the OS parent when both OS lookups succeed
    (line 236). *)
Definition followedParent (env : Env) (eventHandler : EventHandler)
    (pid parent : string) : Prop :=
  match ProcessMap eventHandler !! pid with
  | Some p => Process_PPid p = parent
  | None =>
      exists n, getParentProcessId env !! pid = Some n
                /\ is_Some (getProcessExe env !! pid)
                /\ fmt_d n = parent
  end.

(** ** Vocabulary of the properties *)

(** A network event that passes the tests of lines 127-136: its address is
    not classified private, is none of the three excluded addresses, and its
    key is not in the connection map. *)
Definition reportable (env : Env) (eventHandler : EventHandler) (event : Event) : Prop :=
  isPrivateIPAddress (IPAddress event) = Some false
  /\ IPAddress event <> "::1"
  /\ IPAddress event <> AzureIPAddress env
  /\ IPAddress event <> MetadataIPAddress env
  /\ ProcessConnectionMap eventHandler !! cacheKey event = None.

(** A file event for which [handleFileEvent] calls the resolver: its pid is
    not in the file map and its normalized name has a type. *)
Definition callsResolver (eventHandler : EventHandler) (event : Event) : Prop :=
  ProcessFileMap eventHandler !! Pid event = None
  /\ fileTypeOf (FileName (normalizeFileName event)) <> "".

(** The state and the event of an outcome. *)
Definition stateOf (o : Outcome) : EventHandler := fst (fst o).
Definition eventOf (o : Outcome) : Event := snd (fst o).

(** A file name that ends in one of the extensions listed without a dot. *)
Definition undottedEnding (fileName : string) : Prop :=
  HasSuffix fileName ".cpp" = true \/ HasSuffix fileName ".cs" = true
  \/ HasSuffix fileName ".py" = true.

(** A network event of the tuple (pid, ip, port). *)
Definition sameTuple (pid ip port : string) (event : Event) : Prop :=
  Pid event = pid /\ IPAddress event = ip /\ Port event = port.

(** The file reports among some effects. *)
Definition fileReports (fx : list Effect) : list Effect :=
  filter (fun f => is_sendFileEvent f = true) fx.

(** The file reports caused by the events of one pid in a trace. *)
Definition fileReportsOf (pid : string) (trace : list (Event * list Effect)) : nat :=
  count is_sendFileEvent (effects (filter (fun p => Pid (fst p) = pid) trace)).

(** The extensions of [sourceCodeExtensions] that are listed with their dot. *)
Definition dottedExtensions : list string :=
  [".c"; ".go"; ".java"; ".js"; ".php"; ".rb"; ".rs"; ".scala"; ".sc"; ".sh"; ".ts"].

(** The number of tools of a chain. *)
Fixpoint chainLength (t : Tool) : nat :=
  match t with
  | mkTool _ _ None => 1
  | mkTool _ _ (Some parent) => S (chainLength parent)
  end.

(** The connection reports caused by the events of one key in a trace. *)
Definition netReportsOf (key : string) (trace : list (Event * list Effect)) : nat :=
  count is_sendNetConnection (effects (filter (fun p => cacheKey (fst p) = key) trace)).

(** The table entry that line 118 makes of a process event. *)
Definition processOf (event : Event) : Process :=
  {| Process_PID := Pid event; Process_PPid := PPid event; Process_Exe := Exe event;
     Process_Arguments := ProcessArguments event |}.

(** The first event of a pid in a sequence. *)
Fixpoint firstOf (pid : string) (events : list Event) : option Event :=
  match events with
  | [] => None
  | event :: rest => if bool_decide (Pid event = pid) then Some event else firstOf pid rest
  end.

(** A sequence of deliveries to the process handler. *)
Definition deliverProcess (eventHandler : EventHandler) (events : list Event)
    : EventHandler :=
  fold_left (fun h event => stateOf (handleProcessEvent h event)) events eventHandler.

Definition is_writeDone (f : Effect) : bool :=
  match f with writeDone => true | _ => false end.

(** Two recorded writes of different pids. *)
Definition twoWriters (writes : list Event) : Prop :=
  exists w1 w2, w1 ∈ writes /\ w2 ∈ writes /\ Pid w1 <> Pid w2.

(** A container that [GetContainerByPid] takes for the one of a pid: its
    inspection gives this pid, or gives another and its id occurs in the
    cgroup file. *)
Definition matchesContainer (env : Env) (pid content : string) (c : Container) : Prop :=
  exists statePid,
    ContainerInspect env (Container_ID c) = Some statePid
    /\ (pid = fmt_d statePid \/ GoString.Contains content (Container_ID c) = true).

(** A container that is inspected without error and is not the one of a pid. *)
Definition passedContainer (env : Env) (pid content : string) (c : Container) : Prop :=
  exists statePid,
    ContainerInspect env (Container_ID c) = Some statePid
    /\ pid <> fmt_d statePid
    /\ GoString.Contains content (Container_ID c) = false.

(** The container runtime answers for a pid: the lookup does not panic. *)
Definition runtimeAnswers (env : Env) (pid : string) : Prop :=
  is_Some (GetContainerByPid env pid).

(** The effects [p] caused by the events of one key in a trace. *)
Definition effectsOfKey (key : Event -> string) (p : Effect -> bool) (k : string)
    (trace : list (Event * list Effect)) : nat :=
  count p (effects (filter (fun x => key (fst x) = k) trace)).

(** Every recorded write of every file is by [pid]. *)
Definition writersAre (pid : string) (eventHandler : EventHandler) : Prop :=
  forall file writes,
    SourceCodeMap eventHandler !! file = Some writes ->
    Forall (fun w => Pid w = pid) writes.

(** A byte. *)
Definition isByte (b : Z) : Prop := 0 <= b < 256.

(** ** Concrete surroundings and events used in the examples *)

Module Examples.

Definition env0 : Env :=
  {| AzureIPAddress := "168.63.129.16";
     MetadataIPAddress := "169.254.169.254";
     netMonitorTag := "netmon";
     fileMonitorTag := "filemon";
     processMonitorTag := "procmon";
     openAndCopy := fun path => OpenError ("open " +:+ path +:+ ": no such file or directory");
     sha256Sum := fun _ => [];
     ReadFile := fun _ => "";
     getParentProcessId := ∅;
     getProcessExe := ∅;
     NewClientWithOpts := true;
     ContainerList := [];
     ContainerInspect := fun _ => None;
     GetReverseIPLookup := fun _ => "" |}.

Definition handler0 : EventHandler :=
  {| CorrelationId := "run-1"; Repo := "org/repo";
     ProcessConnectionMap := ∅; ProcessFileMap := ∅; ProcessMap := ∅;
     SourceCodeMap := ∅ |}.

Definition fileEvent (pid fileName : string) : Event :=
  {| EventType := "filemon"; IPAddress := ""; Port := ""; FileName := fileName;
     Path := "/repo"; Syscall := "openat"; Exe := "/usr/bin/tool"; Pid := pid;
     PPid := "1"; ProcessArguments := []; Timestamp := 7 |}.

Definition netEvent (pid ip port : string) : Event :=
  {| EventType := "netmon"; IPAddress := ip; Port := port; FileName := "";
     Path := ""; Syscall := ""; Exe := "/usr/bin/curl"; Pid := pid;
     PPid := "1"; ProcessArguments := []; Timestamp := 9 |}.

Definition procEvent (pid ppid exe : string) : Event :=
  {| EventType := "procmon"; IPAddress := ""; Port := ""; FileName := "";
     Path := ""; Syscall := ""; Exe := exe; Pid := pid;
     PPid := ppid; ProcessArguments := [exe]; Timestamp := 3 |}.

(** A process table in which pid 1 is recorded as its own parent. *)
Definition selfParent : EventHandler :=
  fst (fst (handleProcessEvent handler0 (procEvent "1" "1" "/sbin/init"))).

(** Three generations in the table, the last one known to the OS only. *)
Definition threeGenerations : EventHandler :=
  set_ProcessMap
    (<["300" := {| Process_PID := "300"; Process_PPid := "200";
                   Process_Exe := "/usr/bin/make"; Process_Arguments := [] |}]>
     (<["200" := {| Process_PID := "200"; Process_PPid := "100";
                    Process_Exe := "/bin/bash"; Process_Arguments := [] |}]> ∅))
    handler0.

Definition envInit : Env :=
  {| AzureIPAddress := "168.63.129.16";
     MetadataIPAddress := "169.254.169.254";
     netMonitorTag := "netmon";
     fileMonitorTag := "filemon";
     processMonitorTag := "procmon";
     openAndCopy := fun path => Content [1; 2; 3];
     sha256Sum := fun _ => [0xab; 0x01];
     ReadFile := fun _ => "";
     getParentProcessId := {[ "100" := 1 ]};
     getProcessExe := {[ "100" := "/usr/sbin/runner" ]};
     NewClientWithOpts := true;
     ContainerList := [];
     ContainerInspect := fun _ => None;
     GetReverseIPLookup := fun _ => "" |}.

(** A height of the pids of [threeGenerations] under [envInit]: every
    reported parent is lower than its child. *)
Definition height (pid : string) : nat :=
  if bool_decide (pid = "300") then 3
  else if bool_decide (pid = "200") then 2
  else if bool_decide (pid = "100") then 1
  else 0.

(** A file event with a syscall of one's choice. *)
Definition fileEventBy (pid fileName syscall : string) : Event :=
  {| EventType := "filemon"; IPAddress := ""; Port := ""; FileName := fileName;
     Path := "/repo"; Syscall := syscall; Exe := "/usr/bin/tool"; Pid := pid;
     PPid := "1"; ProcessArguments := []; Timestamp := 7 |}.

(** An event of a type that no handler takes. *)
Definition strayEvent : Event :=
  {| EventType := "audit"; IPAddress := "8.8.8.8"; Port := "53";
     FileName := "main.go"; Path := "/repo"; Syscall := "openat";
     Exe := "/usr/bin/tool"; Pid := "9"; PPid := "1"; ProcessArguments := [];
     Timestamp := 1 |}.

(** The handler after some file events, from [handler0] under [env0]. *)
Definition afterFileEvents (events : list Event) : EventHandler :=
  match deliver (handleFileEvent 1 env0) handler0 events with
  | Some (h, _) => h
  | None => handler0
  end.

(** Surroundings with one running container. *)
Definition envDocker : Env :=
  {| AzureIPAddress := "168.63.129.16";
     MetadataIPAddress := "169.254.169.254";
     netMonitorTag := "netmon";
     fileMonitorTag := "filemon";
     processMonitorTag := "procmon";
     openAndCopy := fun path => OpenError ("open " +:+ path +:+ ": no such file or directory");
     sha256Sum := fun _ => [];
     ReadFile := fun _ => "";
     getParentProcessId := ∅;
     getProcessExe := ∅;
     NewClientWithOpts := true;
     ContainerList := [{| Container_ID := "abc123"; Container_Image := "node:18" |}];
     ContainerInspect := fun id => if bool_decide (id = "abc123") then Some 4242 else None;
     GetReverseIPLookup := fun _ => "" |}.

(** [envInit], with the operating system also knowing pid 300, which the
    table of [threeGenerations] holds. *)
Definition envShadow : Env :=
  {| AzureIPAddress := "168.63.129.16";
     MetadataIPAddress := "169.254.169.254";
     netMonitorTag := "netmon";
     fileMonitorTag := "filemon";
     processMonitorTag := "procmon";
     openAndCopy := fun path => Content [1; 2; 3];
     sha256Sum := fun _ => [0xab; 0x01];
     ReadFile := fun _ => "";
     getParentProcessId := <[ "300" := 999 ]> (getParentProcessId envInit);
     getProcessExe := <[ "300" := "/bin/false" ]> (getProcessExe envInit);
     NewClientWithOpts := true;
     ContainerList := [];
     ContainerInspect := fun _ => None;
     GetReverseIPLookup := fun _ => "" |}.

(** Events of all three types, interleaved. *)
Definition mixedEvents : list Event :=
  [procEvent "77" "1" "/usr/bin/curl"; netEvent "77" "8.8.8.8" "53";
   fileEvent "31" ".git/objects/ab/cdef"; netEvent "77" "8.8.8.8" "53";
   strayEvent; fileEvent "31" "node_modules/foo.js"; netEvent "78" "8.8.8.8" "53";
   netEvent "77" "8.8.8.8" "53"; fileEvent "31" ".git/objects/1f/aa"].

(** A table entry and an OS entry that point at each other: pid 100 is in
    the table with parent 200, pid 200 is known to the OS only, with parent
    100. *)
Definition mixedTable : EventHandler :=
  set_ProcessMap
    (<["100" := {| Process_PID := "100"; Process_PPid := "200";
                   Process_Exe := "/bin/bash"; Process_Arguments := [] |}]> ∅)
    handler0.

Definition envMixed : Env :=
  {| AzureIPAddress := "168.63.129.16";
     MetadataIPAddress := "169.254.169.254";
     netMonitorTag := "netmon";
     fileMonitorTag := "filemon";
     processMonitorTag := "procmon";
     openAndCopy := fun path => OpenError ("open " +:+ path +:+ ": no such file or directory");
     sha256Sum := fun _ => [];
     ReadFile := fun _ => "";
     getParentProcessId := {[ "200" := 100 ]};
     getProcessExe := {[ "200" := "/usr/bin/make" ]};
     NewClientWithOpts := true;
     ContainerList := [];
     ContainerInspect := fun _ => None;
     GetReverseIPLookup := fun _ => "" |}.

(** Surroundings without a container runtime: no client can be made. *)
Definition envNoRuntime : Env :=
  {| AzureIPAddress := "168.63.129.16";
     MetadataIPAddress := "169.254.169.254";
     netMonitorTag := "netmon";
     fileMonitorTag := "filemon";
     processMonitorTag := "procmon";
     openAndCopy := fun path => OpenError ("open " +:+ path +:+ ": no such file or directory");
     sha256Sum := fun _ => [];
     ReadFile := fun _ => "";
     getParentProcessId := ∅;
     getProcessExe := ∅;
     NewClientWithOpts := false;
     ContainerList := [];
     ContainerInspect := fun _ => None;
     GetReverseIPLookup := fun _ => "" |}.

End Examples.

Import Examples.

(** * Properties *)

(** ** Strings and paths *)

Section StringFacts.

Lemma HasSuffix_split (s suffix : string) :
  HasSuffix s suffix = true -> exists pre, bytes s = pre ++ bytes suffix.
Proof.
  unfold HasSuffix, eqb_bytes. intros H.
  apply andb_prop in H as [_ H]. apply bool_decide_eq_true in H.
  exists (take (len s - len suffix) (bytes s)).
  rewrite <- H. symmetry. apply take_drop.
Qed.

Lemma HasPrefix_split (s pre : string) :
  HasPrefix s pre = true -> exists rest, bytes s = bytes pre ++ rest.
Proof.
  unfold HasPrefix, eqb_bytes. intros H.
  apply andb_prop in H as [_ H]. apply bool_decide_eq_true in H.
  exists (drop (len pre) (bytes s)).
  rewrite <- H. symmetry. apply take_drop.
Qed.

(** The extension of a name that ends in a dot followed by characters that
    are neither dots nor slashes is that ending. *)
Lemma ext_scan_plain (tail pre acc : list ascii) :
  Forall (fun c => GoPath.is_slash c = false /\ GoPath.is_dot c = false) tail ->
  GoPath.ext_scan (rev tail ++ GoPath.dot :: pre) acc
  = GoPath.dot :: tail ++ acc.
Proof.
  revert acc. induction tail as [|c tail IH] using rev_ind; intros acc Hall.
  - reflexivity.
  - apply Forall_app in Hall as [Hall Hc].
    apply Forall_singleton in Hc as [Hs Hd].
    rewrite rev_unit. cbn [app GoPath.ext_scan]. rewrite Hs, Hd.
    rewrite IH by assumption. now rewrite <- app_assoc.
Qed.

Lemma Ext_of_suffix (fileName : string) (tail : list ascii) :
  Forall (fun c => GoPath.is_slash c = false /\ GoPath.is_dot c = false) tail ->
  (exists pre, bytes fileName = pre ++ GoPath.dot :: tail) ->
  GoPath.Ext fileName = str (GoPath.dot :: tail).
Proof.
  intros Hall [pre Hpre]. unfold GoPath.Ext. rewrite Hpre.
  rewrite rev_app_distr. cbn [rev]. rewrite <- app_assoc. cbn [app].
  rewrite ext_scan_plain by assumption. now rewrite app_nil_r.
Qed.

End StringFacts.

(** ** The loops of the library models run to their end

    [path.Clean] and [parseIPv6] are loops over an index; their models count
    the iterations they may make. The counts that [Clean] and [parseIPv6]
    pass are enough: a larger count gives the same result. *)

Section LoopBounds.

Lemma span_element_length (rest : list ascii) :
  (length (snd (GoPath.span_element rest)) <= length rest)%nat.
Proof.
  induction rest as [|c rest IH]; cbn [GoPath.span_element]; [cbn; lia|].
  destruct (GoPath.is_slash c); [cbn; lia|].
  destruct (GoPath.span_element rest) as [el tl]. cbn in *. lia.
Qed.

Lemma clean_loop_fuel (rooted : bool) (fuel : nat) :
  forall fuel' rest rout dotdot,
    (length rest <= fuel)%nat -> (length rest <= fuel')%nat ->
    GoPath.clean_loop fuel rooted rest rout dotdot
    = GoPath.clean_loop fuel' rooted rest rout dotdot.
Proof.
  induction fuel as [|fuel IH]; intros fuel' rest rout dotdot Hf Hf'.
  - destruct rest; [|cbn in Hf; lia]. now destruct fuel'.
  - destruct fuel' as [|fuel'].
    { destruct rest; [reflexivity | cbn in Hf'; lia]. }
    destruct rest as [|c0 rest1]; [reflexivity|].
    cbn [GoPath.clean_loop]. cbn [length] in Hf, Hf'.
    destruct (GoPath.is_slash c0) eqn:Es; [apply IH; lia|].
    destruct (GoPath.is_dot c0 && _); [apply IH; lia|].
    assert (Htl : (length (tl rest1) <= length rest1)%nat)
      by (destruct rest1; cbn; lia).
    destruct (GoPath.is_dot c0 && _).
    + destruct (dotdot <? length rout)%nat; [apply IH; lia|].
      destruct (negb rooted); apply IH; lia.
    + pose proof (span_element_length rest1) as Hsp.
      cbn [GoPath.span_element]. rewrite Es.
      destruct (GoPath.span_element rest1) as [el rest2]. cbn [snd] in Hsp.
      apply IH; lia.
Qed.

Lemma parseIPv6_body_next ip s ellipsis ip' s' ellipsis' :
  GoNet.parseIPv6_body ip s ellipsis = GoNet.V6Next ip' s' ellipsis' ->
  length ip' = (length ip + 2)%nat.
Proof.
  unfold GoNet.parseIPv6_body.
  destruct (GoNet.hexField s 0 0) as [[acc off]|]; [|discriminate].
  destruct (off =? 0)%nat; [discriminate|].
  destruct ((off <? length s)%nat && _).
  - destruct (bool_decide (ellipsis = None) && _); [discriminate|].
    destruct (16 <? _)%nat; [discriminate|].
    destruct (GoNet.parseIPv4Fields s); discriminate.
  - destruct (drop off s) as [|c0 s1]; [discriminate|].
    destruct (negb _); [discriminate|].
    destruct (bool_decide (s1 = [])); [discriminate|].
    destruct s1 as [|c1 s2]; [discriminate|].
    destruct (bool_decide (c1 = ":"%char)).
    + destruct ellipsis; [discriminate|].
      destruct s2; [discriminate|].
      intros H; inversion H; subst. rewrite length_app. reflexivity.
    + intros H; inversion H; subst. rewrite length_app. reflexivity.
Qed.

Lemma parseIPv6_loop_fuel (fuel : nat) :
  forall fuel' ip s ellipsis,
    (18 <= length ip + 2 * fuel)%nat -> (18 <= length ip + 2 * fuel')%nat ->
    GoNet.parseIPv6_loop fuel ip s ellipsis = GoNet.parseIPv6_loop fuel' ip s ellipsis.
Proof.
  assert (Hend : forall fuel ip s ellipsis,
             (16 <= length ip)%nat ->
             GoNet.parseIPv6_loop fuel ip s ellipsis = GoNet.V6Break ip s ellipsis).
  { intros [|f] ip s e Hlen; [reflexivity|]. cbn [GoNet.parseIPv6_loop].
    now rewrite (proj2 (Nat.ltb_ge (length ip) GoNet.IPv6len) Hlen). }
  induction fuel as [|fuel IH]; intros fuel' ip s ellipsis Hf Hf'.
  - rewrite !Hend by lia. reflexivity.
  - destruct fuel' as [|fuel']; [rewrite !Hend by lia; reflexivity|].
    cbn [GoNet.parseIPv6_loop].
    destruct (length ip <? GoNet.IPv6len)%nat; [|reflexivity].
    destruct (GoNet.parseIPv6_body ip s ellipsis) as [| |ip' s' e'] eqn:Eb;
      try reflexivity.
    apply parseIPv6_body_next in Eb. apply IH; lia.
Qed.

End LoopBounds.

(** ** Source-code extensions *)

Lemma Ext_undotted (fileName : string) :
  undottedEnding fileName ->
  GoPath.Ext fileName = ".cpp" \/ GoPath.Ext fileName = ".cs"
  \/ GoPath.Ext fileName = ".py".
Proof.
  intros [H|[H|H]]; apply HasSuffix_split in H.
  - left. apply (Ext_of_suffix fileName (bytes "cpp")); [repeat constructor | exact H].
  - right; left.
    apply (Ext_of_suffix fileName (bytes "cs")); [repeat constructor | exact H].
  - right; right.
    apply (Ext_of_suffix fileName (bytes "py")); [repeat constructor | exact H].
Qed.

(** ** The process table *)

(** C8. [handleProcessEvent] is idempotent: a second delivery of the same
    process event leaves the handler as the first one left it; and no
    delivery, of this or any other process event, changes an entry that is
    already in the process table. *)
Theorem handleProcessEvent_idempotent (eventHandler : EventHandler) (event : Event) :
  stateOf (handleProcessEvent (stateOf (handleProcessEvent eventHandler event)) event)
  = stateOf (handleProcessEvent eventHandler event)
  /\ forall (other : Event) (pid : string) (p : Process),
       ProcessMap (stateOf (handleProcessEvent eventHandler event)) !! pid = Some p ->
       ProcessMap
         (stateOf (handleProcessEvent (stateOf (handleProcessEvent eventHandler event)) other))
         !! pid = Some p.
Proof.
  split.
  - unfold handleProcessEvent.
    destruct (ProcessMap eventHandler !! Pid event) eqn:E; cbn.
    + now rewrite E.
    + now rewrite lookup_insert_eq.
  - intros other pid p.
    generalize (stateOf (handleProcessEvent eventHandler event)). intros h Hp.
    unfold handleProcessEvent.
    destruct (ProcessMap h !! Pid other) eqn:E; cbn; [exact Hp|].
    rewrite lookup_insert_ne; [exact Hp|]. congruence.
Qed.

Lemma handleProcessEvent_idempotent_witness :
  ProcessMap (stateOf (handleProcessEvent handler0 (procEvent "42" "1" "/bin/sh")))
    !! "42"
  = Some {| Process_PID := "42"; Process_PPid := "1"; Process_Exe := "/bin/sh";
            Process_Arguments := ["/bin/sh"] |}
  /\ ProcessMap
       (stateOf (handleProcessEvent
                   (stateOf (handleProcessEvent handler0 (procEvent "42" "1" "/bin/sh")))
                   (procEvent "42" "7" "/bin/other")))
       !! "42"
     = Some {| Process_PID := "42"; Process_PPid := "1"; Process_Exe := "/bin/sh";
               Process_Arguments := ["/bin/sh"] |}.
Proof.
  assert (H : ProcessMap (stateOf (handleProcessEvent handler0 (procEvent "42" "1" "/bin/sh")))
                !! "42"
              = Some {| Process_PID := "42"; Process_PPid := "1"; Process_Exe := "/bin/sh";
                        Process_Arguments := ["/bin/sh"] |})
    by (vm_compute; reflexivity).
  split; [exact H|].
  exact (proj2 (handleProcessEvent_idempotent handler0 (procEvent "42" "1" "/bin/sh"))
           (procEvent "42" "7" "/bin/other") "42" _ H).
Defined.

(** ** The network classifier *)

Lemma subnets_parse :
  is_Some classAPrivateSubnet /\ is_Some classBPrivateSubnet
  /\ is_Some classCPrivateSubnet /\ is_Some loopBackSubnet
  /\ is_Some ipv6LinkLocalSubnet /\ is_Some ipv6LocalSubnet.
Proof. repeat split; vm_compute; eexists; reflexivity. Qed.

(** The classifier never panics: the six ranges parse. *)
Lemma isPrivateIPAddress_total (ipAddress : string) :
  is_Some (isPrivateIPAddress ipAddress).
Proof.
  unfold isPrivateIPAddress. case_bool_decide; [eexists; reflexivity|].
  destruct subnets_parse as ([a Ha] & [b Hb] & [c Hc] & [l Hl] & [ll Hll] & [ul Hul]).
  rewrite Ha, Hb, Hc, Hl, Hll, Hul. cbn.
  repeat lazymatch goal with
         | |- is_Some (if ?b then _ else _) => destruct b
         end; eexists; reflexivity.
Qed.

(** C6. The classifier answers true on "10.1.2.3", "172.16.0.5",
    "192.168.1.1", "127.0.0.1", "::1", "fe80::1" and "fc00::1", false on
    "8.8.8.8"; and on every string that [net.ParseIP] rejects it returns
    false, without a panic. *)
Theorem isPrivateIPAddress_examples :
  isPrivateIPAddress "10.1.2.3" = Some true
  /\ isPrivateIPAddress "172.16.0.5" = Some true
  /\ isPrivateIPAddress "192.168.1.1" = Some true
  /\ isPrivateIPAddress "127.0.0.1" = Some true
  /\ isPrivateIPAddress "::1" = Some true
  /\ isPrivateIPAddress "fe80::1" = Some true
  /\ isPrivateIPAddress "fc00::1" = Some true
  /\ isPrivateIPAddress "8.8.8.8" = Some false
  /\ forall ipAddress,
       GoNet.ParseIP ipAddress = [] -> isPrivateIPAddress ipAddress = Some false.
Proof.
  repeat (split; [vm_compute; reflexivity|]).
  intros ipAddress Hnil. unfold isPrivateIPAddress.
  case_bool_decide as Hz.
  - subst ipAddress. vm_compute in Hnil. discriminate Hnil.
  - rewrite Hnil. vm_compute. reflexivity.
Qed.

Lemma isPrivateIPAddress_examples_witness :
  GoNet.ParseIP "not-an-address" = []
  /\ GoNet.ParseIP "300.1.1.1" = []
  /\ GoNet.ParseIP "0fe80::1" = []
  /\ GoNet.ParseIP "::00001" = []
  /\ GoNet.ParseIP "010.1.2.3" = []
  /\ GoNet.ParseIP "fe80::1%eth0" = []
  /\ isPrivateIPAddress "not-an-address" = Some false
  /\ isPrivateIPAddress "300.1.1.1" = Some false
  /\ isPrivateIPAddress "0fe80::1" = Some false
  /\ isPrivateIPAddress "::00001" = Some false
  /\ isPrivateIPAddress "010.1.2.3" = Some false
  /\ isPrivateIPAddress "fe80::1%eth0" = Some false.
Proof.
  pose proof isPrivateIPAddress_examples as H.
  do 8 apply proj2 in H.
  do 6 (split; [vm_compute; reflexivity|]).
  do 5 (split; [apply H; vm_compute; reflexivity|]).
  apply H; vm_compute; reflexivity.
Defined.

(** ** The tool-chain resolver *)

Lemma GetToolChain_step fuel env h ppid exe :
  GetToolChain (S fuel) env h ppid exe =
    let checksum := fst (getProgramChecksum env exe) in
    let name := GoPath.Base exe in
    match ProcessMap h !! ppid with
    | Some parentProcess =>
        parent ← GetToolChain fuel env h
                   (Process_PPid parentProcess) (Process_Exe parentProcess);
        Some (mkTool name checksum (Some parent))
    | None =>
        match getParentProcessId env !! ppid with
        | None => Some (mkTool name checksum None)
        | Some parentProcessId =>
            match getProcessExe env !! ppid with
            | None => Some (mkTool name checksum None)
            | Some path =>
                parent ← GetToolChain fuel env h (fmt_d parentProcessId) path;
                Some (mkTool name checksum (Some parent))
            end
        end
    end.
Proof. reflexivity. Qed.

(** More nested calls than needed change nothing. *)
Lemma GetToolChain_mono env h fuel :
  forall fuel' ppid exe tool,
    (fuel <= fuel')%nat ->
    GetToolChain fuel env h ppid exe = Some tool ->
    GetToolChain fuel' env h ppid exe = Some tool.
Proof.
  induction fuel as [|fuel IH]; intros fuel' ppid exe tool Hle H; [discriminate|].
  destruct fuel' as [|fuel']; [lia|].
  rewrite GetToolChain_step in *. cbn zeta in *.
  destruct (ProcessMap h !! ppid) as [p|].
  - destruct (GetToolChain fuel env h (Process_PPid p) (Process_Exe p)) as [t|] eqn:E;
      [|discriminate].
    rewrite (IH fuel' _ _ t) by (lia || exact E). exact H.
  - destruct (getParentProcessId env !! ppid) as [n|]; [|exact H].
    destruct (getProcessExe env !! ppid) as [path|]; [|exact H].
    destruct (GetToolChain fuel env h (fmt_d n) path) as [t|] eqn:E; [|discriminate].
    rewrite (IH fuel' _ _ t) by (lia || exact E). exact H.
Qed.

(** Whatever the resolver returns carries the base name of the executable
    and the checksum string of [getProgramChecksum]. *)
Lemma GetToolChain_head fuel env h ppid exe tool :
  GetToolChain fuel env h ppid exe = Some tool ->
  Tool_Name tool = GoPath.Base exe
  /\ Tool_SHA256 tool = fst (getProgramChecksum env exe).
Proof.
  destruct fuel as [|fuel]; [discriminate|].
  rewrite GetToolChain_step. cbn zeta.
  destruct (ProcessMap h !! ppid) as [p|].
  - destruct (GetToolChain fuel env h _ _); [|discriminate].
    cbn. intros H; inversion H; subst. now split.
  - destruct (getParentProcessId env !! ppid) as [n|];
      [|intros H; inversion H; subst; now split].
    destruct (getProcessExe env !! ppid) as [path|];
      [|intros H; inversion H; subst; now split].
    destruct (GetToolChain fuel env h _ _); [|discriminate].
    cbn. intros H; inversion H; subst. now split.
Qed.

(** The base case: an unknown parent pid ends the chain at once. *)
Lemma GetToolChain_base fuel env h ppid exe :
  ProcessMap h !! ppid = None ->
  getParentProcessId env !! ppid = None \/ getProcessExe env !! ppid = None ->
  GetToolChain (S fuel) env h ppid exe
  = Some (mkTool (GoPath.Base exe) (fst (getProgramChecksum env exe)) None).
Proof.
  intros Hpm Hos. rewrite GetToolChain_step. cbn zeta. rewrite Hpm.
  destruct Hos as [-> | Hexe]; [reflexivity|].
  destruct (getParentProcessId env !! ppid); [|reflexivity]. now rewrite Hexe.
Qed.

(** Without a cycle the depth of the recursion is bounded by the number of
    pids that are still ahead. *)
Lemma GetToolChain_returns_within env h :
  acyclic env h ->
  forall (n : nat) (ahead : gset string) ppid exe,
    (size ahead <= n)%nat ->
    (forall q, rtc (reportedParent env h) ppid q -> q ∈ knownPids env h -> q ∈ ahead) ->
    exists tool, GetToolChain (S n) env h ppid exe = Some tool.
Proof.
  intros Hac.
  assert (Hnext : forall n (ahead : gset string) ppid parent,
             (size ahead <= n)%nat ->
             (forall q, rtc (reportedParent env h) ppid q ->
                        q ∈ knownPids env h -> q ∈ ahead) ->
             ppid ∈ knownPids env h ->
             reportedParent env h ppid parent ->
             exists n', n = S n'
               /\ (size (ahead ∖ {[ppid]}) <= n')%nat
               /\ forall q, rtc (reportedParent env h) parent q ->
                            q ∈ knownPids env h -> q ∈ ahead ∖ {[ppid]}).
  { intros n ahead ppid parent Hsize Hcl Hknown Hpar.
    assert (Hin : ppid ∈ ahead) by (apply Hcl; [apply rtc_refl | exact Hknown]).
    assert (Hsub : ({[ppid]} : gset string) ⊆ ahead) by set_solver.
    pose proof (size_difference ahead {[ppid]} Hsub) as Hd.
    rewrite size_singleton in Hd.
    assert (Hpos : (0 < size ahead)%nat).
    { destruct (size ahead) eqn:E; [|lia].
      apply size_empty_inv in E. set_solver. }
    destruct n as [|n']; [lia|]. exists n'. split; [reflexivity|].
    split; [lia|].
    intros q Hq Hk. apply elem_of_difference. split.
    - apply Hcl; [|exact Hk]. eapply rtc_l; eassumption.
    - intros Heq%elem_of_singleton. subst q.
      apply (Hac ppid). eapply tc_rtc_r; [apply tc_once; exact Hpar | exact Hq]. }
  intros n. induction n as [n IH] using lt_wf_ind.
  intros ahead ppid exe Hsize Hcl.
  rewrite GetToolChain_step. cbn zeta.
  destruct (ProcessMap h !! ppid) as [p|] eqn:Ep.
  - destruct (Hnext n ahead ppid (Process_PPid p) Hsize Hcl) as (n' & -> & Hs' & Hcl').
    { unfold knownPids. apply elem_of_union_l, elem_of_dom. now exists p. }
    { left. now exists p. }
    destruct (IH n' ltac:(lia) _ (Process_PPid p) (Process_Exe p) Hs' Hcl') as [t ->].
    cbn. eexists; reflexivity.
  - destruct (getParentProcessId env !! ppid) as [parentId|] eqn:En;
      [|eexists; reflexivity].
    destruct (getProcessExe env !! ppid) as [path|]; [|eexists; reflexivity].
    destruct (Hnext n ahead ppid (fmt_d parentId) Hsize Hcl) as (n' & -> & Hs' & Hcl').
    { unfold knownPids. apply elem_of_union_r, elem_of_dom. now exists parentId. }
    { right. now exists parentId. }
    destruct (IH n' ltac:(lia) _ (fmt_d parentId) path Hs' Hcl') as [t ->].
    cbn. eexists; reflexivity.
Qed.

Lemma GetToolChain_returns env h ppid exe :
  acyclic env h ->
  exists tool,
    forall fuel, (depthBound env h <= fuel)%nat ->
                 GetToolChain fuel env h ppid exe = Some tool.
Proof.
  intros Hac.
  destruct (GetToolChain_returns_within env h Hac (size (knownPids env h))
              (knownPids env h) ppid exe) as [tool Ht]; [lia | auto |].
  exists tool. intros fuel Hle. eapply GetToolChain_mono; eassumption.
Qed.

(** A pid recorded as its own parent is never left: the recursion has no
    guard against it and no bound on its depth. *)
Lemma GetToolChain_self_parent env h pid p :
  ProcessMap h !! pid = Some p ->
  Process_PPid p = pid ->
  forall fuel exe, GetToolChain fuel env h pid exe = None.
Proof.
  intros Hp Hself fuel. induction fuel as [|fuel IH]; intros exe; [reflexivity|].
  rewrite GetToolChain_step. cbn zeta. rewrite Hp, Hself, IH. reflexivity.
Qed.

Lemma threeGenerations_height pid parent :
  reportedParent envInit threeGenerations pid parent ->
  (height parent < height pid)%nat.
Proof.
  intros [(p & Hp & <-) | (n & Hn & <-)].
  - cbn in Hp.
    apply lookup_insert_Some in Hp as [[<- <-] | [_ Hp]]; [vm_compute; lia|].
    apply lookup_insert_Some in Hp as [[<- <-] | [_ Hp]]; [vm_compute; lia|].
    rewrite lookup_empty in Hp. discriminate Hp.
  - cbn in Hn. apply lookup_singleton_Some in Hn as [<- <-]. vm_compute; lia.
Qed.

Lemma threeGenerations_acyclic : acyclic envInit threeGenerations.
Proof.
  assert (H : forall x y, tc (reportedParent envInit threeGenerations) x y ->
                          (height y < height x)%nat).
  { intros x y Htc. induction Htc as [x y Hxy | x y z Hxy _ IH].
    - now apply threeGenerations_height.
    - apply threeGenerations_height in Hxy. lia. }
  intros pid Hcycle. apply H in Hcycle. lia.
Qed.

(** The links the resolver follows are among the reported ones. *)
Lemma followedParent_reported env h pid parent :
  followedParent env h pid parent -> reportedParent env h pid parent.
Proof.
  unfold followedParent, reportedParent.
  destruct (ProcessMap h !! pid) as [p|].
  - intros Hp. left. now exists p.
  - intros (n & Hn & _ & Hf). right. now exists n.
Qed.

Lemma followedParent_known env h pid parent :
  followedParent env h pid parent -> pid ∈ knownPids env h.
Proof.
  unfold followedParent, knownPids.
  destruct (ProcessMap h !! pid) as [p|] eqn:Ep.
  - intros _. apply elem_of_union_l, elem_of_dom. now exists p.
  - intros (n & Hn & _). apply elem_of_union_r, elem_of_dom. now exists n.
Qed.

(** From a pid from which no cycle of followed links can be reached, the
    depth of the recursion is bounded by the number of pids still ahead. *)
Lemma GetToolChain_returns_from env h :
  forall (n : nat) (ahead : gset string) ppid exe,
    (size ahead <= n)%nat ->
    (forall q, rtc (followedParent env h) ppid q -> ~ tc (followedParent env h) q q) ->
    (forall q, rtc (followedParent env h) ppid q -> q ∈ knownPids env h -> q ∈ ahead) ->
    exists tool, GetToolChain (S n) env h ppid exe = Some tool.
Proof.
  assert (Hnext : forall n (ahead : gset string) ppid parent,
             (size ahead <= n)%nat ->
             (forall q, rtc (followedParent env h) ppid q ->
                        ~ tc (followedParent env h) q q) ->
             (forall q, rtc (followedParent env h) ppid q ->
                        q ∈ knownPids env h -> q ∈ ahead) ->
             followedParent env h ppid parent ->
             exists n', n = S n'
               /\ (size (ahead ∖ {[ppid]}) <= n')%nat
               /\ (forall q, rtc (followedParent env h) parent q ->
                             ~ tc (followedParent env h) q q)
               /\ forall q, rtc (followedParent env h) parent q ->
                            q ∈ knownPids env h -> q ∈ ahead ∖ {[ppid]}).
  { intros n ahead ppid parent Hsize Hnc Hcl Hpar.
    pose proof (followedParent_known _ _ _ _ Hpar) as Hknown.
    assert (Hin : ppid ∈ ahead) by (apply Hcl; [apply rtc_refl | exact Hknown]).
    assert (Hsub : ({[ppid]} : gset string) ⊆ ahead) by set_solver.
    pose proof (size_difference ahead {[ppid]} Hsub) as Hd.
    rewrite size_singleton in Hd.
    assert (Hpos : (0 < size ahead)%nat).
    { destruct (size ahead) eqn:E; [|lia].
      apply size_empty_inv in E. set_solver. }
    destruct n as [|n']; [lia|]. exists n'. split; [reflexivity|].
    split; [lia|]. split.
    - intros q Hq. apply Hnc. eapply rtc_l; eassumption.
    - intros q Hq Hk. apply elem_of_difference. split.
      + apply Hcl; [|exact Hk]. eapply rtc_l; eassumption.
      + intros Heq%elem_of_singleton. subst q.
        apply (Hnc ppid (rtc_refl _ _)).
        eapply tc_rtc_r; [apply tc_once; exact Hpar | exact Hq]. }
  intros n. induction n as [n IH] using lt_wf_ind.
  intros ahead ppid exe Hsize Hnc Hcl.
  rewrite GetToolChain_step. cbn zeta.
  destruct (ProcessMap h !! ppid) as [p|] eqn:Ep.
  - destruct (Hnext n ahead ppid (Process_PPid p) Hsize Hnc Hcl)
      as (n' & -> & Hs' & Hnc' & Hcl').
    { unfold followedParent. now rewrite Ep. }
    destruct (IH n' ltac:(lia) _ (Process_PPid p) (Process_Exe p) Hs' Hnc' Hcl')
      as [t ->].
    cbn. eexists; reflexivity.
  - destruct (getParentProcessId env !! ppid) as [parentId|] eqn:En;
      [|eexists; reflexivity].
    destruct (getProcessExe env !! ppid) as [path|] eqn:Ex; [|eexists; reflexivity].
    destruct (Hnext n ahead ppid (fmt_d parentId) Hsize Hnc Hcl)
      as (n' & -> & Hs' & Hnc' & Hcl').
    { unfold followedParent. rewrite Ep. exists parentId.
      split; [exact En|]. split; [now exists path | reflexivity]. }
    destruct (IH n' ltac:(lia) _ (fmt_d parentId) path Hs' Hnc' Hcl') as [t ->].
    cbn. eexists; reflexivity.
Qed.

(** A cycle of followed links that can be reached is never left: the
    recursion has no guard against it and no bound on its depth. *)
Lemma GetToolChain_cycle env h :
  forall fuel ppid exe,
    (exists q, rtc (followedParent env h) ppid q /\ tc (followedParent env h) q q) ->
    GetToolChain fuel env h ppid exe = None.
Proof.
  induction fuel as [|fuel IH]; intros ppid exe (q & Hreach & Hcyc); [reflexivity|].
  assert (Hstep : exists y, followedParent env h ppid y
                            /\ exists q', rtc (followedParent env h) y q'
                                          /\ tc (followedParent env h) q' q').
  { destruct (rtc_inv _ _ Hreach) as [-> | (y & Hy & Hrest)].
    - inversion Hcyc as [? ? Hqq | ? y ? Hqy Hyq]; subst.
      + exists q. split; [exact Hqq|]. exists q. split; [apply rtc_refl | exact Hcyc].
      + exists y. split; [exact Hqy|]. exists y. split; [apply rtc_refl|].
        eapply tc_r; eassumption.
    - exists y. split; [exact Hy|]. now exists q. }
  destruct Hstep as (y & Hy & Hex).
  rewrite GetToolChain_step. cbn zeta. unfold followedParent in Hy.
  destruct (ProcessMap h !! ppid) as [p|].
  - subst y. now rewrite (IH _ (Process_Exe p) Hex).
  - destruct Hy as (n & -> & [path ->] & <-). now rewrite (IH _ path Hex).
Qed.

Lemma single_link_acyclic {A : Type} (R : relation A) (a b : A) :
  a <> b -> (forall x y, R x y -> x = a /\ y = b) -> forall x, ~ tc R x x.
Proof.
  intros Hne HR x Hc.
  inversion Hc as [? ? H | ? y ? H Hrest]; subst.
  - apply HR in H as [-> E]. congruence.
  - apply HR in H as [-> ->].
    inversion Hrest as [? ? H2 | ? ? ? H2 _]; subst; apply HR in H2 as [E _]; congruence.
Qed.

(** C3, as the code has it. [GetToolChain] returns on every input when the
    parent links of the process table and of the operating system, taken
    together, have no cycle: a depth of one more than the number of known
    pids is enough. More exactly, it returns on a parent pid from which no
    cycle of the links it follows (the table entry if there is one, else
    the parent the operating system gives together with an executable) can
    be reached. Nothing in the recursion guards against a cycle or bounds
    its depth: from a pid that reaches such a cycle, among them a pid that
    the table records as its own parent, no depth is enough. *)
Theorem GetToolChain_terminates env (eventHandler : EventHandler) :
  (acyclic env eventHandler ->
   forall ppid exe,
   exists tool,
     forall fuel, (depthBound env eventHandler <= fuel)%nat ->
                  GetToolChain fuel env eventHandler ppid exe = Some tool)
  /\ (forall ppid exe,
        (forall q, rtc (followedParent env eventHandler) ppid q ->
                   ~ tc (followedParent env eventHandler) q q) ->
        exists tool,
          forall fuel, (depthBound env eventHandler <= fuel)%nat ->
                       GetToolChain fuel env eventHandler ppid exe = Some tool)
  /\ (forall ppid q,
        rtc (followedParent env eventHandler) ppid q ->
        tc (followedParent env eventHandler) q q ->
        forall fuel exe, GetToolChain fuel env eventHandler ppid exe = None)
  /\ (forall pid p,
        ProcessMap eventHandler !! pid = Some p ->
        Process_PPid p = pid ->
        forall fuel exe, GetToolChain fuel env eventHandler pid exe = None).
Proof.
  split; [|split; [|split]].
  - intros Hac ppid exe. now apply GetToolChain_returns.
  - intros ppid exe Hnc.
    destruct (GetToolChain_returns_from env eventHandler
                (size (knownPids env eventHandler)) (knownPids env eventHandler)
                ppid exe) as [tool Ht]; [lia | exact Hnc | auto |].
    exists tool. intros fuel Hle. eapply GetToolChain_mono; eassumption.
  - intros ppid q Hreach Hcyc fuel exe. apply GetToolChain_cycle. now exists q.
  - apply GetToolChain_self_parent.
Qed.

Lemma GetToolChain_terminates_witness :
  acyclic envInit threeGenerations
  /\ (exists tool,
        (forall fuel, (depthBound envInit threeGenerations <= fuel)%nat ->
                      GetToolChain fuel envInit threeGenerations "300" "/usr/bin/cc"
                      = Some tool)
        /\ GetToolChain 4 envInit threeGenerations "300" "/usr/bin/cc" = Some tool)
  /\ (forall fuel, GetToolChain fuel env0 selfParent "1" "/usr/bin/cc" = None)
  /\ (forall fuel, GetToolChain fuel envMixed mixedTable "200" "/usr/bin/cc" = None)
  /\ (exists tool,
        GetToolChain 3 envMixed mixedTable "300" "/usr/bin/cc" = Some tool).
Proof.
  split; [exact threeGenerations_acyclic|]. split; [|split; [|split]].
  - destruct (proj1 (GetToolChain_terminates envInit threeGenerations)
                threeGenerations_acyclic "300" "/usr/bin/cc") as [tool Ht].
    exists tool. split; [exact Ht|]. apply Ht. vm_compute. lia.
  - intros fuel.
    apply (proj2 (proj2 (proj2 (GetToolChain_terminates env0 selfParent))) "1"
             {| Process_PID := "1"; Process_PPid := "1"; Process_Exe := "/sbin/init";
                Process_Arguments := ["/sbin/init"] |});
      [vm_compute; reflexivity | reflexivity].
  - intros fuel.
    apply (proj1 (proj2 (proj2 (GetToolChain_terminates envMixed mixedTable)))
             "200" "100").
    + apply rtc_once. unfold followedParent. vm_compute.
      exists 100. split; [reflexivity|]. split; [eexists; reflexivity | reflexivity].
    + apply (tc_l _ "100" "200" "100"); [vm_compute; reflexivity|].
      apply tc_once. unfold followedParent. vm_compute.
      exists 100. split; [reflexivity|]. split; [eexists; reflexivity | reflexivity].
  - assert (Hno : forall y, ~ followedParent envMixed mixedTable "300" y).
    { intros y Hy. unfold followedParent in Hy. vm_compute in Hy.
      destruct Hy as (n & Hn & _). discriminate Hn. }
    destruct (proj1 (proj2 (GetToolChain_terminates envMixed mixedTable))
                "300" "/usr/bin/cc") as [tool Ht].
    + intros q Hq Hc.
      destruct (rtc_inv _ _ Hq) as [<- | (y & Hy & _)]; [|exact (Hno y Hy)].
      inversion Hc as [? ? H | ? y ? H _]; subst; exact (Hno _ H).
    + exists tool. apply Ht. vm_compute. lia.
Defined.

(** C3, as the specification has it, fails: that neither source contains
    a cycle is not enough. With pid 100 in the table under parent 200, and
    pid 200 known to the operating system only, under parent 100, the links
    of the table alone have no cycle and the links of the operating system
    alone have none, yet the resolver goes from 100 to 200 by the table and
    from 200 back to 100 by the operating system, and returns no [Tool],
    however deep it may recurse. *)
Lemma GetToolChain_mixed_cycle_never_returns :
  (forall pid, ~ tc (tableParent mixedTable) pid pid)
  /\ (forall pid, ~ tc (osParent envMixed) pid pid)
  /\ ~ exists fuel tool,
         GetToolChain fuel envMixed mixedTable "100" "/bin/bash" = Some tool.
Proof.
  split; [|split].
  - apply (single_link_acyclic _ "100" "200"); [discriminate|].
    intros x y (p & Hp & <-). cbn in Hp.
    apply lookup_insert_Some in Hp as [[<- <-] | [_ Hp]]; [now split|].
    rewrite lookup_empty in Hp. discriminate Hp.
  - apply (single_link_acyclic _ "200" "100"); [discriminate|].
    intros x y (n & Hn & <-). cbn in Hn.
    apply lookup_singleton_Some in Hn as [<- <-]. now split.
  - intros (fuel & tool & H).
    rewrite GetToolChain_cycle in H; [discriminate H|].
    exists "100". split; [apply rtc_refl|].
    apply (tc_l _ "100" "200" "100"); [vm_compute; reflexivity|].
    apply tc_once. unfold followedParent. vm_compute.
    exists 100. split; [reflexivity|]. split; [eexists; reflexivity | reflexivity].
Qed.

(** C5, as the code has it. [GetToolChain] has no error result. A failure
    to read the executable puts the error's description in the place of the
    checksum. When the parent pid is not in the process table and the
    operating system cannot give its parent or its executable, the result
    is a [Tool] without parent. And when the reported ancestry has no
    cycle, the call returns a [Tool]. *)
Theorem GetToolChain_degrades env (eventHandler : EventHandler) (ppid exe : string) :
  (forall err,
     openAndCopy env exe = OpenError err \/ openAndCopy env exe = CopyError err ->
     getProgramChecksum env exe = (err, Some err)
     /\ forall fuel tool,
          GetToolChain fuel env eventHandler ppid exe = Some tool ->
          Tool_SHA256 tool = err)
  /\ (ProcessMap eventHandler !! ppid = None ->
      getParentProcessId env !! ppid = None \/ getProcessExe env !! ppid = None ->
      forall fuel,
        GetToolChain (S fuel) env eventHandler ppid exe
        = Some (mkTool (GoPath.Base exe) (fst (getProgramChecksum env exe)) None))
  /\ (acyclic env eventHandler ->
      exists fuel tool, GetToolChain fuel env eventHandler ppid exe = Some tool).
Proof.
  split; [|split].
  - intros err Herr.
    assert (Hsum : getProgramChecksum env exe = (err, Some err)).
    { unfold getProgramChecksum. now destruct Herr as [-> | ->]. }
    split; [exact Hsum|]. intros fuel tool Ht.
    apply GetToolChain_head in Ht as [_ ->]. now rewrite Hsum.
  - intros Hpm Hos fuel. now apply GetToolChain_base.
  - intros Hac. destruct (GetToolChain_returns env eventHandler ppid exe Hac) as [tool Ht].
    exists (depthBound env eventHandler), tool. apply Ht. lia.
Qed.

Lemma handler0_acyclic : acyclic env0 handler0.
Proof.
  assert (H : forall x y, ~ reportedParent env0 handler0 x y).
  { intros x y [(p & Hp & _) | (n & Hn & _)]; cbn in *;
      rewrite lookup_empty in *; discriminate. }
  intros pid Hcycle. destruct Hcycle as [x y Hxy | x y z Hxy _]; exact (H _ _ Hxy).
Qed.

Lemma GetToolChain_degrades_witness :
  openAndCopy env0 "/usr/bin/gone"
  = OpenError "open /usr/bin/gone: no such file or directory"
  /\ ProcessMap handler0 !! "4242" = None
  /\ getParentProcessId env0 !! "4242" = None
  /\ acyclic env0 handler0
  /\ GetToolChain 1 env0 handler0 "4242" "/usr/bin/gone"
     = Some (mkTool "gone" "open /usr/bin/gone: no such file or directory" None).
Proof.
  destruct (GetToolChain_degrades env0 handler0 "4242" "/usr/bin/gone")
    as (Hsum & Hbase & Hret).
  split; [reflexivity|]. split; [reflexivity|]. split; [reflexivity|].
  split; [exact handler0_acyclic|].
  rewrite (Hbase ltac:(reflexivity) ltac:(left; reflexivity) 0%nat).
  destruct (Hsum "open /usr/bin/gone: no such file or directory"
              ltac:(left; reflexivity)) as [-> _].
  reflexivity.
Defined.

(** C5, as the specification has it, fails: with pid 1 recorded as its own parent,
    which one process event with Pid = PPid = "1" brings about, the resolver
    returns no [Tool], however deep it may recurse. *)
Lemma GetToolChain_self_parent_never_returns :
  ~ exists fuel tool, GetToolChain fuel env0 selfParent "1" "/usr/bin/cc" = Some tool.
Proof.
  intros (fuel & tool & H).
  rewrite (GetToolChain_self_parent env0 selfParent "1"
             {| Process_PID := "1"; Process_PPid := "1"; Process_Exe := "/sbin/init";
                Process_Arguments := ["/sbin/init"] |}) in H;
    [discriminate H | vm_compute; reflexivity | reflexivity].
Qed.

(** ** The handlers return when the ancestry has no cycle *)

Lemma reportedParent_ext env h h' :
  ProcessMap h' = ProcessMap h ->
  forall pid parent, reportedParent env h' pid parent -> reportedParent env h pid parent.
Proof. intros Hpm pid parent. unfold reportedParent. now rewrite Hpm. Qed.

Lemma acyclic_ext env h h' :
  ProcessMap h' = ProcessMap h -> acyclic env h -> acyclic env h'.
Proof.
  intros Hpm Hac pid Hcycle. apply (Hac pid).
  assert (H : forall x y, tc (reportedParent env h') x y -> tc (reportedParent env h) x y).
  { intros x y Htc. induction Htc as [x y Hxy | x y z Hxy _ IH].
    - apply tc_once. exact (reportedParent_ext env h h' Hpm x y Hxy).
    - eapply tc_l; [exact (reportedParent_ext env h h' Hpm x y Hxy) | exact IH]. }
  now apply H.
Qed.

Lemma depthBound_ext env h h' :
  ProcessMap h' = ProcessMap h -> depthBound env h' = depthBound env h.
Proof. intros Hpm. unfold depthBound, knownPids. now rewrite Hpm. Qed.

(** A delivery returns, and leaves the process table as it was. *)
Lemma handleNetworkEvent_returns fuel env h event :
  acyclic env h -> (depthBound env h <= fuel)%nat ->
  runtimeAnswers env (Pid event) ->
  exists h' fx,
    handleNetworkEvent fuel env h event = Some (h', event, fx)
    /\ ProcessMap h' = ProcessMap h.
Proof.
  intros Hac Hfuel [image Himage]. unfold handleNetworkEvent.
  destruct (isPrivateIPAddress_total (IPAddress event)) as [private ->]. cbn.
  destruct (negb private && _ && _ && _); [|eexists _, _; split; reflexivity].
  destruct (ProcessConnectionMap h !! cacheKey event);
    [eexists _, _; split; reflexivity|].
  assert (Htool : exists tool, connectionTool fuel env h event = Some tool).
  { unfold connectionTool. rewrite Himage. cbn.
    case_bool_decide; [|eexists; reflexivity].
    case_bool_decide; cbn [negb]; [eexists; reflexivity|].
    destruct (GetToolChain_returns env h (PPid event) (Exe event) Hac) as [tool Ht].
    exists tool. now apply Ht. }
  destruct Htool as [tool ->]. cbn. eexists _, _; split; reflexivity.
Qed.

Lemma handleFileEvent_returns fuel env h event :
  acyclic env h -> (depthBound env h <= fuel)%nat ->
  exists h' fx,
    handleFileEvent fuel env h event = Some (h', normalizeFileName event, fx)
    /\ ProcessMap h' = ProcessMap h.
Proof.
  intros Hac Hfuel. unfold handleFileEvent.
  assert (Hc : exists h1 fx2,
             classifyFirstWrite fuel env h (normalizeFileName event) = Some (h1, fx2)
             /\ ProcessMap h1 = ProcessMap h).
  { unfold classifyFirstWrite.
    destruct (ProcessFileMap h !! _); [eexists _, _; split; reflexivity|].
    case_bool_decide; cbn [negb]; [eexists _, _; split; reflexivity|].
    destruct (GetToolChain_returns env h (PPid (normalizeFileName event))
                (Exe (normalizeFileName event)) Hac) as [tool Ht].
    rewrite (Ht fuel Hfuel). cbn. eexists _, _; split; reflexivity. }
  destruct Hc as (h1 & fx2 & -> & Hpm). cbn.
  destruct (trackSourceWrite h1 (normalizeFileName event)) as [h2 fx3] eqn:Ht.
  exists h2, (postEventSignal (normalizeFileName event) ++ fx2 ++ fx3).
  split; [reflexivity|]. rewrite <- Hpm.
  unfold trackSourceWrite in Ht.
  destruct (isSourceCodeFile _ && _); [|now inversion Ht].
  destruct (SourceCodeMap h1 !! _) as [writes|]; [|now inversion Ht].
  destruct (isFromDifferentProcess writes _); now inversion Ht.
Qed.

Lemma deliver_returns (handler : EventHandler -> Event -> option Outcome)
    (stable : EventHandler -> Prop) (good : Event -> Prop) :
  (forall h event, stable h -> good event ->
     exists h' event' fx, handler h event = Some (h', event', fx) /\ stable h') ->
  forall events h, stable h -> Forall good events ->
    exists final trace, deliver handler h events = Some (final, trace).
Proof.
  intros Hstep events. induction events as [|e events IH]; intros h Hh Hgood.
  - eexists _, _. reflexivity.
  - apply Forall_cons in Hgood as [He Hgood].
    destruct (Hstep h e Hh He) as (h' & e' & fx & Hs & Hh').
    destruct (IH h' Hh' Hgood) as (final & trace & Hrun).
    cbn [deliver]. rewrite Hs. cbn. rewrite Hrun. cbn. eexists _, _. reflexivity.
Qed.

Lemma deliver_network_returns fuel env h events :
  acyclic env h -> (depthBound env h <= fuel)%nat ->
  Forall (fun e => runtimeAnswers env (Pid e)) events ->
  exists final trace, deliver (handleNetworkEvent fuel env) h events = Some (final, trace).
Proof.
  intros Hac Hfuel Hrt.
  apply (deliver_returns _ (fun h' => ProcessMap h' = ProcessMap h)
           (fun e => runtimeAnswers env (Pid e))); [|reflexivity | exact Hrt].
  intros h1 e Hpm He.
  destruct (handleNetworkEvent_returns fuel env h1 e) as (h' & fx & Hs & Hpm').
  - eapply acyclic_ext; eassumption.
  - now rewrite (depthBound_ext env h h1).
  - exact He.
  - exists h', e, fx. split; [exact Hs | congruence].
Qed.

Lemma deliver_file_returns fuel env h events :
  acyclic env h -> (depthBound env h <= fuel)%nat ->
  exists final trace, deliver (handleFileEvent fuel env) h events = Some (final, trace).
Proof.
  intros Hac Hfuel.
  apply (deliver_returns _ (fun h' => ProcessMap h' = ProcessMap h) (fun _ => True));
    [|reflexivity | now apply Forall_forall].
  intros h1 e Hpm _.
  destruct (handleFileEvent_returns fuel env h1 e) as (h' & fx & Hs & Hpm').
  - eapply acyclic_ext; eassumption.
  - now rewrite (depthBound_ext env h h1).
  - exists h', (normalizeFileName e), fx. split; [exact Hs | congruence].
Qed.

(** ** Connection deduplication *)

Lemma count_app (p : Effect -> bool) (a b : list Effect) :
  count p (a ++ b) = (count p a + count p b)%nat.
Proof. unfold count. now rewrite filter_app, length_app. Qed.

Lemma effects_cons (event : Event) (fx : list Effect) trace :
  effects ((event, fx) :: trace) = fx ++ effects trace.
Proof. reflexivity. Qed.

(** What one delivery of a network event can do: nothing, or one report
    together with the insertion of the event's key. *)
Lemma handleNetworkEvent_inv fuel env h event h' event' fx :
  handleNetworkEvent fuel env h event = Some (h', event', fx) ->
  event' = event
  /\ ((h' = h /\ fx = [])
      \/ (ProcessConnectionMap h !! cacheKey event = None
          /\ h' = set_ProcessConnectionMap
                    (<[cacheKey event := true]> (ProcessConnectionMap h)) h
          /\ count is_sendNetConnection fx = 1%nat)).
Proof.
  unfold handleNetworkEvent. intros H.
  destruct (isPrivateIPAddress (IPAddress event)) as [private|]; [|discriminate].
  cbn in H.
  destruct (negb private && _ && _ && _).
  - destruct (ProcessConnectionMap h !! cacheKey event) eqn:E.
    + inversion H; subst. split; [reflexivity | left; split; reflexivity].
    + destruct (connectionTool fuel env h event) as [tool|]; [|discriminate].
      cbn in H. inversion H; subst.
      split; [reflexivity | right; repeat split; reflexivity].
  - inversion H; subst. split; [reflexivity | left; split; reflexivity].
Qed.

(** An event whose key is in the map is dropped, whatever else holds. *)
Lemma handleNetworkEvent_seen fuel env h event :
  is_Some (ProcessConnectionMap h !! cacheKey event) ->
  handleNetworkEvent fuel env h event = Some (h, event, []).
Proof.
  intros [b Hb]. unfold handleNetworkEvent.
  destruct (isPrivateIPAddress_total (IPAddress event)) as [private ->]. cbn.
  rewrite Hb. now destruct (negb private && _ && _ && _).
Qed.

Lemma deliver_seen fuel env h key events :
  is_Some (ProcessConnectionMap h !! key) ->
  Forall (fun e => cacheKey e = key) events ->
  deliver (handleNetworkEvent fuel env) h events
  = Some (h, map (fun e => (e, [])) events).
Proof.
  intros Hkey Hall. induction Hall as [|e events He _ IH]; [reflexivity|].
  cbn [deliver]. rewrite handleNetworkEvent_seen by now rewrite He.
  cbn. rewrite IH. reflexivity.
Qed.

Lemma effects_silent (events : list Event) :
  effects (map (fun e => (e, [])) events) = [].
Proof. induction events as [|e events IH]; [reflexivity|]. exact IH. Qed.

Lemma deliver_network_at_most_once fuel env (pid ip port : string) events :
  Forall (sameTuple pid ip port) events ->
  forall h final trace,
    deliver (handleNetworkEvent fuel env) h events = Some (final, trace) ->
    (count is_sendNetConnection (effects trace) <= 1)%nat.
Proof.
  intros Hall.
  assert (Hkeys : Forall (fun e => cacheKey e = pid +:+ ip +:+ port) events).
  { eapply Forall_impl; [exact Hall|].
    intros e (H1 & H2 & H3). unfold cacheKey. now rewrite H1, H2, H3. }
  clear Hall.
  induction Hkeys as [|e events He Hkeys IH]; intros h final trace Hrun.
  - inversion Hrun; subst. cbn. lia.
  - cbn [deliver] in Hrun.
    destruct (handleNetworkEvent fuel env h e) as [[[h1 e1] fx]|] eqn:Hstep;
      [|discriminate].
    cbn in Hrun.
    destruct (deliver (handleNetworkEvent fuel env) h1 events)
      as [[final' trace']|] eqn:Hrest; [|discriminate].
    cbn in Hrun. inversion Hrun; subst final trace. clear Hrun.
    rewrite effects_cons, count_app.
    apply handleNetworkEvent_inv in Hstep as [_ [[-> ->] | (Hnew & -> & Hone)]].
    + specialize (IH _ _ _ Hrest). cbn. exact IH.
    + rewrite (deliver_seen fuel env _ (pid +:+ ip +:+ port)) in Hrest.
      * inversion Hrest; subst. rewrite effects_silent, Hone. cbn. lia.
      * cbn. rewrite He. rewrite lookup_insert_eq. eexists; reflexivity.
      * exact Hkeys.
Qed.

Lemma reportable_dec env h event :
  reportable env h event \/ ~ reportable env h event.
Proof.
  unfold reportable.
  destruct (decide (isPrivateIPAddress (IPAddress event) = Some false
                    /\ IPAddress event <> "::1"
                    /\ IPAddress event <> AzureIPAddress env
                    /\ IPAddress event <> MetadataIPAddress env
                    /\ ProcessConnectionMap h !! cacheKey event = None));
    [now left | now right].
Qed.

Lemma handleNetworkEvent_reportable fuel env h event :
  reportable env h event ->
  handleNetworkEvent fuel env h event
  = tool ← connectionTool fuel env h event;
    Some (set_ProcessConnectionMap
            (<[cacheKey event := true]> (ProcessConnectionMap h)) h,
          event,
          [sendNetConnection (CorrelationId h) (Repo h) (IPAddress event)
             (Port event) (GetReverseIPLookup env (IPAddress event)) ""
             (Timestamp event) tool]).
Proof.
  intros (Hp & H1 & H2 & H3 & H4). unfold handleNetworkEvent.
  rewrite Hp. cbn. rewrite !bool_decide_eq_false_2 by assumption. cbn.
  now rewrite H4.
Qed.

Lemma handleNetworkEvent_not_reportable fuel env h event :
  ~ reportable env h event ->
  handleNetworkEvent fuel env h event = Some (h, event, []).
Proof.
  unfold reportable, handleNetworkEvent.
  destruct (isPrivateIPAddress_total (IPAddress event)) as [private ->]. cbn.
  destruct private; cbn [negb andb]; [reflexivity|].
  case_bool_decide as E1; cbn [negb andb]; [reflexivity|].
  case_bool_decide as E2; cbn [negb andb]; [reflexivity|].
  case_bool_decide as E3; cbn [negb andb]; [reflexivity|].
  destruct (ProcessConnectionMap h !! cacheKey event) eqn:E; [reflexivity|].
  intros Hn. exfalso. apply Hn. now repeat split.
Qed.

Lemma connectionTool_returns fuel env h event :
  acyclic env h -> (depthBound env h <= fuel)%nat ->
  runtimeAnswers env (Pid event) ->
  exists tool, connectionTool fuel env h event = Some tool.
Proof.
  intros Hac Hfuel [image Himage].
  unfold connectionTool. rewrite Himage. cbn.
  case_bool_decide; [|eexists; reflexivity].
  case_bool_decide; cbn [negb]; [eexists; reflexivity|].
  destruct (GetToolChain_returns env h (PPid event) (Exe event) Hac) as [tool Ht].
  exists tool. now apply Ht.
Qed.

(** A sequence without an event to report leaves the state as it is. *)
Lemma deliver_not_reportable fuel env h events :
  Forall (fun e => ~ reportable env h e) events ->
  deliver (handleNetworkEvent fuel env) h events
  = Some (h, map (fun e => (e, [])) events).
Proof.
  intros Hall. induction Hall as [|e events He _ IH]; [reflexivity|].
  cbn [deliver]. rewrite (handleNetworkEvent_not_reportable fuel env h e He).
  cbn. rewrite IH. reflexivity.
Qed.

Lemma reportable_among env h events :
  Forall (fun e => ~ reportable env h e) events
  \/ exists e, e ∈ events /\ reportable env h e.
Proof.
  induction events as [|e events IH]; [left; constructor|].
  destruct (reportable_dec env h e) as [Hr | Hr].
  - right. exists e. split; [apply list_elem_of_here | exact Hr].
  - destruct IH as [Hall | (e' & Hin & Hr')].
    + left. now constructor.
    + right. exists e'. split; [now apply list_elem_of_further | exact Hr'].
Qed.

(** C2. For every sequence of network events that share (pid, ip, port),
    delivered one after the other to [handleNetworkEvent] from any state,
    at most one call of [sendNetConnection] is made, however often the
    tuple recurs. (The sequence is handled to its end when the ancestry has
    no cycle and, if one of its events is to be reported, the container
    lookup answers for the pid; a run that stops earlier has made the calls
    of the part it handled, which is such a sequence too.) *)
Theorem handleNetworkEvent_at_most_once fuel env (eventHandler : EventHandler)
    (pid ip port : string) (events : list Event) :
  Forall (sameTuple pid ip port) events ->
  (forall final trace,
     deliver (handleNetworkEvent fuel env) eventHandler events = Some (final, trace) ->
     (count is_sendNetConnection (effects trace) <= 1)%nat)
  /\ (acyclic env eventHandler ->
      (depthBound env eventHandler <= fuel)%nat ->
      (forall event, event ∈ events -> reportable env eventHandler event ->
                     runtimeAnswers env pid) ->
      exists final trace,
        deliver (handleNetworkEvent fuel env) eventHandler events = Some (final, trace)).
Proof.
  intros Hall. split.
  - intros final trace. now apply (deliver_network_at_most_once fuel env pid ip port).
  - intros Hac Hfuel Hrt.
    destruct (reportable_among env eventHandler events) as [Hnone | (e & Hin & Hr)].
    + rewrite (deliver_not_reportable fuel env eventHandler events Hnone).
      eexists _, _. reflexivity.
    + apply deliver_network_returns; [exact Hac | exact Hfuel|].
      eapply Forall_impl; [exact Hall|]. intros e' (Hp & _). rewrite Hp.
      exact (Hrt e Hin Hr).
Qed.

Lemma handleNetworkEvent_at_most_once_witness :
  Forall (sameTuple "77" "8.8.8.8" "53")
    [netEvent "77" "8.8.8.8" "53"; netEvent "77" "8.8.8.8" "53";
     netEvent "77" "8.8.8.8" "53"]
  /\ exists final trace,
       deliver (handleNetworkEvent 1 env0) handler0
         [netEvent "77" "8.8.8.8" "53"; netEvent "77" "8.8.8.8" "53";
          netEvent "77" "8.8.8.8" "53"] = Some (final, trace)
       /\ count is_sendNetConnection (effects trace) = 1%nat
       /\ (count is_sendNetConnection (effects trace) <= 1)%nat.
Proof.
  assert (Hall : Forall (sameTuple "77" "8.8.8.8" "53")
                   [netEvent "77" "8.8.8.8" "53"; netEvent "77" "8.8.8.8" "53";
                    netEvent "77" "8.8.8.8" "53"])
    by (repeat constructor).
  split; [exact Hall|].
  destruct (handleNetworkEvent_at_most_once 1 env0 handler0 _ _ _ _ Hall)
    as [Hmax Hret].
  destruct (Hret handler0_acyclic ltac:(vm_compute; lia)
              ltac:(intros _ _ _; vm_compute; eexists; reflexivity))
    as (final & trace & Hrun).
  exists final, trace. split; [exact Hrun|]. split.
  - vm_compute in Hrun. inversion Hrun. vm_compute. reflexivity.
  - exact (Hmax final trace Hrun).
Defined.



(** ** The file handler *)

Lemma normalizeFileName_frame (event : Event) :
  normalizeFileName event = set_FileName (FileName (normalizeFileName event)) event.
Proof.
  unfold normalizeFileName. destruct (negb _); [reflexivity|]. now destruct event.
Qed.

Lemma normalizeFileName_Pid (event : Event) : Pid (normalizeFileName event) = Pid event.
Proof. unfold normalizeFileName. now destruct (negb _). Qed.

Lemma normalizeFileName_Syscall (event : Event) :
  Syscall (normalizeFileName event) = Syscall event.
Proof. unfold normalizeFileName. now destruct (negb _). Qed.

(** The three parts of [handleFileEvent], in their order. *)
Lemma handleFileEvent_inv fuel env h event h' event' fx :
  handleFileEvent fuel env h event = Some (h', event', fx) ->
  event' = normalizeFileName event
  /\ exists h1 fx2 fx3,
       classifyFirstWrite fuel env h event' = Some (h1, fx2)
       /\ trackSourceWrite h1 event' = (h', fx3)
       /\ fx = postEventSignal event' ++ fx2 ++ fx3.
Proof.
  unfold handleFileEvent. intros H.
  destruct (classifyFirstWrite fuel env h (normalizeFileName event))
    as [[h1 fx2]|] eqn:Hc; [|discriminate].
  cbn in H.
  destruct (trackSourceWrite h1 (normalizeFileName event)) as [h2 fx3] eqn:Ht.
  inversion H; subst. split; [reflexivity|].
  exists h1, fx2, fx3. repeat split; assumption.
Qed.

Lemma postEventSignal_quiet (event : Event) :
  count is_WriteAnnotation (postEventSignal event) = 0%nat
  /\ count is_sendFileEvent (postEventSignal event) = 0%nat.
Proof. unfold postEventSignal. destruct (GoString.Contains _ _); split; reflexivity. Qed.

(** Classification touches [ProcessFileMap] only, and sends at most the one
    file report. *)
Lemma classifyFirstWrite_inv fuel env h event h1 fx :
  classifyFirstWrite fuel env h event = Some (h1, fx) ->
  SourceCodeMap h1 = SourceCodeMap h
  /\ count is_WriteAnnotation fx = 0%nat
  /\ ((h1 = h /\ fx = [])
      \/ (ProcessFileMap h !! Pid event = None
          /\ fileTypeOf (FileName event) <> ""
          /\ h1 = set_ProcessFileMap (<[Pid event := true]> (ProcessFileMap h)) h
          /\ exists tool,
               GetToolChain fuel env h (PPid event) (Exe event) = Some tool
               /\ fx = [sendFileEvent (CorrelationId h) (Repo h)
                          (fileTypeOf (FileName event)) (Timestamp event) tool])).
Proof.
  unfold classifyFirstWrite. intros H.
  destruct (ProcessFileMap h !! Pid event) eqn:E.
  - inversion H; subst. repeat split; try reflexivity. left. now split.
  - case_bool_decide as Hty; cbn in H.
    + inversion H; subst. repeat split; try reflexivity. left. now split.
    + destruct (GetToolChain fuel env h (PPid event) (Exe event)) as [tool|] eqn:Ht;
        [|discriminate].
      cbn in H. inversion H; subst. repeat split; try reflexivity.
      right. repeat split; try assumption. exists tool. now split.
Qed.

(** The loop of lines 75-79 answers whether some recorded write is by
    another pid. *)
Lemma isFromDifferentProcess_spec (writes : list Event) (event : Event) :
  isFromDifferentProcess writes event = true
  <-> exists w, w ∈ writes /\ Pid w <> Pid event.
Proof.
  unfold isFromDifferentProcess.
  assert (G : forall flag,
             fold_left
               (fun flag writeEvent =>
                  if negb (bool_decide (Pid writeEvent = Pid event)) then true else flag)
               writes flag = true
             <-> flag = true \/ exists w, w ∈ writes /\ Pid w <> Pid event).
  { induction writes as [|w writes IH]; intros flag; cbn [fold_left].
    - split; [now left|]. intros [H|(w & Hw & _)]; [exact H|]. inversion Hw.
    - rewrite IH. case_bool_decide as Hp; cbn [negb].
      + split.
        * intros [H|(x & Hx & Hne)]; [now left|]. right. exists x.
          split; [now apply elem_of_cons; right | exact Hne].
        * intros [H|(x & Hx & Hne)]; [now left|].
          apply elem_of_cons in Hx as [->|Hx]; [contradiction|].
          right. now exists x.
      + split; [|now left]. intros _. right. exists w.
        split; [apply elem_of_cons; now left | exact Hp]. }
  rewrite G. split; [|now right]. intros [H|H]; [discriminate | exact H].
Qed.

(** Tamper tracking of one write to a source file, by cases on the history
    of the file. *)
Lemma trackSourceWrite_source h event :
  isSourceCodeFile (FileName event) = true ->
  isSyscallExcluded (Syscall event) = false ->
  trackSourceWrite h event =
    match SourceCodeMap h !! FileName event with
    | None => (set_SourceCodeMap (<[FileName event := [event]]> (SourceCodeMap h)) h, [])
    | Some writes =>
        if isFromDifferentProcess writes event
        then (set_SourceCodeMap
                (<[FileName event := writes ++ [event]]> (SourceCodeMap h)) h,
              [WriteAnnotation (overwriteMessage event)])
        else (h, [])
    end.
Proof. intros Hs Hx. unfold trackSourceWrite. now rewrite Hs, Hx. Qed.

(** One delivery of a write to a source file: the history of the file after
    it, and the number of annotations it wrote. *)
Lemma handleFileEvent_source_write fuel env h event h' event' fx :
  handleFileEvent fuel env h event = Some (h', event', fx) ->
  isSourceCodeFile (FileName event') = true ->
  isSyscallExcluded (Syscall event) = false ->
  match SourceCodeMap h !! FileName event' with
  | None =>
      SourceCodeMap h' !! FileName event' = Some [event']
      /\ count is_WriteAnnotation fx = 0%nat
  | Some writes =>
      if isFromDifferentProcess writes event'
      then SourceCodeMap h' !! FileName event' = Some (writes ++ [event'])
           /\ count is_WriteAnnotation fx = 1%nat
      else SourceCodeMap h' !! FileName event' = Some writes
           /\ count is_WriteAnnotation fx = 0%nat
  end.
Proof.
  intros H Hs Hx.
  apply handleFileEvent_inv in H as [-> (h1 & fx2 & fx3 & Hc & Ht & ->)].
  apply classifyFirstWrite_inv in Hc as (Hmap & Hq & _).
  rewrite trackSourceWrite_source in Ht
    by (try rewrite normalizeFileName_Syscall; assumption).
  rewrite !count_app, Hq, (proj1 (postEventSignal_quiet _)).
  rewrite Hmap in Ht.
  destruct (SourceCodeMap h !! FileName (normalizeFileName event)) as [writes|] eqn:E.
  - destruct (isFromDifferentProcess writes (normalizeFileName event));
      inversion Ht; subst; cbn.
    + now rewrite lookup_insert_eq.
    + now rewrite Hmap, E.
  - inversion Ht; subst; cbn. now rewrite lookup_insert_eq.
Qed.

(** C10. [isSourceCodeFile] is false for every file name that ends in
    ".cpp", ".cs" or ".py": [path.Ext] yields the extension with its dot,
    and the list holds these three without one. A write to such a file
    therefore never enters tamper tracking: the file handler leaves
    [SourceCodeMap] as it is and writes no annotation. *)
Theorem isSourceCodeFile_undotted_false (fileName : string) :
  undottedEnding fileName ->
  isSourceCodeFile fileName = false
  /\ forall fuel env h event h' event' fx,
       handleFileEvent fuel env h event = Some (h', event', fx) ->
       FileName event' = fileName ->
       SourceCodeMap h' = SourceCodeMap h
       /\ count is_WriteAnnotation fx = 0%nat.
Proof.
  intros H. apply Ext_undotted in H.
  assert (Hsrc : isSourceCodeFile fileName = false).
  { unfold isSourceCodeFile. destruct H as [-> | [-> | ->]]; reflexivity. }
  split; [exact Hsrc|].
  intros fuel env h event h' event' fx Hrun Hname.
  apply handleFileEvent_inv in Hrun as [He (h1 & fx2 & fx3 & Hc & Ht & ->)].
  apply classifyFirstWrite_inv in Hc as (Hmap & Hq & _).
  unfold trackSourceWrite in Ht. rewrite Hname, Hsrc in Ht. cbn in Ht.
  inversion Ht; subst h' fx3.
  split; [exact Hmap|].
  rewrite !count_app, Hq, (proj1 (postEventSignal_quiet _)). reflexivity.
Qed.

Lemma isSourceCodeFile_undotted_false_witness :
  undottedEnding "/repo/tools/build.py"
  /\ isSourceCodeFile "/repo/tools/build.py" = false
  /\ exists h' fx,
       handleFileEvent 1 env0 handler0 (fileEvent "100" "tools/build.py")
       = Some (h', fileEvent "100" "/repo/tools/build.py", fx)
       /\ SourceCodeMap h' = SourceCodeMap handler0
       /\ count is_WriteAnnotation fx = 0%nat.
Proof.
  assert (H : undottedEnding "/repo/tools/build.py")
    by (right; right; vm_compute; reflexivity).
  split; [exact H|].
  destruct (isSourceCodeFile_undotted_false "/repo/tools/build.py" H) as [H1 H2].
  split; [exact H1|].
  destruct (handleFileEvent 1 env0 handler0 (fileEvent "100" "tools/build.py"))
    as [[[h' event'] fx]|] eqn:Hrun.
  - assert (He : event' = fileEvent "100" "/repo/tools/build.py")
      by (vm_compute in Hrun; inversion Hrun; reflexivity).
    subst event'. exists h', fx. split; [reflexivity|].
    exact (H2 1%nat env0 handler0 _ h' _ fx Hrun eq_refl).
  - vm_compute in Hrun. discriminate Hrun.
Defined.

Lemma deliver_cons_inv handler h event rest final trace :
  deliver handler h (event :: rest) = Some (final, trace) ->
  exists h1 event1 fx trace',
    handler h event = Some (h1, event1, fx)
    /\ deliver handler h1 rest = Some (final, trace')
    /\ trace = (event, fx) :: trace'.
Proof.
  cbn [deliver]. intros H.
  destruct (handler h event) as [[[h1 event1] fx]|]; [|discriminate]. cbn in H.
  destruct (deliver handler h1 rest) as [[final' trace']|] eqn:Hrest; [|discriminate].
  cbn in H. inversion H; subst. now exists h1, event1, fx, trace'.
Qed.






(** ** The event after a handler has run *)

Lemma handleProcessEvent_event h event : eventOf (handleProcessEvent h event) = event.
Proof. unfold handleProcessEvent. now destruct (ProcessMap h !! Pid event). Qed.

(** C4, as the code has it. The network and the process handler assign no
    field of the event. The file handler assigns [FileName] and nothing
    else: a name that starts with a slash stays, any other name is replaced
    by [path.Join(event.Path, event.FileName)]. *)
Theorem handlers_assign_only_FileName fuel env (eventHandler : EventHandler)
    (event : Event) :
  (forall h' event' fx,
     handleFileEvent fuel env eventHandler event = Some (h', event', fx) ->
     event' = set_FileName
                (if HasPrefix (FileName event) "/" then FileName event
                 else GoPath.Join [Path event; FileName event])
                event
     /\ (HasPrefix (FileName event) "/" = true -> event' = event))
  /\ (forall h' event' fx,
        handleNetworkEvent fuel env eventHandler event = Some (h', event', fx) ->
        event' = event)
  /\ eventOf (handleProcessEvent eventHandler event) = event
  /\ (forall h' event' fx,
        HandleEvent fuel env eventHandler event = Some (h', event', fx) ->
        event' = event
        \/ (EventType event = fileMonitorTag env
            /\ HasPrefix (FileName event) "/" = false
            /\ event' = set_FileName (GoPath.Join [Path event; FileName event]) event)).
Proof.
  assert (Hfile : forall h' event' fx,
            handleFileEvent fuel env eventHandler event = Some (h', event', fx) ->
            event' = set_FileName
                       (if HasPrefix (FileName event) "/" then FileName event
                        else GoPath.Join [Path event; FileName event])
                       event
            /\ (HasPrefix (FileName event) "/" = true -> event' = event)).
  { intros h' event' fx H. apply handleFileEvent_inv in H as [-> _].
    unfold normalizeFileName. destruct (HasPrefix (FileName event) "/"); cbn [negb].
    - split; [now destruct event | reflexivity].
    - split; [reflexivity | discriminate]. }
  assert (Hnet : forall h' event' fx,
            handleNetworkEvent fuel env eventHandler event = Some (h', event', fx) ->
            event' = event).
  { intros h' event' fx H. now apply handleNetworkEvent_inv in H as [-> _]. }
  split; [exact Hfile|]. split; [exact Hnet|].
  split; [apply handleProcessEvent_event|].
  intros h' event' fx. unfold HandleEvent.
  case_bool_decide as Hn; [intros H; left; eapply Hnet; exact H|].
  case_bool_decide as Hf.
  - intros H. destruct (Hfile _ _ _ H) as [Heq Habs].
    destruct (HasPrefix (FileName event) "/") eqn:E.
    + left. now apply Habs.
    + right. now repeat split.
  - case_bool_decide as Hp; intros H; inversion H as [Hout]; left.
    + pose proof (handleProcessEvent_event eventHandler event) as He.
      now rewrite Hout in He.
    + reflexivity.
Qed.

Lemma handlers_assign_only_FileName_witness :
  HasPrefix (FileName (fileEvent "100" "/repo/main.go")) "/" = true
  /\ exists h' fx,
       handleFileEvent 1 env0 handler0 (fileEvent "100" "/repo/main.go")
       = Some (h', fileEvent "100" "/repo/main.go", fx).
Proof.
  split; [vm_compute; reflexivity|].
  destruct (handleFileEvent 1 env0 handler0 (fileEvent "100" "/repo/main.go"))
    as [[[h' event'] fx]|] eqn:H.
  - destruct (proj1 (handlers_assign_only_FileName 1 env0 handler0
                       (fileEvent "100" "/repo/main.go")) h' event' fx H) as [_ Habs].
    rewrite (Habs ltac:(vm_compute; reflexivity)). now exists h', fx.
  - vm_compute in H. discriminate H.
Defined.

(** C4, as the specification has it, fails: the file handler is given an event named
    "main.go" and leaves it named "/repo/main.go". *)
Lemma handleFileEvent_rewrites_FileName :
  exists h' event' fx,
    handleFileEvent 1 env0 handler0 (fileEvent "100" "main.go") = Some (h', event', fx)
    /\ FileName (fileEvent "100" "main.go") = "main.go"
    /\ FileName event' = "/repo/main.go"
    /\ FileName event' <> FileName (fileEvent "100" "main.go").
Proof.
  eexists _, _, _. split; [vm_compute; reflexivity|].
  repeat split. discriminate.
Qed.

(** ** First-write classification *)

Lemma trackSourceWrite_frame h event h' fx :
  trackSourceWrite h event = (h', fx) ->
  ProcessFileMap h' = ProcessFileMap h
  /\ CorrelationId h' = CorrelationId h /\ Repo h' = Repo h
  /\ count is_sendFileEvent fx = 0%nat.
Proof.
  unfold trackSourceWrite. intros H.
  destruct (isSourceCodeFile _ && _).
  - destruct (SourceCodeMap h !! FileName event) as [writes|].
    + destruct (isFromDifferentProcess writes event); inversion H; subst;
        repeat split; reflexivity.
    + inversion H; subst. repeat split; reflexivity.
  - inversion H; subst. repeat split; reflexivity.
Qed.

(** One delivery of a file event sends no file report and leaves
    [ProcessFileMap] alone, or sends one and marks the pid of the event. *)
Lemma handleFileEvent_report_inv fuel env h event h' event' fx :
  handleFileEvent fuel env h event = Some (h', event', fx) ->
  (ProcessFileMap h' = ProcessFileMap h /\ count is_sendFileEvent fx = 0%nat)
  \/ (ProcessFileMap h !! Pid event = None
      /\ ProcessFileMap h' = <[Pid event := true]> (ProcessFileMap h)
      /\ count is_sendFileEvent fx = 1%nat).
Proof.
  intros H. apply handleFileEvent_inv in H as [-> (h1 & fx2 & fx3 & Hc & Ht & ->)].
  apply trackSourceWrite_frame in Ht as (Hm & _ & _ & H3).
  apply classifyFirstWrite_inv in Hc as (_ & _ & Hc).
  rewrite !count_app, H3, (proj2 (postEventSignal_quiet _)), Hm.
  rewrite normalizeFileName_Pid in Hc.
  destruct Hc as [[-> ->] | (Hnone & _ & -> & tool & _ & ->)].
  - left. split; reflexivity.
  - right. split; [exact Hnone|]. split; reflexivity.
Qed.

Lemma fileReportsOf_cons pid event fx trace :
  fileReportsOf pid ((event, fx) :: trace)
  = ((if bool_decide (Pid event = pid) then count is_sendFileEvent fx else 0)
     + fileReportsOf pid trace)%nat.
Proof.
  unfold fileReportsOf. rewrite filter_cons. cbn [fst].
  case_bool_decide as Hp.
  - rewrite decide_True by exact Hp. now rewrite effects_cons, count_app.
  - rewrite decide_False by exact Hp. reflexivity.
Qed.

(** A marked pid sends no further file report. *)
Lemma deliver_marked fuel env pid events :
  forall h final trace,
    is_Some (ProcessFileMap h !! pid) ->
    deliver (handleFileEvent fuel env) h events = Some (final, trace) ->
    fileReportsOf pid trace = 0%nat.
Proof.
  induction events as [|e events IH]; intros h final trace Hm Hrun.
  - inversion Hrun; subst. reflexivity.
  - apply deliver_cons_inv in Hrun as (h1 & e1 & fx & t1 & Hs & Hrun & ->).
    rewrite fileReportsOf_cons.
    apply handleFileEvent_report_inv in Hs as [[Hpm Hc] | (Hnone & Hpm & Hc)].
    + assert (Hm1 : is_Some (ProcessFileMap h1 !! pid)) by now rewrite Hpm.
      rewrite Hc, (IH _ _ _ Hm1 Hrun). now case_bool_decide.
    + assert (Hne : Pid e <> pid).
      { intros Heq. rewrite Heq in Hnone. rewrite Hnone in Hm.
        destruct Hm as [b Hb]. discriminate Hb. }
      assert (Hm1 : is_Some (ProcessFileMap h1 !! pid))
        by (rewrite Hpm, lookup_insert_ne by exact Hne; exact Hm).
      rewrite bool_decide_eq_false_2 by exact Hne.
      now rewrite (IH _ _ _ Hm1 Hrun).
Qed.

Lemma deliver_file_reports_le_1 fuel env pid events :
  forall h final trace,
    deliver (handleFileEvent fuel env) h events = Some (final, trace) ->
    (fileReportsOf pid trace <= 1)%nat.
Proof.
  induction events as [|e events IH]; intros h final trace Hrun.
  - inversion Hrun; subst. cbn. lia.
  - apply deliver_cons_inv in Hrun as (h1 & e1 & fx & t1 & Hs & Hrun & ->).
    rewrite fileReportsOf_cons.
    apply handleFileEvent_report_inv in Hs as [[Hpm Hc] | (Hnone & Hpm & Hc)].
    + rewrite Hc. specialize (IH _ _ _ Hrun). now case_bool_decide.
    + case_bool_decide as Hp.
      * assert (Hm1 : is_Some (ProcessFileMap h1 !! pid))
          by (rewrite Hpm, Hp, lookup_insert_eq; eexists; reflexivity).
        rewrite (deliver_marked fuel env pid events _ _ _ Hm1 Hrun). lia.
      * exact (IH _ _ _ Hrun).
Qed.

Lemma normalizeFileName_fields (event : Event) :
  PPid (normalizeFileName event) = PPid event
  /\ Exe (normalizeFileName event) = Exe event
  /\ Timestamp (normalizeFileName event) = Timestamp event.
Proof. unfold normalizeFileName. now destruct (negb _). Qed.

Lemma fileReports_none (fx : list Effect) :
  count is_sendFileEvent fx = 0%nat -> fileReports fx = [].
Proof. unfold count, fileReports. apply nil_length_inv. Qed.

(** C7, as the code has it. For an event of a pid that is not yet marked:
    a normalized path that contains "/node_modules/" and ends in ".js" has
    the type "Dependencies"; a path that contains ".git/objects", and is not
    such a dependency path, has the type "Source Code"; when the tool chain
    of the event resolves, the handler sends one file report of that type
    and marks the pid. Over any sequence of file events, the events of one
    pid cause at most one file report. *)
Theorem first_write_classification fuel env (eventHandler : EventHandler) :
  (forall fileName,
     GoString.Contains fileName "/node_modules/" = true ->
     HasSuffix fileName ".js" = true ->
     fileTypeOf fileName = "Dependencies")
  /\ (forall fileName,
        GoString.Contains fileName ".git/objects" = true ->
        GoString.Contains fileName "/node_modules/" && HasSuffix fileName ".js" = false ->
        fileTypeOf fileName = "Source Code")
  /\ (forall event tool,
        ProcessFileMap eventHandler !! Pid event = None ->
        fileTypeOf (FileName (normalizeFileName event)) <> "" ->
        GetToolChain fuel env eventHandler (PPid event) (Exe event) = Some tool ->
        exists h' fx,
          handleFileEvent fuel env eventHandler event
          = Some (h', normalizeFileName event, fx)
          /\ fileReports fx
             = [sendFileEvent (CorrelationId eventHandler) (Repo eventHandler)
                  (fileTypeOf (FileName (normalizeFileName event)))
                  (Timestamp event) tool]
          /\ ProcessFileMap h' !! Pid event = Some true)
  /\ (forall events pid final trace,
        deliver (handleFileEvent fuel env) eventHandler events = Some (final, trace) ->
        (fileReportsOf pid trace <= 1)%nat)
  /\ (forall events,
        acyclic env eventHandler ->
        (depthBound env eventHandler <= fuel)%nat ->
        exists final trace,
          deliver (handleFileEvent fuel env) eventHandler events = Some (final, trace)).
Proof.
  split; [|split; [|split; [|split]]].
  - intros fileName Hc Hs. unfold fileTypeOf. now rewrite Hc, Hs.
  - intros fileName Hg Hn. unfold fileTypeOf. now rewrite Hn, Hg.
  - intros event tool Hnone Hty Htool.
    destruct (normalizeFileName_fields event) as (Hpp & Hexe & Hts).
    unfold handleFileEvent, classifyFirstWrite.
    rewrite normalizeFileName_Pid, Hnone, Hpp, Hexe, Hts.
    rewrite bool_decide_eq_false_2 by exact Hty. cbn [negb].
    rewrite Htool. cbn.
    destruct (trackSourceWrite _ (normalizeFileName event)) as [h2 fx3] eqn:Ht.
    apply trackSourceWrite_frame in Ht as (Hm & _ & _ & H3).
    exists h2, (postEventSignal (normalizeFileName event)
                ++ [sendFileEvent (CorrelationId eventHandler) (Repo eventHandler)
                      (fileTypeOf (FileName (normalizeFileName event)))
                      (Timestamp event) tool] ++ fx3).
    split; [reflexivity|]. split.
    + unfold fileReports. rewrite !filter_app.
      fold (fileReports (postEventSignal (normalizeFileName event))).
      fold (fileReports fx3).
      rewrite (fileReports_none _ (proj2 (postEventSignal_quiet _))).
      rewrite (fileReports_none _ H3). reflexivity.
    + rewrite Hm. cbn. apply lookup_insert_eq.
  - intros events pid final trace. apply deliver_file_reports_le_1.
  - intros events Hac Hfuel. now apply deliver_file_returns.
Qed.

Lemma first_write_classification_witness :
  fileTypeOf "/repo/node_modules/foo.js" = "Dependencies"
  /\ fileTypeOf "/repo/.git/objects/ab/cdef" = "Source Code"
  /\ (exists h' fx,
        handleFileEvent 1 env0 handler0 (fileEvent "31" ".git/objects/ab/cdef")
        = Some (h', normalizeFileName (fileEvent "31" ".git/objects/ab/cdef"), fx)
        /\ fileReports fx
           = [sendFileEvent "run-1" "org/repo" "Source Code" 7
                (mkTool "tool" "open /usr/bin/tool: no such file or directory" None)]
        /\ ProcessFileMap h' !! "31" = Some true)
  /\ exists final trace,
       deliver (handleFileEvent 1 env0) handler0
         [fileEvent "31" ".git/objects/ab/cdef"; fileEvent "31" "node_modules/foo.js";
          fileEvent "32" "node_modules/foo.js"; fileEvent "31" ".git/objects/1f/aa"]
       = Some (final, trace)
       /\ fileReportsOf "31" trace = 1%nat
       /\ (fileReportsOf "31" trace <= 1)%nat.
Proof.
  destruct (first_write_classification 1 env0 handler0)
    as (Hdep & Hsrc & Hrep & Hmax & Hret).
  split; [apply Hdep; vm_compute; reflexivity|].
  split; [apply Hsrc; vm_compute; reflexivity|].
  split.
  - apply (Hrep (fileEvent "31" ".git/objects/ab/cdef")
             (mkTool "tool" "open /usr/bin/tool: no such file or directory" None)).
    + vm_compute; reflexivity.
    + vm_compute. discriminate.
    + vm_compute; reflexivity.
  - destruct (Hret [fileEvent "31" ".git/objects/ab/cdef";
                    fileEvent "31" "node_modules/foo.js";
                    fileEvent "32" "node_modules/foo.js";
                    fileEvent "31" ".git/objects/1f/aa"]
                handler0_acyclic ltac:(vm_compute; lia)) as (final & trace & Hrun).
    exists final, trace. split; [exact Hrun|]. split.
    + vm_compute in Hrun. inversion Hrun. vm_compute. reflexivity.
    + exact (Hmax _ "31" final trace Hrun).
Defined.

(** C7, as the specification has it, fails: a path may contain ".git/objects" and
    also contain "/node_modules/" and end in ".js"; the first test wins and
    the event is reported as "Dependencies", not as "Source Code". *)
Lemma git_objects_path_classified_Dependencies :
  exists h' event' tool,
    GoString.Contains "/w/node_modules/pkg/.git/objects/hook.js" ".git/objects" = true
    /\ handleFileEvent 1 env0 handler0
         (fileEvent "5" "/w/node_modules/pkg/.git/objects/hook.js")
       = Some (h', event', [sendFileEvent "run-1" "org/repo" "Dependencies" 7 tool])
    /\ fileTypeOf "/w/node_modules/pkg/.git/objects/hook.js" <> "Source Code".
Proof.
  eexists _, _, _. split; [vm_compute; reflexivity|].
  split; [vm_compute; reflexivity|]. vm_compute. discriminate.
Qed.

(** * Further properties of the handlers *)

(** ** Which files are source files *)

Lemma ext_in_elem_of (ext : string) (extensions : list string) :
  ext_in ext extensions = true <-> ext ∈ extensions.
Proof.
  induction extensions as [|x xs IH]; cbn [ext_in].
  - split; [discriminate | intros H; inversion H].
  - case_bool_decide as E.
    + split; [intros _; subst; apply elem_of_cons; now left | reflexivity].
    + rewrite IH. split; [intros H; apply elem_of_cons; now right|].
      intros H. apply elem_of_cons in H as [H|H]; [contradiction | exact H].
Qed.

Lemma str_bytes (s : string) : str (bytes s) = s.
Proof. apply string_of_list_ascii_of_string. Qed.

Lemma bytes_str (l : list ascii) : bytes (str l) = l.
Proof. apply list_ascii_of_string_of_list_ascii. Qed.

(** What [path.Ext] returns is empty, or starts at a dot of the name and
    runs to its end. *)
Lemma ext_scan_shape (rpath acc : list ascii) :
  GoPath.ext_scan rpath acc = []
  \/ exists pre tail,
       GoPath.ext_scan rpath acc = GoPath.dot :: tail
       /\ rev rpath ++ acc = pre ++ GoPath.dot :: tail.
Proof.
  revert acc. induction rpath as [|c r IH]; intros acc; cbn [GoPath.ext_scan].
  - now left.
  - destruct (GoPath.is_slash c); [now left|].
    destruct (GoPath.is_dot c) eqn:Ed.
    + right. apply bool_decide_eq_true in Ed. subst c.
      exists (rev r), acc. split; [reflexivity|].
      cbn [rev]. now rewrite <- app_assoc.
    + destruct (IH (c :: acc)) as [H | (pre & tail & H1 & H2)]; [now left|].
      right. exists pre, tail. split; [exact H1|].
      cbn [rev]. rewrite <- app_assoc. exact H2.
Qed.

Lemma Ext_shape (fileName : string) :
  GoPath.Ext fileName = ""
  \/ exists pre tail,
       GoPath.Ext fileName = str (GoPath.dot :: tail)
       /\ bytes fileName = pre ++ GoPath.dot :: tail.
Proof.
  unfold GoPath.Ext.
  destruct (ext_scan_shape (rev (bytes fileName)) []) as [-> | (pre & tail & -> & H)].
  - now left.
  - right. exists pre, tail. split; [reflexivity|].
    now rewrite rev_involutive, app_nil_r in H.
Qed.

Lemma HasSuffix_app (fileName suffix : string) (pre : list ascii) :
  bytes fileName = pre ++ bytes suffix -> HasSuffix fileName suffix = true.
Proof.
  intros H. unfold HasSuffix, eqb_bytes, len. rewrite H, length_app.
  apply andb_true_intro. split; [apply Nat.leb_le; lia|].
  apply bool_decide_eq_true.
  replace (length pre + length (bytes suffix) - length (bytes suffix))%nat
    with (length pre) by lia.
  now rewrite drop_app_length.
Qed.

Lemma dotted_plain (ext : string) :
  ext ∈ dottedExtensions ->
  exists tail,
    bytes ext = GoPath.dot :: tail
    /\ Forall (fun c => GoPath.is_slash c = false /\ GoPath.is_dot c = false) tail.
Proof.
  unfold dottedExtensions. intros H.
  repeat (apply elem_of_cons in H as [-> | H];
          [eexists; split; [reflexivity | repeat constructor] |]).
  inversion H.
Qed.

(** X1. A file is a source file exactly when its name ends in one of the
    eleven extensions that are listed with their dot. *)
Theorem isSourceCodeFile_iff_dotted_suffix (fileName : string) :
  isSourceCodeFile fileName = true
  <-> exists ext, ext ∈ dottedExtensions /\ HasSuffix fileName ext = true.
Proof.
  unfold isSourceCodeFile. rewrite ext_in_elem_of. split.
  - intros Hin. destruct (Ext_shape fileName) as [E | (pre & tail & E & Hb)].
    + rewrite E in Hin. exfalso. revert Hin. unfold sourceCodeExtensions.
      intros Hin. repeat (apply elem_of_cons in Hin as [Hin | Hin]; [discriminate|]).
      inversion Hin.
    + exists (GoPath.Ext fileName). split.
      * revert Hin. rewrite E. unfold sourceCodeExtensions, dottedExtensions.
        intros Hin.
        repeat (apply elem_of_cons in Hin as [Hin | Hin];
                [first [discriminate Hin
                       | rewrite Hin; repeat first [apply list_elem_of_here
                                                   | apply list_elem_of_further]] |]).
        inversion Hin.
      * apply (HasSuffix_app _ _ pre). now rewrite E, bytes_str.
  - intros (ext & Hext & Hsuf).
    destruct (dotted_plain ext Hext) as (tail & Hb & Hplain).
    apply HasSuffix_split in Hsuf. rewrite Hb in Hsuf.
    rewrite (Ext_of_suffix fileName tail Hplain Hsuf).
    rewrite <- Hb, str_bytes.
    revert Hext. unfold dottedExtensions, sourceCodeExtensions. intros Hext.
    repeat (apply elem_of_cons in Hext as [-> | Hext];
            [repeat first [apply list_elem_of_here | apply list_elem_of_further] |]).
    inversion Hext.
Qed.

(** ** Writes that tamper tracking skips *)

(** X2. A file event whose syscall is "chmod", "unlink" or "unlinkat" never
    enters tamper tracking, whatever the file: the handler leaves
    [SourceCodeMap] as it is and writes no annotation. *)
Theorem excluded_syscall_not_tracked fuel env h event h' event' fx :
  isSyscallExcluded (Syscall event) = true ->
  handleFileEvent fuel env h event = Some (h', event', fx) ->
  SourceCodeMap h' = SourceCodeMap h /\ count is_WriteAnnotation fx = 0%nat.
Proof.
  intros Hx Hrun.
  apply handleFileEvent_inv in Hrun as [He (h1 & fx2 & fx3 & Hc & Ht & ->)].
  apply classifyFirstWrite_inv in Hc as (Hmap & Hq & _).
  unfold trackSourceWrite in Ht.
  rewrite He, normalizeFileName_Syscall, Hx, andb_false_r in Ht.
  inversion Ht; subst h' fx3. split; [exact Hmap|].
  rewrite !count_app, Hq, (proj1 (postEventSignal_quiet _)). reflexivity.
Qed.

(** ** What each handler leaves alone *)

Lemma handleNetworkEvent_frame fuel env h event h' event' fx :
  handleNetworkEvent fuel env h event = Some (h', event', fx) ->
  ProcessFileMap h' = ProcessFileMap h /\ ProcessMap h' = ProcessMap h
  /\ SourceCodeMap h' = SourceCodeMap h
  /\ CorrelationId h' = CorrelationId h /\ Repo h' = Repo h
  /\ ProcessConnectionMap h ⊆ ProcessConnectionMap h'
  /\ count is_sendFileEvent fx = 0%nat /\ count is_WriteAnnotation fx = 0%nat
  /\ count is_writeDone fx = 0%nat.
Proof.
  intros H. pose proof H as H0.
  apply handleNetworkEvent_inv in H as [_ [[-> ->] | (Hnew & -> & _)]].
  - repeat split; reflexivity.
  - cbn. repeat split; try reflexivity.
    + now apply insert_subseteq.
    + unfold handleNetworkEvent in H0.
      destruct (isPrivateIPAddress _); [|discriminate]. cbn in H0.
      destruct (negb _ && _ && _ && _); [|now inversion H0].
      rewrite Hnew in H0. destruct (connectionTool _ _ _ _); [|discriminate].
      now inversion H0.
    + unfold handleNetworkEvent in H0.
      destruct (isPrivateIPAddress _); [|discriminate]. cbn in H0.
      destruct (negb _ && _ && _ && _); [|now inversion H0].
      rewrite Hnew in H0. destruct (connectionTool _ _ _ _); [|discriminate].
      now inversion H0.
    + unfold handleNetworkEvent in H0.
      destruct (isPrivateIPAddress _); [|discriminate]. cbn in H0.
      destruct (negb _ && _ && _ && _); [|now inversion H0].
      rewrite Hnew in H0. destruct (connectionTool _ _ _ _); [|discriminate].
      now inversion H0.
Qed.

Lemma trackSourceWrite_history h event h' fx :
  trackSourceWrite h event = (h', fx) ->
  ProcessConnectionMap h' = ProcessConnectionMap h /\ ProcessMap h' = ProcessMap h
  /\ count is_sendNetConnection fx = 0%nat /\ count is_writeDone fx = 0%nat
  /\ (forall file, file <> FileName event ->
        SourceCodeMap h' !! file = SourceCodeMap h !! file)
  /\ (SourceCodeMap h' !! FileName event = SourceCodeMap h !! FileName event
      \/ SourceCodeMap h' !! FileName event
         = Some (default [] (SourceCodeMap h !! FileName event) ++ [event])).
Proof.
  unfold trackSourceWrite. intros H.
  destruct (isSourceCodeFile _ && _).
  - destruct (SourceCodeMap h !! FileName event) as [writes|] eqn:E.
    + destruct (isFromDifferentProcess writes event); inversion H; subst; cbn;
        repeat split; try reflexivity.
      * intros file Hne. now rewrite lookup_insert_ne.
      * right. now rewrite lookup_insert_eq.
      * left. exact E.
    + inversion H; subst; cbn. repeat split; try reflexivity.
      * intros file Hne. now rewrite lookup_insert_ne.
      * right. now rewrite lookup_insert_eq.
  - inversion H; subst. repeat split; try reflexivity. now left.
Qed.

Lemma postEventSignal_no_reports (event : Event) :
  count is_sendNetConnection (postEventSignal event) = 0%nat.
Proof. unfold postEventSignal. now destruct (GoString.Contains _ _). Qed.

Lemma handleFileEvent_frame fuel env h event h' event' fx :
  handleFileEvent fuel env h event = Some (h', event', fx) ->
  ProcessConnectionMap h' = ProcessConnectionMap h /\ ProcessMap h' = ProcessMap h
  /\ CorrelationId h' = CorrelationId h /\ Repo h' = Repo h
  /\ ProcessFileMap h ⊆ ProcessFileMap h'
  /\ count is_sendNetConnection fx = 0%nat
  /\ forall file writes,
       SourceCodeMap h !! file = Some writes ->
       exists more, SourceCodeMap h' !! file = Some (writes ++ more).
Proof.
  intros H. pose proof (handleFileEvent_report_inv _ _ _ _ _ _ _ H) as Hrep.
  apply handleFileEvent_inv in H as [-> (h1 & fx2 & fx3 & Hc & Ht & ->)].
  pose proof (trackSourceWrite_frame _ _ _ _ Ht) as (_ & Hcorr & Hrepo & _).
  pose proof (trackSourceWrite_history _ _ _ _ Ht) as (Hpcm & Hpm & Hn3 & _ & Hoth & Hkey).
  apply classifyFirstWrite_inv in Hc as (Hscm & _ & Hc).
  assert (Hh1 : ProcessConnectionMap h1 = ProcessConnectionMap h
                /\ ProcessMap h1 = ProcessMap h
                /\ CorrelationId h1 = CorrelationId h /\ Repo h1 = Repo h
                /\ count is_sendNetConnection fx2 = 0%nat).
  { destruct Hc as [[-> ->] | (_ & _ & -> & tool & _ & ->)]; repeat split; reflexivity. }
  destruct Hh1 as (P1 & P2 & P3 & P4 & P5).
  split; [congruence|]. split; [congruence|]. split; [congruence|].
  split; [congruence|]. split.
  { destruct Hrep as [[-> _] | (Hnone & -> & _)]; [reflexivity|].
    now apply insert_subseteq. }
  split.
  { now rewrite !count_app, postEventSignal_no_reports, P5, Hn3. }
  intros file writes Hw. rewrite <- Hscm in Hw.
  destruct (decide (file = FileName (normalizeFileName event))) as [->|Hne].
  - destruct Hkey as [Hk | Hk].
    + exists []. now rewrite Hk, Hw, app_nil_r.
    + exists [normalizeFileName event]. now rewrite Hk, Hw.
  - exists []. now rewrite Hoth, Hw, app_nil_r.
Qed.

Lemma handleProcessEvent_frame h event :
  let h' := stateOf (handleProcessEvent h event) in
  ProcessConnectionMap h' = ProcessConnectionMap h
  /\ ProcessFileMap h' = ProcessFileMap h /\ SourceCodeMap h' = SourceCodeMap h
  /\ CorrelationId h' = CorrelationId h /\ Repo h' = Repo h
  /\ ProcessMap h ⊆ ProcessMap h'
  /\ snd (handleProcessEvent h event) = [].
Proof.
  unfold handleProcessEvent.
  destruct (ProcessMap h !! Pid event) eqn:E; cbn; repeat split; try reflexivity.
  now apply insert_subseteq.
Qed.

(** X3. Whatever event the dispatcher is given, nothing is taken back:
    every entry of the connection map, of the file map and of the process
    table stays as it is, every recorded history of a source file stays a
    prefix of the new one, and [CorrelationId] and [Repo] do not change. *)
Theorem HandleEvent_only_adds fuel env h event h' event' fx :
  HandleEvent fuel env h event = Some (h', event', fx) ->
  CorrelationId h' = CorrelationId h /\ Repo h' = Repo h
  /\ ProcessConnectionMap h ⊆ ProcessConnectionMap h'
  /\ ProcessFileMap h ⊆ ProcessFileMap h'
  /\ ProcessMap h ⊆ ProcessMap h'
  /\ forall file writes,
       SourceCodeMap h !! file = Some writes ->
       exists more, SourceCodeMap h' !! file = Some (writes ++ more).
Proof.
  unfold HandleEvent. intros H.
  assert (Hsame : forall m : gmap string (list Event),
             forall file writes, m !! file = Some writes ->
                                 exists more, m !! file = Some (writes ++ more)).
  { intros m file writes Hw. exists []. now rewrite app_nil_r. }
  case_bool_decide.
  { apply handleNetworkEvent_frame in H as (-> & -> & -> & -> & -> & Hsub & _).
    repeat split; try reflexivity; [exact Hsub | apply Hsame]. }
  case_bool_decide.
  { apply handleFileEvent_frame in H as (-> & -> & -> & -> & Hsub & _ & Hhist).
    repeat split; try reflexivity; [exact Hsub | exact Hhist]. }
  case_bool_decide.
  { inversion H as [Hout].
    pose proof (handleProcessEvent_frame h event) as Hf. cbn zeta in Hf.
    rewrite Hout in Hf. cbn in Hf. destruct Hf as (-> & -> & -> & -> & -> & Hsub & _).
    repeat split; try reflexivity; [exact Hsub | apply Hsame]. }
  inversion H; subst. repeat split; try reflexivity. apply Hsame.
Qed.

(** X4. Each handler writes its own part of the state only. A network
    event changes nothing but the connection map and sends nothing but
    connection reports; a file event leaves the connection map and the
    process table alone and sends no connection report; a process event
    changes nothing but the process table and has no effect outside; an
    event of an unknown type changes nothing and has no effect. *)
Theorem handlers_keep_to_their_domain fuel env (h : EventHandler) (event : Event) :
  (forall h' event' fx,
     handleNetworkEvent fuel env h event = Some (h', event', fx) ->
     ProcessFileMap h' = ProcessFileMap h /\ ProcessMap h' = ProcessMap h
     /\ SourceCodeMap h' = SourceCodeMap h
     /\ count is_sendFileEvent fx = 0%nat /\ count is_WriteAnnotation fx = 0%nat
     /\ count is_writeDone fx = 0%nat)
  /\ (forall h' event' fx,
        handleFileEvent fuel env h event = Some (h', event', fx) ->
        ProcessConnectionMap h' = ProcessConnectionMap h
        /\ ProcessMap h' = ProcessMap h
        /\ count is_sendNetConnection fx = 0%nat)
  /\ (ProcessConnectionMap (stateOf (handleProcessEvent h event)) = ProcessConnectionMap h
      /\ ProcessFileMap (stateOf (handleProcessEvent h event)) = ProcessFileMap h
      /\ SourceCodeMap (stateOf (handleProcessEvent h event)) = SourceCodeMap h
      /\ snd (handleProcessEvent h event) = [])
  /\ (EventType event <> netMonitorTag env ->
      EventType event <> fileMonitorTag env ->
      EventType event <> processMonitorTag env ->
      HandleEvent fuel env h event = Some (h, event, [])).
Proof.
  split; [|split; [|split]].
  - intros h' event' fx H.
    apply handleNetworkEvent_frame in H as (H1 & H2 & H3 & _ & _ & _ & H4 & H5 & H6).
    now repeat split.
  - intros h' event' fx H.
    apply handleFileEvent_frame in H as (H1 & H2 & _ & _ & _ & H3 & _).
    now repeat split.
  - pose proof (handleProcessEvent_frame h event) as Hf. cbn zeta in Hf.
    destruct Hf as (H1 & H2 & H3 & _ & _ & _ & H4). now repeat split.
  - intros Hn Hf Hp. unfold HandleEvent.
    now rewrite !bool_decide_eq_false_2 by assumption.
Qed.

(** ** Which connections are reported *)

Lemma count_single (p : Effect -> bool) (f : Effect) :
  count p [f] = if p f then 1%nat else 0%nat.
Proof.
  unfold count. rewrite filter_cons.
  destruct (decide (p f = true)) as [E|E].
  - now rewrite E.
  - now destruct (p f).
Qed.

(** X5. A network event is reported exactly when its address is not
    classified private, is none of "::1", the Azure address and the
    metadata address, its key is not yet in the connection map, and the
    attribution of lines 137-146 returns; then there is one report. In
    every other case of the tests the handler changes nothing and does
    nothing, whatever the ancestry. When the tests pass, the handler
    returns exactly when the attribution does, with the key recorded and
    one report that carries the attributed tool; and the attribution
    returns when the ancestry has no cycle, the depth allowed is at least
    [depthBound] and the container lookup answers. *)
Theorem connection_reported_iff fuel env h event :
  (forall h' event' fx,
     handleNetworkEvent fuel env h event = Some (h', event', fx) ->
     (count is_sendNetConnection fx <= 1)%nat
     /\ (count is_sendNetConnection fx = 1%nat <-> reportable env h event))
  /\ (~ reportable env h event ->
      handleNetworkEvent fuel env h event = Some (h, event, []))
  /\ (reportable env h event ->
      handleNetworkEvent fuel env h event
      = tool ← connectionTool fuel env h event;
        Some (set_ProcessConnectionMap
                (<[cacheKey event := true]> (ProcessConnectionMap h)) h,
              event,
              [sendNetConnection (CorrelationId h) (Repo h) (IPAddress event)
                 (Port event) (GetReverseIPLookup env (IPAddress event)) ""
                 (Timestamp event) tool]))
  /\ (reportable env h event ->
      acyclic env h -> (depthBound env h <= fuel)%nat ->
      runtimeAnswers env (Pid event) ->
      exists h' fx,
        handleNetworkEvent fuel env h event = Some (h', event, fx)
        /\ count is_sendNetConnection fx = 1%nat).
Proof.
  pose proof (handleNetworkEvent_reportable fuel env h event) as Hpass.
  pose proof (handleNetworkEvent_not_reportable fuel env h event) as Hskip.
  split; [|split; [exact Hskip | split; [exact Hpass|]]].
  - intros h' event' fx Hrun.
    destruct (reportable_dec env h event) as [Hr | Hr].
    + rewrite (Hpass Hr) in Hrun.
      destruct (connectionTool fuel env h event); [|discriminate].
      cbn in Hrun. inversion Hrun; subst. rewrite count_single. cbn.
      split; [lia|]. split; [intros _; exact Hr | reflexivity].
    + rewrite (Hskip Hr) in Hrun. inversion Hrun; subst.
      split; [cbn; lia|]. split; [discriminate | intros Hr'; contradiction].
  - intros Hr Hacyc Hfuel Hans. rewrite (Hpass Hr).
    destruct (connectionTool_returns fuel env h event Hacyc Hfuel Hans) as [tool ->].
    cbn. eexists _, _. split; [reflexivity|]. now rewrite count_single.
Qed.

(** ** Attribution to a container *)

Lemma container_of_spec env pid content containers :
  (Forall (passedContainer env pid content) containers
   /\ container_of env pid content containers = Some "")
  \/ (exists before c after,
        containers = before ++ c :: after
        /\ Forall (passedContainer env pid content) before
        /\ matchesContainer env pid content c
        /\ container_of env pid content containers = Some (Container_Image c))
  \/ (exists before c after,
        containers = before ++ c :: after
        /\ Forall (passedContainer env pid content) before
        /\ ContainerInspect env (Container_ID c) = None
        /\ container_of env pid content containers = None).
Proof.
  induction containers as [|c rest IH]; [left; split; [constructor | reflexivity]|].
  cbn [container_of].
  destruct (ContainerInspect env (Container_ID c)) as [statePid|] eqn:Ei.
  2:{ right; right. exists [], c, rest.
      split; [reflexivity|]. split; [constructor|]. now split. }
  case_bool_decide as Ep.
  { right; left. exists [], c, rest.
    split; [reflexivity|]. split; [constructor|].
    split; [|reflexivity]. exists statePid. split; [exact Ei | now left]. }
  destruct (GoString.Contains content (Container_ID c)) eqn:Ec.
  { right; left. exists [], c, rest.
    split; [reflexivity|]. split; [constructor|].
    split; [|reflexivity]. exists statePid. split; [exact Ei | now right]. }
  assert (Hpassed : passedContainer env pid content c).
  { exists statePid. split; [exact Ei|]. now split. }
  destruct IH as [[Hall Hr] | [(before & c' & after & -> & Hb & Hm & Hr)
                              | (before & c' & after & -> & Hb & Hm & Hr)]].
  - left. split; [now constructor | exact Hr].
  - right; left. exists (c :: before), c', after.
    split; [reflexivity|]. split; [now constructor|]. now split.
  - right; right. exists (c :: before), c', after.
    split; [reflexivity|]. split; [now constructor|]. now split.
Qed.

(** X6. [GetContainerByPid] does not return when the container client
    cannot be made (line 178 dereferences it). With a client it walks the
    listed containers in order: it answers with the image of the first one
    whose inspection gives this pid or whose id occurs in the cgroup file of
    the pid, provided every container before it was inspected and passed;
    it answers with the empty string when every listed container was
    inspected and passed; and it does not return when the first container
    that is not passed is one whose inspection fails (line 185 dereferences
    the state). *)
Theorem GetContainerByPid_first_match env pid :
  let content := ReadFile env ("/proc/" +:+ pid +:+ "/cgroup") in
  (NewClientWithOpts env = false -> GetContainerByPid env pid = None)
  /\ (NewClientWithOpts env = true ->
      (Forall (passedContainer env pid content) (ContainerList env)
       /\ GetContainerByPid env pid = Some "")
      \/ (exists before c after,
            ContainerList env = before ++ c :: after
            /\ Forall (passedContainer env pid content) before
            /\ matchesContainer env pid content c
            /\ GetContainerByPid env pid = Some (Container_Image c))
      \/ (exists before c after,
            ContainerList env = before ++ c :: after
            /\ Forall (passedContainer env pid content) before
            /\ ContainerInspect env (Container_ID c) = None
            /\ GetContainerByPid env pid = None)).
Proof.
  cbn zeta. unfold GetContainerByPid. split; intros ->; cbn [negb]; [reflexivity|].
  apply container_of_spec.
Qed.

(** X7. The connection of a pid that belongs to a container, or of an
    event without executable, is attributed without looking at the
    ancestry: once the container lookup has answered, the handler returns
    whatever the depth allowed and whatever the process table holds, and the
    tool of the report is the image (as name and as checksum, without
    parent), or the empty tool. When the container lookup does not return,
    the handler of a reportable connection does not return either, whatever
    the depth allowed. *)
Theorem connection_without_resolver env h event :
  (forall image,
     GetContainerByPid env (Pid event) = Some image ->
     image <> "" \/ Exe event = "" ->
     let tool := if bool_decide (image = "") then Tool_zero else mkTool image image None in
     forall fuel,
       (~ reportable env h event
        /\ handleNetworkEvent fuel env h event = Some (h, event, []))
       \/ (reportable env h event
           /\ handleNetworkEvent fuel env h event
              = Some (set_ProcessConnectionMap
                        (<[cacheKey event := true]> (ProcessConnectionMap h)) h,
                      event,
                      [sendNetConnection (CorrelationId h) (Repo h) (IPAddress event)
                         (Port event) (GetReverseIPLookup env (IPAddress event)) ""
                         (Timestamp event) tool])))
  /\ (GetContainerByPid env (Pid event) = None ->
      reportable env h event ->
      forall fuel, handleNetworkEvent fuel env h event = None).
Proof.
  split.
  - intros image Himage Hc tool fuel.
    destruct (reportable_dec env h event) as [Hr | Hr].
    + right. split; [exact Hr|].
      rewrite (handleNetworkEvent_reportable fuel env h event Hr).
      unfold connectionTool. rewrite Himage. cbn. subst tool.
      case_bool_decide as Ei.
      * destruct Hc as [Hc | Hc]; [contradiction|].
        rewrite Hc. rewrite bool_decide_eq_true_2 by reflexivity. reflexivity.
      * reflexivity.
    + left. split; [exact Hr|].
      now apply handleNetworkEvent_not_reportable.
  - intros Hnone Hr fuel.
    rewrite (handleNetworkEvent_reportable fuel env h event Hr).
    unfold connectionTool. now rewrite Hnone.
Qed.

(** ** Once per key, over any interleaving *)

Section AtMostOnce.

(** A handler that marks a key of a map of its state when, and only when,
    it performs an effect [p], and performs it for unmarked keys only. *)
Variable handler : EventHandler -> Event -> option Outcome.
Variable marks : EventHandler -> gmap string bool.
Variable key : Event -> string.
Variable p : Effect -> bool.

Hypothesis handler_marks :
  forall h event h' event' fx,
    handler h event = Some (h', event', fx) ->
    (marks h' = marks h /\ count p fx = 0%nat)
    \/ (marks h !! key event = None
        /\ marks h' = <[key event := true]> (marks h)
        /\ count p fx = 1%nat).

Lemma effectsOf_cons k event fx trace :
  effectsOfKey key p k ((event, fx) :: trace)
  = ((if bool_decide (key event = k) then count p fx else 0) + effectsOfKey key p k trace)%nat.
Proof.
  unfold effectsOfKey. rewrite filter_cons. cbn [fst].
  case_bool_decide as Hk.
  - rewrite decide_True by exact Hk. now rewrite effects_cons, count_app.
  - rewrite decide_False by exact Hk. reflexivity.
Qed.

Lemma deliver_marked_key k events :
  forall h final trace,
    is_Some (marks h !! k) ->
    deliver handler h events = Some (final, trace) ->
    effectsOfKey key p k trace = 0%nat.
Proof.
  induction events as [|e events IH]; intros h final trace Hm Hrun.
  - inversion Hrun; subst. reflexivity.
  - apply deliver_cons_inv in Hrun as (h1 & e1 & fx & t1 & Hs & Hrun & ->).
    rewrite effectsOf_cons.
    apply handler_marks in Hs as [[Hpm Hc] | (Hnone & Hpm & Hc)].
    + assert (Hm1 : is_Some (marks h1 !! k)) by now rewrite Hpm.
      rewrite Hc, (IH _ _ _ Hm1 Hrun). now case_bool_decide.
    + assert (Hne : key e <> k).
      { intros Heq. rewrite Heq in Hnone. rewrite Hnone in Hm.
        destruct Hm as [b Hb]. discriminate Hb. }
      assert (Hm1 : is_Some (marks h1 !! k))
        by (rewrite Hpm, lookup_insert_ne by exact Hne; exact Hm).
      rewrite bool_decide_eq_false_2 by exact Hne.
      now rewrite (IH _ _ _ Hm1 Hrun).
Qed.

Lemma deliver_once_per_key k events :
  forall h final trace,
    deliver handler h events = Some (final, trace) ->
    (effectsOfKey key p k trace <= 1)%nat.
Proof.
  induction events as [|e events IH]; intros h final trace Hrun.
  - inversion Hrun; subst. cbn. lia.
  - apply deliver_cons_inv in Hrun as (h1 & e1 & fx & t1 & Hs & Hrun & ->).
    rewrite effectsOf_cons.
    apply handler_marks in Hs as [[Hpm Hc] | (Hnone & Hpm & Hc)].
    + rewrite Hc. specialize (IH _ _ _ Hrun). now case_bool_decide.
    + case_bool_decide as Hp.
      * assert (Hm1 : is_Some (marks h1 !! k))
          by (rewrite Hpm, Hp, lookup_insert_eq; eexists; reflexivity).
        rewrite (deliver_marked_key k events _ _ _ Hm1 Hrun). lia.
      * exact (IH _ _ _ Hrun).
Qed.

End AtMostOnce.

Lemma HandleEvent_marks_connection fuel env h event h' event' fx :
  HandleEvent fuel env h event = Some (h', event', fx) ->
  (ProcessConnectionMap h' = ProcessConnectionMap h
   /\ count is_sendNetConnection fx = 0%nat)
  \/ (ProcessConnectionMap h !! cacheKey event = None
      /\ ProcessConnectionMap h' = <[cacheKey event := true]> (ProcessConnectionMap h)
      /\ count is_sendNetConnection fx = 1%nat).
Proof.
  unfold HandleEvent. intros H.
  case_bool_decide.
  { apply handleNetworkEvent_inv in H as [_ [[-> ->] | (Hnew & -> & Hone)]].
    - left. now split.
    - right. now repeat split. }
  case_bool_decide.
  { apply handleFileEvent_frame in H as (-> & _ & _ & _ & _ & Hn & _). left. now split. }
  case_bool_decide.
  { inversion H as [Hout].
    pose proof (handleProcessEvent_frame h event) as Hf. cbn zeta in Hf.
    rewrite Hout in Hf. cbn in Hf. destruct Hf as (-> & _ & _ & _ & _ & _ & ->).
    left. now split. }
  inversion H; subst. left. now split.
Qed.

Lemma HandleEvent_marks_pid fuel env h event h' event' fx :
  HandleEvent fuel env h event = Some (h', event', fx) ->
  (ProcessFileMap h' = ProcessFileMap h /\ count is_sendFileEvent fx = 0%nat)
  \/ (ProcessFileMap h !! Pid event = None
      /\ ProcessFileMap h' = <[Pid event := true]> (ProcessFileMap h)
      /\ count is_sendFileEvent fx = 1%nat).
Proof.
  unfold HandleEvent. intros H.
  case_bool_decide.
  { apply handleNetworkEvent_frame in H as (-> & _ & _ & _ & _ & _ & Hn & _).
    left. now split. }
  case_bool_decide; [now apply handleFileEvent_report_inv in H|].
  case_bool_decide.
  { inversion H as [Hout].
    pose proof (handleProcessEvent_frame h event) as Hf. cbn zeta in Hf.
    rewrite Hout in Hf. cbn in Hf. destruct Hf as (_ & -> & _ & _ & _ & _ & ->).
    left. now split. }
  inversion H; subst. left. now split.
Qed.

(** X8. Over any sequence of events of any types, in any order, given to
    the dispatcher from any state: the events of one connection key cause
    at most one connection report, and the events of one pid cause at most
    one file report. *)
Theorem dispatcher_reports_once fuel env h (events : list Event) final trace :
  deliver (HandleEvent fuel env) h events = Some (final, trace) ->
  (forall key, (netReportsOf key trace <= 1)%nat)
  /\ (forall pid, (fileReportsOf pid trace <= 1)%nat).
Proof.
  intros Hrun. split.
  - intros key.
    exact (deliver_once_per_key (HandleEvent fuel env) ProcessConnectionMap cacheKey
             is_sendNetConnection (HandleEvent_marks_connection fuel env)
             key events h final trace Hrun).
  - intros pid.
    exact (deliver_once_per_key (HandleEvent fuel env) ProcessFileMap Pid
             is_sendFileEvent (HandleEvent_marks_pid fuel env)
             pid events h final trace Hrun).
Qed.

(** ** The first process event of a pid wins *)

Lemma deliverProcess_cons h event events :
  deliverProcess h (event :: events)
  = deliverProcess (stateOf (handleProcessEvent h event)) events.
Proof. reflexivity. Qed.

(** X9. After any sequence of process events the table holds, for every
    pid, the entry it held before, and else the entry made of the first
    event of that pid in the sequence; later events of the pid, with
    another parent or executable, change nothing. *)
Theorem process_table_first_wins (events : list Event) :
  forall h pid,
    ProcessMap (deliverProcess h events) !! pid
    = match ProcessMap h !! pid with
      | Some p => Some p
      | None => processOf <$> firstOf pid events
      end.
Proof.
  induction events as [|e events IH]; intros h pid.
  - cbn. now destruct (ProcessMap h !! pid).
  - rewrite deliverProcess_cons, IH. cbn [firstOf].
    unfold handleProcessEvent.
    destruct (ProcessMap h !! Pid e) eqn:Ee; cbn.
    + case_bool_decide as Hp; [|reflexivity]. subst pid. now rewrite Ee.
    + case_bool_decide as Hp.
      * subst pid. now rewrite lookup_insert_eq, Ee.
      * now rewrite lookup_insert_ne.
Qed.

(** ** Writers of a source file *)

Lemma isFromDifferentProcess_same pid (writes : list Event) (event : Event) :
  Forall (fun w => Pid w = pid) writes -> Pid event = pid ->
  isFromDifferentProcess writes event = false.
Proof.
  intros Hall Hp. apply not_true_is_false. intros H.
  apply isFromDifferentProcess_spec in H as (w & Hw & Hne).
  rewrite Forall_forall in Hall. specialize (Hall w Hw). congruence.
Qed.

Lemma handleFileEvent_sole_writer fuel env pid h event h' event' fx :
  writersAre pid h -> Pid event = pid ->
  handleFileEvent fuel env h event = Some (h', event', fx) ->
  writersAre pid h' /\ count is_WriteAnnotation fx = 0%nat.
Proof.
  intros Hw Hp Hrun.
  apply handleFileEvent_inv in Hrun as [-> (h1 & fx2 & fx3 & Hc & Ht & ->)].
  apply classifyFirstWrite_inv in Hc as (Hmap & Hq & _).
  assert (Hp' : Pid (normalizeFileName event) = pid)
    by now rewrite normalizeFileName_Pid.
  rewrite !count_app, Hq, (proj1 (postEventSignal_quiet _)).
  unfold trackSourceWrite in Ht. rewrite Hmap in Ht.
  destruct (isSourceCodeFile _ && _).
  - destruct (SourceCodeMap h !! FileName (normalizeFileName event))
      as [writes|] eqn:E.
    + rewrite (isFromDifferentProcess_same pid) in Ht by eauto.
      inversion Ht; subst. split; [|reflexivity].
      intros file ws. rewrite Hmap. apply Hw.
    + inversion Ht; subst. split; [|reflexivity].
      intros file ws. cbn.
      destruct (decide (file = FileName (normalizeFileName event))) as [->|Hne].
      * rewrite lookup_insert_eq. intros Heq; inversion Heq; subst.
        now repeat constructor.
      * rewrite lookup_insert_ne by congruence. apply Hw.
  - inversion Ht; subst. split; [|reflexivity].
    intros file ws. rewrite Hmap. apply Hw.
Qed.

(** X10. A process that is the only writer is never flagged: when every
    recorded write is by one pid, any sequence of file events of that pid,
    to whatever files and however often, writes no annotation, and every
    recorded write is still by that pid. *)
Theorem sole_writer_never_annotated fuel env pid (events : list Event) :
  forall h final trace,
    writersAre pid h ->
    Forall (fun e => Pid e = pid) events ->
    deliver (handleFileEvent fuel env) h events = Some (final, trace) ->
    count is_WriteAnnotation (effects trace) = 0%nat /\ writersAre pid final.
Proof.
  induction events as [|e events IH]; intros h final trace Hw Hall Hrun.
  - inversion Hrun; subst. now split.
  - apply deliver_cons_inv in Hrun as (h1 & e1 & fx & t1 & Hs & Hrun & ->).
    apply Forall_cons in Hall as [He Hall].
    destruct (handleFileEvent_sole_writer _ _ _ _ _ _ _ _ Hw He Hs) as [Hw1 Hc].
    destruct (IH _ _ _ Hw1 Hall Hrun) as [Hc' Hwf].
    split; [|exact Hwf]. now rewrite effects_cons, count_app, Hc, Hc'.
Qed.

(** When [handleFileEvent] returns: the resolver is called for an event of
    an unmarked pid whose normalized name has a type, and for no other. *)
Lemma callsResolver_dec h event : callsResolver h event \/ ~ callsResolver h event.
Proof.
  unfold callsResolver.
  destruct (decide (ProcessFileMap h !! Pid event = None
                    /\ fileTypeOf (FileName (normalizeFileName event)) <> ""));
    [now left | now right].
Qed.

Lemma handleFileEvent_without_resolver fuel env h event :
  ~ callsResolver h event ->
  handleFileEvent fuel env h event
  = Some (fst (trackSourceWrite h (normalizeFileName event)),
          normalizeFileName event,
          postEventSignal (normalizeFileName event)
            ++ snd (trackSourceWrite h (normalizeFileName event))).
Proof.
  intros Hn. unfold handleFileEvent, classifyFirstWrite.
  rewrite normalizeFileName_Pid.
  destruct (ProcessFileMap h !! Pid event) eqn:E.
  - cbn. now destruct (trackSourceWrite h (normalizeFileName event)).
  - case_bool_decide as Hty; cbn [negb].
    + cbn. now destruct (trackSourceWrite h (normalizeFileName event)).
    + exfalso. apply Hn. now split.
Qed.

Lemma handleFileEvent_with_resolver fuel env h event :
  callsResolver h event ->
  handleFileEvent fuel env h event
  = tool ← GetToolChain fuel env h (PPid event) (Exe event);
    let marked := set_ProcessFileMap (<[Pid event := true]> (ProcessFileMap h)) h in
    Some (fst (trackSourceWrite marked (normalizeFileName event)),
          normalizeFileName event,
          postEventSignal (normalizeFileName event)
            ++ [sendFileEvent (CorrelationId h) (Repo h)
                  (fileTypeOf (FileName (normalizeFileName event)))
                  (Timestamp event) tool]
            ++ snd (trackSourceWrite marked (normalizeFileName event))).
Proof.
  intros [Hp Hty]. unfold handleFileEvent, classifyFirstWrite.
  destruct (normalizeFileName_fields event) as (-> & -> & ->).
  rewrite normalizeFileName_Pid, Hp.
  rewrite bool_decide_eq_false_2 by exact Hty. cbn [negb].
  destruct (GetToolChain fuel env h (PPid event) (Exe event)) as [tool|]; [|reflexivity].
  cbn. now destruct (trackSourceWrite _ (normalizeFileName event)).
Qed.

Lemma handleFileEvent_returns_iff fuel env h event :
  is_Some (handleFileEvent fuel env h event)
  <-> (callsResolver h event ->
       is_Some (GetToolChain fuel env h (PPid event) (Exe event))).
Proof.
  destruct (callsResolver_dec h event) as [Hr | Hr].
  - rewrite (handleFileEvent_with_resolver fuel env h event Hr).
    destruct (GetToolChain fuel env h (PPid event) (Exe event)) as [tool|]; cbn.
    + split; intros _; [intros _|]; eexists; reflexivity.
    + split; [intros [x Hx]; discriminate Hx|].
      intros H. destruct (H Hr) as [x Hx]. discriminate Hx.
  - rewrite (handleFileEvent_without_resolver fuel env h event Hr).
    split; [intros _ Hr' | intros _; eexists; reflexivity]. contradiction.
Qed.

Lemma handleFileEvent_is_Some fuel env h event :
  acyclic env h -> (depthBound env h <= fuel)%nat ->
  is_Some (handleFileEvent fuel env h event).
Proof.
  intros Hac Hfuel.
  destruct (handleFileEvent_returns fuel env h event Hac Hfuel) as (h' & fx & -> & _).
  eexists; reflexivity.
Qed.

(** X11. Once the recorded writes of a source file are by two different
    pids, every further write to it (of a syscall that is not excluded)
    that the handler finishes is annotated and appended, also a write by
    one of these two pids; the history then still has two writers. The
    handler finishes exactly when the resolver, if this event calls it,
    returns: always for an event of a marked pid or of a name without file
    type, and for any event when the ancestry has no cycle and the depth
    allowed is at least [depthBound]. *)
Theorem two_writers_always_annotated fuel env h event writes :
  let name := FileName (normalizeFileName event) in
  isSourceCodeFile name = true ->
  isSyscallExcluded (Syscall event) = false ->
  SourceCodeMap h !! name = Some writes ->
  twoWriters writes ->
  (forall h' event' fx,
     handleFileEvent fuel env h event = Some (h', event', fx) ->
     event' = normalizeFileName event
     /\ count is_WriteAnnotation fx = 1%nat
     /\ SourceCodeMap h' !! name = Some (writes ++ [event'])
     /\ twoWriters (writes ++ [event']))
  /\ (is_Some (handleFileEvent fuel env h event)
      <-> (callsResolver h event ->
           is_Some (GetToolChain fuel env h (PPid event) (Exe event))))
  /\ (acyclic env h -> (depthBound env h <= fuel)%nat ->
      is_Some (handleFileEvent fuel env h event)).
Proof.
  intros name Hsrc Hx Hw (w1 & w2 & H1 & H2 & Hne).
  split; [|split; [apply handleFileEvent_returns_iff | apply handleFileEvent_is_Some]].
  intros h' event' fx Hrun.
  pose proof (handleFileEvent_inv _ _ _ _ _ _ _ Hrun) as [He _].
  subst name. rewrite <- He in *.
  apply handleFileEvent_source_write in Hrun; [|exact Hsrc | exact Hx].
  rewrite Hw in Hrun.
  assert (Hd : isFromDifferentProcess writes event' = true).
  { apply isFromDifferentProcess_spec.
    destruct (decide (Pid w1 = Pid event')) as [E|E].
    - exists w2. split; [exact H2 | congruence].
    - exists w1. now split. }
  rewrite Hd in Hrun. destruct Hrun as [Hm Hc].
  split; [reflexivity|]. split; [exact Hc|]. split; [exact Hm|].
  exists w1, w2. split; [apply elem_of_app; now left|].
  split; [apply elem_of_app; now left | exact Hne].
Qed.

(** ** The completion marker and the file report *)

Lemma classifyFirstWrite_effects fuel env h event h1 fx :
  classifyFirstWrite fuel env h event = Some (h1, fx) ->
  count is_writeDone fx = 0%nat
  /\ (count is_sendFileEvent fx <= 1)%nat
  /\ (count is_sendFileEvent fx = 1%nat
      <-> ProcessFileMap h !! Pid event = None /\ fileTypeOf (FileName event) <> "")
  /\ (count is_sendFileEvent fx = 0%nat -> h1 = h).
Proof.
  unfold classifyFirstWrite. intros H.
  destruct (ProcessFileMap h !! Pid event) eqn:E.
  - inversion H; subst. cbn. split; [reflexivity|]. split; [lia|].
    split; [|reflexivity]. split; [discriminate | intros [Hn _]; discriminate Hn].
  - case_bool_decide as Hty; cbn in H.
    + inversion H; subst. cbn. split; [reflexivity|]. split; [lia|].
      split; [|reflexivity]. split; [discriminate | intros [_ Hn]; contradiction].
    + destruct (GetToolChain fuel env h (PPid event) (Exe event)); [|discriminate].
      cbn in H. inversion H; subst. rewrite !count_single. cbn.
      split; [reflexivity|]. split; [lia|].
      split; [|discriminate]. split; [intros _; now split | reflexivity].
Qed.

Lemma handleFileEvent_writeDone fuel env h event h' event' fx :
  handleFileEvent fuel env h event = Some (h', event', fx) ->
  count is_writeDone fx
  = if GoString.Contains (FileName (normalizeFileName event)) "post_event.json"
    then 1%nat else 0%nat.
Proof.
  intros Hrun.
  apply handleFileEvent_inv in Hrun as [-> (h1 & fx2 & fx3 & Hc & Ht & ->)].
  apply classifyFirstWrite_effects in Hc as (Hq & _).
  apply trackSourceWrite_history in Ht as (_ & _ & _ & Hd & _).
  rewrite !count_app, Hq, Hd. unfold postEventSignal.
  now destruct (GoString.Contains _ _).
Qed.

Lemma handleFileEvent_calls_returned fuel env h event h' event' fx :
  handleFileEvent fuel env h event = Some (h', event', fx) ->
  handleFileEvent_calls fuel env h event = fx.
Proof.
  unfold handleFileEvent, handleFileEvent_calls.
  destruct (classifyFirstWrite fuel env h (normalizeFileName event)) as [[h1 fx2]|];
    [|discriminate].
  cbn. destruct (trackSourceWrite h1 (normalizeFileName event)) as [h2 fx3].
  intros H. now inversion H.
Qed.

(** X13. On every file event the completion signal is sent once if the
    normalized name contains "post_event.json" and not at all otherwise: it
    does not depend on the state, on the pid or on the syscall, nor on
    whether the handler returns, as the signal comes before the resolver
    call. The effects of a call that returns are the calls it made. The
    handler returns exactly when the resolver, if this event calls it,
    returns; it returns, with the signal as said, when the ancestry has no
    cycle and the depth allowed is at least [depthBound]. *)
Theorem done_signal_per_marker_event fuel env h event :
  let signals :=
    if GoString.Contains (FileName (normalizeFileName event)) "post_event.json"
    then 1%nat else 0%nat in
  count is_writeDone (handleFileEvent_calls fuel env h event) = signals
  /\ (forall h' event' fx,
        handleFileEvent fuel env h event = Some (h', event', fx) ->
        handleFileEvent_calls fuel env h event = fx
        /\ count is_writeDone fx = signals)
  /\ (is_Some (handleFileEvent fuel env h event)
      <-> (callsResolver h event ->
           is_Some (GetToolChain fuel env h (PPid event) (Exe event))))
  /\ (acyclic env h -> (depthBound env h <= fuel)%nat ->
      exists h' fx,
        handleFileEvent fuel env h event = Some (h', normalizeFileName event, fx)
        /\ count is_writeDone fx = signals).
Proof.
  cbn zeta. split; [|split; [|split; [apply handleFileEvent_returns_iff|]]].
  - unfold handleFileEvent_calls.
    destruct (classifyFirstWrite fuel env h (normalizeFileName event))
      as [[h1 fx2]|] eqn:Hc.
    + apply classifyFirstWrite_effects in Hc as (Hq & _).
      destruct (trackSourceWrite h1 (normalizeFileName event)) as [h2 fx3] eqn:Ht.
      apply trackSourceWrite_history in Ht as (_ & _ & _ & Hd & _).
      cbn [snd]. rewrite !count_app, Hq, Hd. unfold postEventSignal.
      now destruct (GoString.Contains _ _).
    + unfold postEventSignal. now destruct (GoString.Contains _ _).
  - intros h' event' fx Hrun.
    split; [exact (handleFileEvent_calls_returned _ _ _ _ _ _ _ Hrun)|].
    exact (handleFileEvent_writeDone _ _ _ _ _ _ _ Hrun).
  - intros Hac Hfuel.
    destruct (handleFileEvent_returns fuel env h event Hac Hfuel) as (h' & fx & Hrun & _).
    exists h', fx. split; [exact Hrun|].
    exact (handleFileEvent_writeDone _ _ _ _ _ _ _ Hrun).
Qed.

Lemma fileTypeOf_some (fileName : string) :
  fileTypeOf fileName <> ""
  <-> GoString.Contains fileName ".git/objects" = true
      \/ (GoString.Contains fileName "/node_modules/" = true
          /\ HasSuffix fileName ".js" = true).
Proof.
  unfold fileTypeOf.
  destruct (GoString.Contains fileName "/node_modules/"), (HasSuffix fileName ".js"),
    (GoString.Contains fileName ".git/objects"); cbn; split;
    try (intros _; first [now left | now right | discriminate]);
    try (intros H; exfalso; now apply H);
    try (intros [H | [H1 H2]]; discriminate).
Qed.

Lemma handleFileEvent_report_count fuel env h event h' event' fx :
  handleFileEvent fuel env h event = Some (h', event', fx) ->
  (count is_sendFileEvent fx <= 1)%nat
  /\ (count is_sendFileEvent fx = 1%nat <-> callsResolver h event)
  /\ (count is_sendFileEvent fx = 0%nat -> ProcessFileMap h' = ProcessFileMap h).
Proof.
  intros Hrun.
  apply handleFileEvent_inv in Hrun as [-> (h1 & fx2 & fx3 & Hc & Ht & ->)].
  apply classifyFirstWrite_effects in Hc as (_ & Hle & Hiff & Hz).
  apply trackSourceWrite_frame in Ht as (Hm & _ & _ & H3).
  rewrite !count_app, H3, (proj2 (postEventSignal_quiet _)), Nat.add_0_r.
  cbn [Nat.add].
  rewrite normalizeFileName_Pid in Hiff.
  split; [exact Hle|]. split; [exact Hiff|].
  intros H0. rewrite Hm. now rewrite (Hz H0).
Qed.

(** X14. A file event is reported exactly when its pid is not yet marked,
    its normalized path has a file type, that is contains ".git/objects",
    or contains "/node_modules/" and ends in ".js", and the resolver
    returns. An event of a marked pid or of any other path is handled for
    every depth allowed, is not reported and does not mark its pid, so a
    later event of the pid can still be reported. An event of an unmarked
    pid and a typed path is handled exactly when the resolver returns, and
    then reported once with the tool the resolver gave, and its pid is
    marked; the resolver returns when the ancestry has no cycle and the
    depth allowed is at least [depthBound]. *)
Theorem file_reported_iff fuel env h event :
  let name := FileName (normalizeFileName event) in
  (callsResolver h event
   <-> ProcessFileMap h !! Pid event = None
       /\ (GoString.Contains name ".git/objects" = true
           \/ (GoString.Contains name "/node_modules/" = true
               /\ HasSuffix name ".js" = true)))
  /\ (forall h' event' fx,
        handleFileEvent fuel env h event = Some (h', event', fx) ->
        (count is_sendFileEvent fx <= 1)%nat
        /\ (count is_sendFileEvent fx = 1%nat <-> callsResolver h event)
        /\ (count is_sendFileEvent fx = 0%nat -> ProcessFileMap h' = ProcessFileMap h))
  /\ (~ callsResolver h event ->
      exists h' fx,
        handleFileEvent fuel env h event = Some (h', normalizeFileName event, fx)
        /\ count is_sendFileEvent fx = 0%nat
        /\ ProcessFileMap h' = ProcessFileMap h)
  /\ (callsResolver h event ->
      forall tool,
        GetToolChain fuel env h (PPid event) (Exe event) = Some tool ->
        exists h' fx,
          handleFileEvent fuel env h event = Some (h', normalizeFileName event, fx)
          /\ fileReports fx
             = [sendFileEvent (CorrelationId h) (Repo h) (fileTypeOf name)
                  (Timestamp event) tool]
          /\ ProcessFileMap h' !! Pid event = Some true)
  /\ (callsResolver h event ->
      GetToolChain fuel env h (PPid event) (Exe event) = None ->
      handleFileEvent fuel env h event = None)
  /\ (callsResolver h event ->
      acyclic env h -> (depthBound env h <= fuel)%nat ->
      exists h' fx,
        handleFileEvent fuel env h event = Some (h', normalizeFileName event, fx)
        /\ count is_sendFileEvent fx = 1%nat).
Proof.
  cbn zeta.
  split; [unfold callsResolver; now rewrite fileTypeOf_some|].
  split; [intros h' event' fx; apply handleFileEvent_report_count|].
  split; [|split; [|split]].
  - intros Hn.
    pose proof (handleFileEvent_without_resolver fuel env h event Hn) as Hrun.
    eexists _, _. split; [exact Hrun|].
    destruct (handleFileEvent_report_count _ _ _ _ _ _ _ Hrun) as (Hle & Hiff & Hz).
    assert (H0 : count is_sendFileEvent
                   (postEventSignal (normalizeFileName event)
                    ++ snd (trackSourceWrite h (normalizeFileName event))) = 0%nat).
    { destruct (count is_sendFileEvent _) as [|[|n]] eqn:E; [reflexivity| |lia].
      exfalso. apply Hn. now apply Hiff. }
    split; [exact H0 | exact (Hz H0)].
  - intros Hr tool Htool.
    pose proof (handleFileEvent_with_resolver fuel env h event Hr) as Hrun.
    rewrite Htool in Hrun. cbn in Hrun.
    eexists _, _. split; [exact Hrun|].
    destruct (trackSourceWrite
                (set_ProcessFileMap (<[Pid event := true]> (ProcessFileMap h)) h)
                (normalizeFileName event)) as [h2 fx3] eqn:Ht.
    apply trackSourceWrite_frame in Ht as (Hm & _ & _ & H3). cbn [fst snd].
    split.
    + pose proof (fileReports_none _ (proj2 (postEventSignal_quiet
                                               (normalizeFileName event)))) as Hq.
      pose proof (fileReports_none _ H3) as Hq3.
      unfold fileReports in *. rewrite !filter_app, Hq. cbn [app].
      rewrite filter_cons_True by reflexivity. now rewrite Hq3.
    + rewrite Hm. cbn. apply lookup_insert_eq.
  - intros Hr Hnone.
    rewrite (handleFileEvent_with_resolver fuel env h event Hr). now rewrite Hnone.
  - intros Hr Hac Hfuel.
    destruct (handleFileEvent_returns fuel env h event Hac Hfuel) as (h' & fx & Hrun & _).
    exists h', fx. split; [exact Hrun|].
    now apply (handleFileEvent_report_count _ _ _ _ _ _ _ Hrun).
Qed.


(** ** Shape of the tool chain *)

Lemma chainLength_le_fuel env h fuel :
  forall ppid exe tool,
    GetToolChain fuel env h ppid exe = Some tool -> (chainLength tool <= fuel)%nat.
Proof.
  induction fuel as [|fuel IH]; intros ppid exe tool H; [discriminate|].
  rewrite GetToolChain_step in H. cbn zeta in H.
  destruct (ProcessMap h !! ppid) as [p|].
  - destruct (GetToolChain fuel env h _ _) as [t|] eqn:E; [|discriminate].
    cbn in H. inversion H; subst. cbn. apply IH in E. lia.
  - destruct (getParentProcessId env !! ppid) as [n|];
      [|inversion H; subst; cbn; lia].
    destruct (getProcessExe env !! ppid) as [path|];
      [|inversion H; subst; cbn; lia].
    destruct (GetToolChain fuel env h _ _) as [t|] eqn:E; [|discriminate].
    cbn in H. inversion H; subst. cbn. apply IH in E. lia.
Qed.

(** X15. When the reported ancestry has no cycle, a chain that
    [GetToolChain] returns has at most one tool more than there are pids
    known to the process table or to the operating system. *)
Theorem chain_length_bounded fuel env h ppid exe tool :
  acyclic env h ->
  GetToolChain fuel env h ppid exe = Some tool ->
  (chainLength tool <= depthBound env h)%nat.
Proof.
  intros Hac H.
  destruct (GetToolChain_returns env h ppid exe Hac) as [t Ht].
  pose proof (Ht (depthBound env h) ltac:(lia)) as Hb.
  destruct (Nat.le_gt_cases fuel (depthBound env h)) as [Hle | Hgt].
  - apply chainLength_le_fuel in H. lia.
  - rewrite (Ht fuel ltac:(lia)) in H. inversion H; subst.
    now apply chainLength_le_fuel in Hb.
Qed.

(** X16. The process table comes first: what the operating system reports
    for a pid that is in the table is never used. Two surroundings that
    differ only there give the same chain. *)
Theorem table_shadows_os fuel env env' h :
  (forall path, openAndCopy env' path = openAndCopy env path) ->
  (forall data, sha256Sum env' data = sha256Sum env data) ->
  (forall pid, ProcessMap h !! pid = None ->
     getParentProcessId env' !! pid = getParentProcessId env !! pid
     /\ getProcessExe env' !! pid = getProcessExe env !! pid) ->
  forall ppid exe,
    GetToolChain fuel env' h ppid exe = GetToolChain fuel env h ppid exe.
Proof.
  intros Hopen Hsum Hos.
  assert (Hck : forall exe, getProgramChecksum env' exe = getProgramChecksum env exe).
  { intros exe. unfold getProgramChecksum. rewrite Hopen.
    destruct (openAndCopy env exe); try reflexivity. now rewrite Hsum. }
  induction fuel as [|fuel IH]; intros ppid exe; [reflexivity|].
  rewrite !GetToolChain_step. cbn zeta. rewrite Hck.
  destruct (ProcessMap h !! ppid) as [p|] eqn:E.
  - now rewrite IH.
  - destruct (Hos ppid E) as [-> ->].
    destruct (getParentProcessId env !! ppid); [|reflexivity].
    destruct (getProcessExe env !! ppid); [|reflexivity].
    now rewrite IH.
Qed.


(** ** The private ranges, byte by byte *)

Lemma subnets_values :
  classAPrivateSubnet
  = Some {| GoNet.IPNet_IP := [10; 0; 0; 0]; GoNet.IPNet_Mask := [255; 0; 0; 0] |}
  /\ classBPrivateSubnet
     = Some {| GoNet.IPNet_IP := [172; 16; 0; 0]; GoNet.IPNet_Mask := [255; 240; 0; 0] |}
  /\ classCPrivateSubnet
     = Some {| GoNet.IPNet_IP := [192; 168; 0; 0]; GoNet.IPNet_Mask := [255; 255; 0; 0] |}
  /\ loopBackSubnet
     = Some {| GoNet.IPNet_IP := [127; 0; 0; 0]; GoNet.IPNet_Mask := [255; 0; 0; 0] |}
  /\ ipv6LinkLocalSubnet
     = Some {| GoNet.IPNet_IP := [254; 128; 0; 0; 0; 0; 0; 0; 0; 0; 0; 0; 0; 0; 0; 0];
               GoNet.IPNet_Mask := [255; 192; 0; 0; 0; 0; 0; 0; 0; 0; 0; 0; 0; 0; 0; 0] |}
  /\ ipv6LocalSubnet
     = Some {| GoNet.IPNet_IP := [252; 0; 0; 0; 0; 0; 0; 0; 0; 0; 0; 0; 0; 0; 0; 0];
               GoNet.IPNet_Mask := [254; 0; 0; 0; 0; 0; 0; 0; 0; 0; 0; 0; 0; 0; 0; 0] |}.
Proof. repeat (split; [vm_compute; reflexivity|]). vm_compute; reflexivity. Qed.

Lemma land_byte_255 (b : Z) : isByte b -> Z.land b 255 = b.
Proof.
  intros Hb. change 255 with (Z.ones 8). rewrite Z.land_ones by lia.
  apply Z.mod_small. unfold isByte in Hb. lia.
Qed.

Lemma byte_cases (P : Z -> bool) :
  forallb P (seqZ 0 256) = true -> forall b, isByte b -> P b = true.
Proof.
  intros Hall b Hb. rewrite forallb_forall in Hall. apply Hall.
  apply list_elem_of_In, elem_of_seqZ. unfold isByte in Hb. lia.
Qed.

Lemma land_240_16 (b : Z) :
  isByte b -> (Z.land b 240 =? 16) = (16 <=? b) && (b <=? 31).
Proof.
  intros Hb.
  apply (byte_cases (fun b => Bool.eqb (Z.land b 240 =? 16) ((16 <=? b) && (b <=? 31))))
    in Hb; [|vm_compute; reflexivity].
  now apply eqb_prop in Hb.
Qed.

Lemma Contains_IPv4 n0 n1 n2 n3 m0 m1 m2 m3 a b c d :
  GoNet.Contains {| GoNet.IPNet_IP := [n0; n1; n2; n3];
                    GoNet.IPNet_Mask := [m0; m1; m2; m3] |} (GoNet.IPv4 a b c d)
  = bool_decide ([Z.land n0 m0; Z.land n1 m1; Z.land n2 m2; Z.land n3 m3]
                 = [Z.land a m0; Z.land b m1; Z.land c m2; Z.land d m3]).
Proof. reflexivity. Qed.

Lemma list4_eqb (x0 x1 x2 x3 y0 y1 y2 y3 : Z) :
  bool_decide ([x0; x1; x2; x3] = [y0; y1; y2; y3])
  = (y0 =? x0) && (y1 =? x1) && (y2 =? x2) && (y3 =? x3).
Proof.
  destruct (y0 =? x0) eqn:E0, (y1 =? x1) eqn:E1, (y2 =? x2) eqn:E2, (y3 =? x3) eqn:E3;
    cbn; rewrite ?Z.eqb_eq, ?Z.eqb_neq in *;
    first [apply bool_decide_eq_true; congruence
          | apply bool_decide_eq_false; intros H; inversion H; congruence].
Qed.

(** X17. On an address that parses to the IPv4 address a.b.c.d, and is
    not written "0.0.0.0", the classifier answers true exactly for 10/8,
    172.16/12, 192.168/16, 127/8, 169.254/16 and 224.0.0/24; on every
    other IPv4 address, also on 0.0.0.0 written another way, it answers
    false. It never panics. *)
Theorem isPrivateIPAddress_IPv4 (ipAddress : string) (a b c d : Z) :
  isByte a -> isByte b -> isByte c -> isByte d ->
  GoNet.ParseIP ipAddress = GoNet.IPv4 a b c d ->
  ipAddress <> AllZeros ->
  isPrivateIPAddress ipAddress
  = Some ((a =? 10)
          || (a =? 172) && ((16 <=? b) && (b <=? 31))
          || (a =? 192) && (b =? 168)
          || (a =? 127)
          || (a =? 169) && (b =? 254)
          || (a =? 224) && (b =? 0) && (c =? 0)).
Proof.
  intros Ha Hb Hc Hd Hparse Hz.
  destruct subnets_values as (SA & SB & SC & SL & SLL & SUL).
  unfold isPrivateIPAddress. rewrite bool_decide_eq_false_2 by exact Hz.
  rewrite Hparse, SA, SB, SC, SL, SLL, SUL.
  cbn [subnetContains mbind option_bind].
  rewrite !Contains_IPv4, !list4_eqb.
  rewrite !(land_byte_255 a Ha), !(land_byte_255 b Hb), !Z.land_0_r.
  change (Z.land 10 255) with 10. change (Z.land 172 255) with 172.
  change (Z.land 16 240) with 16. change (Z.land 192 255) with 192.
  change (Z.land 168 255) with 168. change (Z.land 127 255) with 127.
  rewrite (land_240_16 b Hb). cbn [Z.eqb andb].
  rewrite !andb_true_r.
  change (GoNet.Contains _ (GoNet.IPv4 a b c d)) with false.
  change (GoNet.IsLoopback (GoNet.IPv4 a b c d)) with (a =? 127).
  change (GoNet.IsLinkLocalUnicast (GoNet.IPv4 a b c d))
    with ((a =? 169) && (b =? 254)).
  change (GoNet.IsLinkLocalMulticast (GoNet.IPv4 a b c d))
    with ((a =? 224) && (b =? 0) && (c =? 0)).
  destruct (a =? 10), (a =? 172), (a =? 192), (a =? 127), (a =? 169), (a =? 224),
    ((16 <=? b) && (b <=? 31)), (b =? 168), (b =? 254), (b =? 0), (c =? 0);
    reflexivity.
Qed.

Lemma cons_eqb (x y : Z) (l l' : list Z) :
  bool_decide (x :: l = y :: l') = (y =? x) && bool_decide (l = l').
Proof.
  destruct (y =? x) eqn:E; cbn; rewrite ?Z.eqb_eq, ?Z.eqb_neq in *.
  - subst. apply bool_decide_ext. split; [intros H; now inversion H | now intros ->].
  - apply bool_decide_eq_false. intros H; inversion H; congruence.
Qed.

(** X18. On an address that parses to sixteen bytes that are not an
    IPv4-mapped address, the classifier answers true exactly for fe80::/10,
    fc00::/7, the loopback address ::1 and the link-local multicast
    addresses (first byte ff, low four bits of the second byte 2); on every
    other IPv6 address it answers false. It never panics. *)
Theorem isPrivateIPAddress_IPv6 (ipAddress : string) (ip : list Z) :
  GoNet.ParseIP ipAddress = ip ->
  length ip = 16%nat ->
  Forall isByte ip ->
  GoNet.To4 ip = [] ->
  isPrivateIPAddress ipAddress
  = Some ((GoNet.at_ ip 0 =? 254) && (Z.land (GoNet.at_ ip 1) 192 =? 128)
          || (Z.land (GoNet.at_ ip 0) 254 =? 252)
          || bool_decide (ip = GoNet.IPv6loopback)
          || (GoNet.at_ ip 0 =? 255) && (Z.land (GoNet.at_ ip 1) 15 =? 2)).
Proof.
  intros Hparse Hlen Hbytes Hv6.
  assert (Hz : ipAddress <> AllZeros).
  { intros ->. rewrite <- Hparse in Hv6. vm_compute in Hv6. discriminate Hv6. }
  destruct subnets_values as (SA & SB & SC & SL & SLL & SUL).
  unfold isPrivateIPAddress. rewrite bool_decide_eq_false_2 by exact Hz.
  rewrite Hparse, SA, SB, SC, SL, SLL, SUL.
  cbn [subnetContains mbind option_bind].
  do 17 (destruct ip as [|? ip]; try discriminate Hlen). clear Hlen.
  repeat match goal with
         | H : Forall isByte (_ :: _) |- _ => apply Forall_cons in H as [? H]
         end.
  unfold GoNet.Contains, GoNet.IsLoopback, GoNet.IsLinkLocalUnicast,
    GoNet.IsLinkLocalMulticast.
  rewrite Hv6.
  change (GoNet.networkNumberAndMask
            {| GoNet.IPNet_IP := [254; 128; 0; 0; 0; 0; 0; 0; 0; 0; 0; 0; 0; 0; 0; 0];
               GoNet.IPNet_Mask := [255; 192; 0; 0; 0; 0; 0; 0; 0; 0; 0; 0; 0; 0; 0; 0] |})
    with ([254; 128; 0; 0; 0; 0; 0; 0; 0; 0; 0; 0; 0; 0; 0; 0],
          [255; 192; 0; 0; 0; 0; 0; 0; 0; 0; 0; 0; 0; 0; 0; 0]).
  change (GoNet.networkNumberAndMask
            {| GoNet.IPNet_IP := [252; 0; 0; 0; 0; 0; 0; 0; 0; 0; 0; 0; 0; 0; 0; 0];
               GoNet.IPNet_Mask := [254; 0; 0; 0; 0; 0; 0; 0; 0; 0; 0; 0; 0; 0; 0; 0] |})
    with ([252; 0; 0; 0; 0; 0; 0; 0; 0; 0; 0; 0; 0; 0; 0; 0],
          [254; 0; 0; 0; 0; 0; 0; 0; 0; 0; 0; 0; 0; 0; 0; 0]).
  cbn -[Z.land bool_decide Z.eqb].
  rewrite !cons_eqb, !Z.land_0_r.
  change (Z.land 254 255) with 254. change (Z.land 128 192) with 128.
  change (Z.land 252 254) with 252.
  rewrite (land_byte_255 z) by assumption.
  change (0 =? 0) with true. cbn [andb].
  change (bool_decide (@nil Z = [])) with true. rewrite !andb_true_r.
  unfold GoNet.bytesEqual.
  match goal with
  | |- context [bool_decide ?P] => destruct (bool_decide P)
  end;
    destruct (z =? 254), (Z.land z0 192 =? 128), (Z.land z 254 =? 252),
      (z =? 255), (Z.land z0 15 =? 2); reflexivity.
Qed.

(** ** The normalized file name *)

Lemma HasPrefix_slash (s : string) (rest : list ascii) :
  bytes s = GoPath.slash :: rest -> HasPrefix s "/" = true.
Proof.
  intros H. unfold HasPrefix, len, eqb_bytes. rewrite H. reflexivity.
Qed.

Lemma backtrack_bottom (r : list ascii) :
  r <> [] -> exists r', GoPath.backtrack (r ++ [GoPath.slash]) 1 = r' ++ [GoPath.slash].
Proof.
  induction r as [|c r IH]; intros Hne; [contradiction|].
  cbn [app GoPath.backtrack].
  destruct ((1 <? length (r ++ [GoPath.slash]))%nat && negb (GoPath.is_slash c)) eqn:E.
  - apply IH. intros ->. cbn in E. discriminate E.
  - now exists r.
Qed.

(** A rooted path stays rooted while [path.Clean] rewrites it. *)
Lemma clean_loop_rooted (fuel : nat) :
  forall rest r,
    exists r', GoPath.clean_loop fuel true rest (r ++ [GoPath.slash]) 1
               = r' ++ [GoPath.slash].
Proof.
  induction fuel as [|fuel IH]; intros rest r; [now exists r|].
  cbn [GoPath.clean_loop].
  destruct rest as [|c0 rest1]; [now exists r|].
  destruct (GoPath.is_slash c0); [apply IH|].
  destruct (GoPath.is_dot c0 && _); [apply IH|].
  destruct (GoPath.is_dot c0 && _).
  - destruct (1 <? length (r ++ [GoPath.slash]))%nat eqn:E.
    + destruct (backtrack_bottom r) as [r' ->]; [|apply IH].
      intros ->. cbn in E. discriminate E.
    + cbn [negb]. apply IH.
  - cbn [andb orb negb].
    destruct (GoPath.span_element (c0 :: rest1)) as [el rest2].
    destruct (negb (length (r ++ [GoPath.slash]) =? 1)%nat || false).
    + replace (rev el ++ GoPath.slash :: r ++ [GoPath.slash])
        with ((rev el ++ GoPath.slash :: r) ++ [GoPath.slash])
        by (now rewrite <- app_assoc).
      apply IH.
    + rewrite app_assoc. apply IH.
Qed.

Lemma Clean_rooted (path : string) (rest : list ascii) :
  bytes path = GoPath.slash :: rest -> HasPrefix (GoPath.Clean path) "/" = true.
Proof.
  intros H. unfold GoPath.Clean. rewrite H.
  change (GoPath.is_slash GoPath.slash) with true. cbn iota.
  destruct (clean_loop_rooted (length rest) rest []) as [r' Hr]. cbn [app] in Hr.
  rewrite Hr.
  destruct (r' ++ [GoPath.slash]) as [|c out] eqn:E.
  { now destruct r'. }
  rewrite <- E, rev_app_distr. cbn [rev app].
  apply (HasPrefix_slash _ (rev r')). now rewrite bytes_str.
Qed.

Lemma Join_rooted (dir name : string) :
  HasPrefix dir "/" = true -> HasPrefix (GoPath.Join [dir; name]) "/" = true.
Proof.
  intros Hd. apply HasPrefix_split in Hd as [rest Hrest]. cbn [bytes app] in Hrest.
  change (bytes "/") with [GoPath.slash] in Hrest. cbn [app] in Hrest.
  unfold GoPath.Join. cbn [fold_right]. unfold len at 1. rewrite Hrest.
  cbn [length Nat.add Nat.eqb GoPath.join_buf]. rewrite Hrest.
  apply (Clean_rooted _ (rest ++ GoPath.slash :: bytes name)).
  now rewrite bytes_str.
Qed.

(** X19. An event whose working directory is absolute leaves the file
    handler with an absolute file name, and the handler leaves such an
    event as it is when it is delivered once more: the name is rewritten at
    most once. *)
Theorem normalized_name_is_absolute (event : Event) :
  HasPrefix (Path event) "/" = true ->
  HasPrefix (FileName (normalizeFileName event)) "/" = true
  /\ normalizeFileName (normalizeFileName event) = normalizeFileName event
  /\ forall fuel env h h' event' fx,
       handleFileEvent fuel env h (normalizeFileName event) = Some (h', event', fx) ->
       event' = normalizeFileName event.
Proof.
  intros Hp.
  assert (Habs : HasPrefix (FileName (normalizeFileName event)) "/" = true).
  { unfold normalizeFileName.
    destruct (HasPrefix (FileName event) "/") eqn:E; cbn [negb]; [exact E|].
    cbn. now apply Join_rooted. }
  assert (Hid : normalizeFileName (normalizeFileName event) = normalizeFileName event).
  { unfold normalizeFileName at 1. now rewrite Habs. }
  split; [exact Habs|]. split; [exact Hid|].
  intros fuel env h h' event' fx Hrun.
  apply handleFileEvent_inv in Hrun as [-> _]. exact Hid.
Qed.

(** ** An ancestry with a cycle stalls the handlers *)

(** X20. When the parent pid of an event is recorded as its own parent, the
    handlers that need the tool chain never return: the file handler on a
    path with a file type from a pid that is not marked, and the network
    handler on a new routable connection of a pid outside every container
    (the container lookup answers with the empty string, or does not
    return) with an executable. *)
Theorem self_parent_stalls_handlers env h event p :
  ProcessMap h !! PPid event = Some p ->
  Process_PPid p = PPid event ->
  (ProcessFileMap h !! Pid event = None ->
   fileTypeOf (FileName (normalizeFileName event)) <> "" ->
   forall fuel, handleFileEvent fuel env h event = None)
  /\ (isPrivateIPAddress (IPAddress event) = Some false ->
      IPAddress event <> "::1" ->
      IPAddress event <> AzureIPAddress env ->
      IPAddress event <> MetadataIPAddress env ->
      ProcessConnectionMap h !! cacheKey event = None ->
      (forall image, GetContainerByPid env (Pid event) = Some image -> image = "") ->
      Exe event <> "" ->
      forall fuel, handleNetworkEvent fuel env h event = None).
Proof.
  intros Hp Hself. split.
  - intros Hnone Hty fuel.
    destruct (normalizeFileName_fields event) as (Hpp & Hexe & _).
    unfold handleFileEvent, classifyFirstWrite.
    rewrite normalizeFileName_Pid, Hnone, Hpp, Hexe.
    rewrite bool_decide_eq_false_2 by exact Hty. cbn [negb].
    now rewrite (GetToolChain_self_parent env h _ p Hp Hself).
  - intros Hpriv H1 H2 H3 Hkey Himg Hexe fuel.
    unfold handleNetworkEvent. rewrite Hpriv. cbn.
    rewrite !bool_decide_eq_false_2 by assumption. cbn [negb andb].
    rewrite Hkey. unfold connectionTool.
    destruct (GetContainerByPid env (Pid event)) as [image|]; [|reflexivity].
    rewrite (Himg image eq_refl). cbn.
    rewrite bool_decide_eq_true_2 by reflexivity.
    rewrite bool_decide_eq_false_2 by exact Hexe. cbn [negb].
    now rewrite (GetToolChain_self_parent env h _ p Hp Hself).
Qed.

(** ** Instances *)

Lemma isSourceCodeFile_iff_dotted_suffix_witness :
  HasSuffix "/repo/src/Main.scala" ".scala" = true
  /\ isSourceCodeFile "/repo/src/Main.scala" = true.
Proof.
  split; [vm_compute; reflexivity|].
  apply (proj2 (isSourceCodeFile_iff_dotted_suffix "/repo/src/Main.scala")).
  exists ".scala". split; [|vm_compute; reflexivity].
  unfold dottedExtensions.
  repeat first [apply list_elem_of_here | apply list_elem_of_further].
Defined.

Lemma excluded_syscall_not_tracked_witness :
  isSourceCodeFile "/repo/main.go" = true
  /\ isSyscallExcluded (Syscall (fileEventBy "9" "main.go" "unlink")) = true
  /\ exists h' event' fx,
       handleFileEvent 1 env0 handler0 (fileEventBy "9" "main.go" "unlink")
       = Some (h', event', fx)
       /\ SourceCodeMap h' = SourceCodeMap handler0
       /\ count is_WriteAnnotation fx = 0%nat.
Proof.
  split; [vm_compute; reflexivity|]. split; [vm_compute; reflexivity|].
  destruct (handleFileEvent 1 env0 handler0 (fileEventBy "9" "main.go" "unlink"))
    as [[[h' event'] fx]|] eqn:Hrun.
  - exists h', event', fx. split; [reflexivity|].
    apply (excluded_syscall_not_tracked 1 env0 handler0
             (fileEventBy "9" "main.go" "unlink") h' event' fx);
      [vm_compute; reflexivity | exact Hrun].
  - vm_compute in Hrun. discriminate Hrun.
Defined.

Lemma HandleEvent_only_adds_witness :
  exists h' event' fx,
    HandleEvent 1 env0 (afterFileEvents [fileEvent "100" "main.go"])
      (fileEvent "200" "main.go") = Some (h', event', fx)
    /\ CorrelationId h' = "run-1"
    /\ exists more,
         SourceCodeMap h' !! "/repo/main.go"
         = Some ([normalizeFileName (fileEvent "100" "main.go")] ++ more).
Proof.
  destruct (HandleEvent 1 env0 (afterFileEvents [fileEvent "100" "main.go"])
              (fileEvent "200" "main.go")) as [[[h' event'] fx]|] eqn:Hrun.
  - exists h', event', fx. split; [reflexivity|].
    destruct (HandleEvent_only_adds 1 env0 _ _ h' event' fx Hrun)
      as (Hc & _ & _ & _ & _ & Hhist).
    split; [rewrite Hc; reflexivity|].
    apply Hhist. vm_compute. reflexivity.
  - vm_compute in Hrun. discriminate Hrun.
Defined.

Lemma handlers_keep_to_their_domain_witness :
  EventType strayEvent <> netMonitorTag env0
  /\ HandleEvent 1 env0 handler0 strayEvent = Some (handler0, strayEvent, []).
Proof.
  split; [discriminate|].
  apply (proj2 (proj2 (proj2 (handlers_keep_to_their_domain 1 env0 handler0 strayEvent))));
    discriminate.
Defined.

Lemma connection_reported_iff_witness :
  (exists h' fx,
     handleNetworkEvent 1 env0 handler0 (netEvent "77" "8.8.8.8" "53")
     = Some (h', netEvent "77" "8.8.8.8" "53", fx)
     /\ count is_sendNetConnection fx = 1%nat)
  /\ isPrivateIPAddress "10.0.0.1" = Some true
  /\ handleNetworkEvent 1 env0 handler0 (netEvent "77" "10.0.0.1" "53")
     = Some (handler0, netEvent "77" "10.0.0.1" "53", [])
  /\ handleNetworkEvent 1 envNoRuntime handler0 (netEvent "77" "8.8.8.8" "53") = None.
Proof.
  split; [|split; [vm_compute; reflexivity|split]].
  - apply (proj2 (proj2 (proj2 (connection_reported_iff 1 env0 handler0
                                  (netEvent "77" "8.8.8.8" "53"))))).
    + repeat split; first [vm_compute; reflexivity | discriminate].
    + exact handler0_acyclic.
    + vm_compute. lia.
    + vm_compute. eexists. reflexivity.
  - apply (proj1 (proj2 (connection_reported_iff 1 env0 handler0
                           (netEvent "77" "10.0.0.1" "53")))).
    intros (Hp & _). vm_compute in Hp. discriminate Hp.
  - rewrite (proj1 (proj2 (proj2 (connection_reported_iff 1 envNoRuntime handler0
                                    (netEvent "77" "8.8.8.8" "53"))))).
    + vm_compute. reflexivity.
    + repeat split; first [vm_compute; reflexivity | discriminate].
Defined.

Lemma GetContainerByPid_first_match_witness :
  GetContainerByPid envNoRuntime "4242" = None
  /\ GetContainerByPid envDocker "4242" = Some "node:18"
  /\ GetContainerByPid envDocker "7" = Some ""
  /\ ((Forall (passedContainer envDocker "7" "") (ContainerList envDocker)
       /\ GetContainerByPid envDocker "7" = Some "")
      \/ (exists before c after,
            ContainerList envDocker = before ++ c :: after
            /\ Forall (passedContainer envDocker "7" "") before
            /\ matchesContainer envDocker "7" "" c
            /\ GetContainerByPid envDocker "7" = Some (Container_Image c))
      \/ (exists before c after,
            ContainerList envDocker = before ++ c :: after
            /\ Forall (passedContainer envDocker "7" "") before
            /\ ContainerInspect envDocker (Container_ID c) = None
            /\ GetContainerByPid envDocker "7" = None)).
Proof.
  split; [exact (proj1 (GetContainerByPid_first_match envNoRuntime "4242") eq_refl)|].
  split; [vm_compute; reflexivity|]. split; [vm_compute; reflexivity|].
  exact (proj2 (GetContainerByPid_first_match envDocker "7") eq_refl).
Defined.

Lemma connection_without_resolver_witness :
  GetContainerByPid envDocker "4242" = Some "node:18"
  /\ (exists h',
        handleNetworkEvent 0 envDocker selfParent (netEvent "4242" "8.8.8.8" "443")
        = Some (h', netEvent "4242" "8.8.8.8" "443",
                [sendNetConnection "run-1" "org/repo" "8.8.8.8" "443" "" "" 9
                   (mkTool "node:18" "node:18" None)]))
  /\ (forall fuel,
        handleNetworkEvent fuel envNoRuntime handler0 (netEvent "77" "8.8.8.8" "53") = None).
Proof.
  split; [vm_compute; reflexivity|]. split.
  - destruct (proj1 (connection_without_resolver envDocker selfParent
                       (netEvent "4242" "8.8.8.8" "443")) "node:18")
      with (fuel := 0%nat) as [[Hn _] | [_ H]].
    + vm_compute. reflexivity.
    + left. discriminate.
    + exfalso. apply Hn.
      repeat split; first [vm_compute; reflexivity | discriminate].
    + eexists. rewrite H. vm_compute. reflexivity.
  - apply (proj2 (connection_without_resolver envNoRuntime handler0
                    (netEvent "77" "8.8.8.8" "53"))).
    + vm_compute. reflexivity.
    + repeat split; first [vm_compute; reflexivity | discriminate].
Defined.

Lemma dispatcher_reports_once_witness :
  exists final trace,
    deliver (HandleEvent 1 env0) handler0 mixedEvents = Some (final, trace)
    /\ netReportsOf (cacheKey (netEvent "77" "8.8.8.8" "53")) trace = 1%nat
    /\ fileReportsOf "31" trace = 1%nat
    /\ (forall key, (netReportsOf key trace <= 1)%nat)
    /\ (forall pid, (fileReportsOf pid trace <= 1)%nat).
Proof.
  destruct (deliver (HandleEvent 1 env0) handler0 mixedEvents)
    as [[final trace]|] eqn:Hrun.
  - exists final, trace. split; [reflexivity|].
    split; [vm_compute in Hrun; inversion Hrun; vm_compute; reflexivity|].
    split; [vm_compute in Hrun; inversion Hrun; vm_compute; reflexivity|].
    exact (dispatcher_reports_once 1 env0 handler0 mixedEvents final trace Hrun).
  - vm_compute in Hrun. discriminate Hrun.
Defined.

Lemma handler0_writersAre (pid : string) : writersAre pid handler0.
Proof. intros file writes H. cbn in H. rewrite lookup_empty in H. discriminate H. Qed.

Lemma sole_writer_never_annotated_witness :
  exists final trace,
    deliver (handleFileEvent 1 env0) handler0
      [fileEvent "100" "main.go"; fileEvent "100" "main.go"; fileEvent "100" "lib.go";
       fileEvent "100" "main.go"] = Some (final, trace)
    /\ count is_WriteAnnotation (effects trace) = 0%nat
    /\ writersAre "100" final.
Proof.
  destruct (deliver (handleFileEvent 1 env0) handler0
              [fileEvent "100" "main.go"; fileEvent "100" "main.go";
               fileEvent "100" "lib.go"; fileEvent "100" "main.go"])
    as [[final trace]|] eqn:Hrun.
  - exists final, trace. split; [reflexivity|].
    apply (sole_writer_never_annotated 1 env0 "100"
             [fileEvent "100" "main.go"; fileEvent "100" "main.go";
              fileEvent "100" "lib.go"; fileEvent "100" "main.go"] handler0 final trace);
      [exact (handler0_writersAre "100") | repeat constructor | exact Hrun].
  - vm_compute in Hrun. discriminate Hrun.
Defined.

Lemma two_writers_always_annotated_witness :
  exists h' fx,
    handleFileEvent 1 env0
      (afterFileEvents [fileEvent "100" "main.go"; fileEvent "200" "main.go"])
      (fileEvent "200" "main.go")
    = Some (h', normalizeFileName (fileEvent "200" "main.go"), fx)
    /\ count is_WriteAnnotation fx = 1%nat.
Proof.
  destruct (two_writers_always_annotated 1 env0
              (afterFileEvents [fileEvent "100" "main.go"; fileEvent "200" "main.go"])
              (fileEvent "200" "main.go")
              [normalizeFileName (fileEvent "100" "main.go");
               normalizeFileName (fileEvent "200" "main.go")])
    as (Hdone & Hiff & _).
  - vm_compute. reflexivity.
  - vm_compute. reflexivity.
  - vm_compute. reflexivity.
  - exists (normalizeFileName (fileEvent "100" "main.go")),
      (normalizeFileName (fileEvent "200" "main.go")).
    split; [apply list_elem_of_here|].
    split; [apply list_elem_of_further, list_elem_of_here|].
    vm_compute. discriminate.
  - destruct (proj2 Hiff) as [[[h' event'] fx] Hrun].
    + intros [_ Hty]. exfalso. apply Hty. vm_compute. reflexivity.
    + destruct (Hdone h' event' fx Hrun) as (-> & Hc & _).
      exists h', fx. split; [exact Hrun | exact Hc].
Defined.

Lemma done_signal_per_marker_event_witness :
  acyclic env0 handler0
  /\ (exists h' fx,
        handleFileEvent 1 env0 handler0 (fileEventBy "5" "out/post_event.json" "unlink")
        = Some (h', normalizeFileName (fileEventBy "5" "out/post_event.json" "unlink"), fx)
        /\ count is_writeDone fx = 1%nat)
  /\ handleFileEvent 5 env0 selfParent (fileEvent "31" ".git/objects/post_event.json")
     = None
  /\ count is_writeDone
       (handleFileEvent_calls 5 env0 selfParent
          (fileEvent "31" ".git/objects/post_event.json")) = 1%nat.
Proof.
  split; [exact handler0_acyclic|]. split; [|split].
  - apply (proj2 (proj2 (proj2 (done_signal_per_marker_event 1 env0 handler0
                                  (fileEventBy "5" "out/post_event.json" "unlink"))))).
    + exact handler0_acyclic.
    + vm_compute. lia.
  - vm_compute. reflexivity.
  - exact (proj1 (done_signal_per_marker_event 5 env0 selfParent
                    (fileEvent "31" ".git/objects/post_event.json"))).
Defined.

Lemma file_reported_iff_witness :
  (exists h' fx,
     handleFileEvent 1 env0 handler0 (fileEvent "31" ".git/objects/ab/cdef")
     = Some (h', normalizeFileName (fileEvent "31" ".git/objects/ab/cdef"), fx)
     /\ count is_sendFileEvent fx = 1%nat)
  /\ (exists h' fx,
        handleFileEvent 0 env0 selfParent (fileEvent "31" "README.md")
        = Some (h', normalizeFileName (fileEvent "31" "README.md"), fx)
        /\ count is_sendFileEvent fx = 0%nat
        /\ ProcessFileMap h' = ProcessFileMap selfParent)
  /\ handleFileEvent 5 env0 selfParent (fileEvent "31" ".git/objects/ab/cdef") = None.
Proof.
  split; [|split].
  - apply (proj2 (proj2 (proj2 (proj2 (proj2
             (file_reported_iff 1 env0 handler0 (fileEvent "31" ".git/objects/ab/cdef"))))))).
    + split; [reflexivity | vm_compute; discriminate].
    + exact handler0_acyclic.
    + vm_compute. lia.
  - apply (proj1 (proj2 (proj2
             (file_reported_iff 0 env0 selfParent (fileEvent "31" "README.md"))))).
    intros [_ Hty]. apply Hty. vm_compute. reflexivity.
  - apply (proj1 (proj2 (proj2 (proj2 (proj2
             (file_reported_iff 5 env0 selfParent (fileEvent "31" ".git/objects/ab/cdef"))))))).
    + split; [reflexivity | vm_compute; discriminate].
    + vm_compute. reflexivity.
Defined.

Lemma chain_length_bounded_witness :
  acyclic envInit threeGenerations
  /\ exists tool,
       GetToolChain 10 envInit threeGenerations "300" "/usr/bin/cc" = Some tool
       /\ chainLength tool = 4%nat
       /\ (chainLength tool <= depthBound envInit threeGenerations)%nat.
Proof.
  split; [exact threeGenerations_acyclic|].
  destruct (GetToolChain 10 envInit threeGenerations "300" "/usr/bin/cc")
    as [tool|] eqn:Hrun.
  - exists tool. split; [reflexivity|].
    split; [vm_compute in Hrun; inversion Hrun; reflexivity|].
    exact (chain_length_bounded 10 envInit threeGenerations "300" "/usr/bin/cc" tool
             threeGenerations_acyclic Hrun).
  - vm_compute in Hrun. discriminate Hrun.
Defined.

Lemma envShadow_agrees (pid : string) :
  ProcessMap threeGenerations !! pid = None ->
  getParentProcessId envShadow !! pid = getParentProcessId envInit !! pid
  /\ getProcessExe envShadow !! pid = getProcessExe envInit !! pid.
Proof.
  intros Hnone.
  assert (Hne : "300" <> pid).
  { intros <-. vm_compute in Hnone. discriminate Hnone. }
  cbn [getParentProcessId getProcessExe envShadow].
  now rewrite !lookup_insert_ne by exact Hne.
Qed.

Lemma table_shadows_os_witness :
  getParentProcessId envShadow !! "300" = Some 999
  /\ getParentProcessId envInit !! "300" = None
  /\ GetToolChain 10 envShadow threeGenerations "300" "/usr/bin/cc"
     = GetToolChain 10 envInit threeGenerations "300" "/usr/bin/cc".
Proof.
  split; [vm_compute; reflexivity|]. split; [vm_compute; reflexivity|].
  apply (table_shadows_os 10 envInit envShadow threeGenerations).
  - reflexivity.
  - reflexivity.
  - exact envShadow_agrees.
Defined.

Lemma isPrivateIPAddress_IPv4_witness :
  GoNet.ParseIP "172.20.1.1" = GoNet.IPv4 172 20 1 1
  /\ isPrivateIPAddress "172.20.1.1" = Some true
  /\ GoNet.ParseIP "::ffff:0.0.0.0" = GoNet.IPv4 0 0 0 0
  /\ isPrivateIPAddress "::ffff:0.0.0.0" = Some false.
Proof.
  split; [vm_compute; reflexivity|]. split.
  - rewrite (isPrivateIPAddress_IPv4 "172.20.1.1" 172 20 1 1);
      first [reflexivity | unfold isByte; lia | vm_compute; reflexivity | discriminate].
  - split; [vm_compute; reflexivity|].
    rewrite (isPrivateIPAddress_IPv4 "::ffff:0.0.0.0" 0 0 0 0);
      first [reflexivity | unfold isByte; lia | vm_compute; reflexivity | discriminate].
Defined.

Lemma isPrivateIPAddress_IPv6_witness :
  isPrivateIPAddress "fd12:3456::1" = Some true
  /\ isPrivateIPAddress "2001:db8::1" = Some false.
Proof.
  split.
  - rewrite (isPrivateIPAddress_IPv6 "fd12:3456::1"
               [253; 18; 52; 86; 0; 0; 0; 0; 0; 0; 0; 0; 0; 0; 0; 1]).
    + reflexivity.
    + vm_compute. reflexivity.
    + reflexivity.
    + repeat constructor; unfold isByte; lia.
    + vm_compute. reflexivity.
  - rewrite (isPrivateIPAddress_IPv6 "2001:db8::1"
               [32; 1; 13; 184; 0; 0; 0; 0; 0; 0; 0; 0; 0; 0; 0; 1]).
    + reflexivity.
    + vm_compute. reflexivity.
    + reflexivity.
    + repeat constructor; unfold isByte; lia.
    + vm_compute. reflexivity.
Defined.

Lemma normalized_name_is_absolute_witness :
  HasPrefix (Path (fileEvent "100" "src/../main.go")) "/" = true
  /\ FileName (normalizeFileName (fileEvent "100" "src/../main.go")) = "/repo/main.go"
  /\ HasPrefix (FileName (normalizeFileName (fileEvent "100" "src/../main.go"))) "/" = true
  /\ normalizeFileName (normalizeFileName (fileEvent "100" "src/../main.go"))
     = normalizeFileName (fileEvent "100" "src/../main.go").
Proof.
  split; [vm_compute; reflexivity|]. split; [vm_compute; reflexivity|].
  destruct (normalized_name_is_absolute (fileEvent "100" "src/../main.go")
              ltac:(vm_compute; reflexivity)) as (H1 & H2 & _).
  split; [exact H1 | exact H2].
Defined.

Lemma self_parent_stalls_handlers_witness :
  (forall fuel,
     handleFileEvent fuel env0 selfParent (fileEvent "55" ".git/objects/ab/cdef") = None)
  /\ (forall fuel,
        handleNetworkEvent fuel env0 selfParent (netEvent "55" "8.8.8.8" "53") = None).
Proof.
  split.
  - refine (proj1 (self_parent_stalls_handlers env0 selfParent
                     (fileEvent "55" ".git/objects/ab/cdef")
                     {| Process_PID := "1"; Process_PPid := "1";
                        Process_Exe := "/sbin/init";
                        Process_Arguments := ["/sbin/init"] |} _ _) _ _).
    + vm_compute. reflexivity.
    + reflexivity.
    + reflexivity.
    + vm_compute. discriminate.
  - refine (proj2 (self_parent_stalls_handlers env0 selfParent
                     (netEvent "55" "8.8.8.8" "53")
                     {| Process_PID := "1"; Process_PPid := "1";
                        Process_Exe := "/sbin/init";
                        Process_Arguments := ["/sbin/init"] |} _ _) _ _ _ _ _ _ _).
    + vm_compute. reflexivity.
    + reflexivity.
    + vm_compute. reflexivity.
    + discriminate.
    + discriminate.
    + discriminate.
    + reflexivity.
    + intros image Himage. vm_compute in Himage. now inversion Himage.
    + discriminate.
Defined.
